(** * The OnStep command-protocol engine of the INDI drivers OCS and OnStep_Aux

    A shallow embedding of the request/response engine shared by
    [drivers/dome/ocs.h] (class [OCS]) and
    [drivers/auxiliary/onstep_aux.cpp] (class [OnStep_Aux]): response
    framing, the transaction functions, the busy-flag sequencing guard,
    the handshake and the capability discovery; and of the functions of
    the two drivers that call the engine: the poll and the shutter
    control of OCS, the focuser and rotator functions and the
    arbitrary-command field of OnStep Aux.

    Layout: the data model and the embedded functions come first, the
    lemmas and theorems about them follow. *)

From Stdlib Require Import ZArith String Ascii List Bool Lia DecimalString.
From Stdlib Require QArith.
Import ListNotations.

Set Implicit Arguments.

(* ------------------------------------------------------------------ *)
(** * C character buffers *)

Module CStr.

(** A [char] buffer is the list of its cells, index 0 first.  A list
    longer than the declared array stands for the cells that follow the
    array in memory. *)
Definition buffer := list ascii.

Definition NUL : ascii := Ascii.zero.

Definition of_string (s : string) : buffer := list_ascii_of_string s.

(** [char buf[n] = {0}] *)
Definition zeroed (n : nat) : buffer := repeat NUL n.

(** The C string held by a buffer: the cells before the first NUL. *)
Fixpoint c_str (buf : buffer) : list ascii :=
  match buf with
  | [] => []
  | c :: rest => if Ascii.eqb c NUL then [] else c :: c_str rest
  end.

(** [strchr(buf, c)] for [c <> NUL]: the index of the first [c] that
    occurs before the first NUL; [None] is the null pointer.  The scan
    also stops where the modelled cells end. *)
Fixpoint strchr (buf : buffer) (c : ascii) : option nat :=
  match buf with
  | [] => None
  | x :: rest =>
      if Ascii.eqb x c then Some 0
      else if Ascii.eqb x NUL then None
      else option_map S (strchr rest c)
  end.

(** [buf[i] = c].  A store outside the modelled cells leaves them as
    they are. *)
Fixpoint poke (i : nat) (c : ascii) (buf : buffer) : buffer :=
  match buf, i with
  | [], _ => []
  | _ :: rest, O => c :: rest
  | x :: rest, S j => x :: poke j c rest
  end.

(** The bytes a read delivers are stored from index 0 on; the cells
    behind them keep their content. *)
Definition blit (bytes : list ascii) (buf : buffer) : buffer :=
  bytes ++ skipn (length bytes) buf.

Definition eqb (a b : list ascii) : bool :=
  if list_eq_dec ascii_dec a b then true else false.

(** [strcmp(buf, lit) == 0] *)
Definition strcmp_eq (buf : buffer) (lit : string) : bool :=
  eqb (c_str buf) (of_string lit).

Definition isspace (c : ascii) : bool :=
  let n := nat_of_ascii c in
  Nat.eqb n 32 || (Nat.leb 9 n && Nat.leb n 13).

Fixpoint skip_space (s : list ascii) : list ascii :=
  match s with
  | c :: rest => if isspace c then skip_space rest else s
  | [] => []
  end.

Definition isdigit (c : ascii) : bool :=
  let n := nat_of_ascii c in Nat.leb 48 n && Nat.leb n 57.

Definition digit_val (c : ascii) : Z := Z.of_nat (nat_of_ascii c) - 48.

End CStr.

Import CStr.

(** [#define RB_MAX_LEN 64] and [#define CMD_MAX_LEN 32]
    (ocs.h, onstep_aux.h). *)
Definition RB_MAX_LEN : nat := 64.
Definition CMD_MAX_LEN : nat := 32.

(** [enum ResponseErrors {RES_ERR_FORMAT = -1001};] *)
Definition RES_ERR_FORMAT : Z := (-1001)%Z.

Definition terminator : ascii := "#"%char.

(* ------------------------------------------------------------------ *)
(** * Framing *)

(** The framing block that every receiving accessor of both drivers
    carries after its read (e.g.
    [OCS::getCommandSingleCharErrorOrLongResponse]):
<<
    term = strchr(data, '#');
    if (term) *term = '\0';
    if (nbytes_read < RB_MAX_LEN) data[nbytes_read] = '\0';
    else                          data[RB_MAX_LEN - 1] = '\0';
>>
    The result is the buffer after the block together with the indices
    the block stored to, in program order. *)
Definition frame (data : buffer) (nbytes_read : nat) : buffer * list nat :=
  let '(data1, w1) :=
    match strchr data terminator with
    | Some k => (poke k NUL data, [k])
    | None => (data, [])
    end in
  if Nat.ltb nbytes_read RB_MAX_LEN
  then (poke nbytes_read NUL data1, w1 ++ [nbytes_read])
  else (poke (RB_MAX_LEN - 1) NUL data1, w1 ++ [RB_MAX_LEN - 1]).

Definition framed (data : buffer) (nbytes_read : nat) : buffer :=
  fst (frame data nbytes_read).

Definition frame_stores (data : buffer) (nbytes_read : nat) : list nat :=
  snd (frame data nbytes_read).

(** The payload a caller sees in a framed buffer. *)
Definition payload (data : buffer) (nbytes_read : nat) : list ascii :=
  c_str (framed data nbytes_read).

(** Response text as the protocol defines it: no NUL and no terminator
    inside. *)
Definition not_NUL (c : ascii) : bool := negb (Ascii.eqb c NUL).

Definition text_char (c : ascii) : bool :=
  not_NUL c && negb (Ascii.eqb c terminator).

(* ------------------------------------------------------------------ *)
(** * The serial/TCP line (indicom) *)

Module Indicom.

(** Modelled from the spec: [indicom.h] and [indicom.c] (the [TTY_ERROR]
    codes and the [tty_*] calls) are not among the sources of the two
    drivers.  The spec has a transaction return "the byte count
    (success, value > 0), or a non-positive/negative code signaling
    timeout or transport error"; the drivers test the codes against
    [TTY_OK] only.  The codes are the ones of INDI's [enum TTY_ERROR]. *)
Inductive TTY_ERROR :=
| TTY_OK | TTY_READ_ERROR | TTY_WRITE_ERROR | TTY_SELECT_ERROR
| TTY_TIME_OUT | TTY_PORT_FAILURE | TTY_PARAM_ERROR | TTY_ERRNO
| TTY_OVERFLOW | TTY_PORT_BUSY.

Definition tty_code (e : TTY_ERROR) : Z :=
  match e with
  | TTY_OK => 0 | TTY_READ_ERROR => -1 | TTY_WRITE_ERROR => -2
  | TTY_SELECT_ERROR => -3 | TTY_TIME_OUT => -4 | TTY_PORT_FAILURE => -5
  | TTY_PARAM_ERROR => -6 | TTY_ERRNO => -7 | TTY_OVERFLOW => -8
  | TTY_PORT_BUSY => -9
  end%Z.

Definition is_ok (e : TTY_ERROR) : bool :=
  match e with TTY_OK => true | _ => false end.

(** [tcflush]'s queue selector. *)
Inductive queue_selector := TCIFLUSH | TCIOFLUSH.

(** What the line does while one read call waits: the bytes that
    arrive, and the failure the call meets once they are used up
    ([TTY_OK] there stands for plain silence, which times out). *)
Record arrival := { arr_bytes : list ascii; arr_fault : TTY_ERROR }.

Definition fault_of (a : arrival) : TTY_ERROR :=
  match arr_fault a with TTY_OK => TTY_TIME_OUT | e => e end.

Definition silence : arrival := {| arr_bytes := []; arr_fault := TTY_TIME_OUT |}.

Definition delivers (s : string) : arrival :=
  {| arr_bytes := list_ascii_of_string s; arr_fault := TTY_TIME_OUT |}.

(** What is observed at the line, oldest first. *)
Inductive tty_event :=
| EvFlush (q : queue_selector)
| EvWrite (cmd : list ascii) (res : TTY_ERROR)
| EvRead (nbytes : nat) (sec usec : Z) (res : TTY_ERROR) (got : list ascii)
| EvReadSection (stop : ascii) (sec usec : Z) (res : TTY_ERROR) (got : list ascii).

(** The line behind a file descriptor: the verdicts of the coming
    writes, the arrivals of the coming reads, and the events so far.
    A script that has run out stands for a dead line: writes fail and
    reads time out. *)
Record port := {
  line_out : list TTY_ERROR;
  line_in : list arrival;
  events : list tty_event
}.

Definition fresh_port (wr : list TTY_ERROR) (rd : list arrival) : port :=
  {| line_out := wr; line_in := rd; events := [] |}.

Definition observe (ev : tty_event) (p : port) : port :=
  {| line_out := line_out p; line_in := line_in p; events := events p ++ [ev] |}.

(** [tcflush(fd, q)] *)
Definition tcflush (q : queue_selector) (p : port) : port :=
  observe (EvFlush q) p.

(** The verdict of the next write. *)
Definition next_write (p : port) : TTY_ERROR :=
  match line_out p with
  | [] => TTY_WRITE_ERROR
  | r :: _ => r
  end.

(** Modelled from the spec: [tty_write_string(fd, cmd, &nbytes_write)]
    of indicom, "send the command bytes"; its result is [TTY_OK] or the
    failure of the line. *)
Definition tty_write_string (cmd : list ascii) (p : port) : TTY_ERROR * port :=
  let res := next_write p in
  (res, observe (EvWrite cmd res)
          {| line_out := tl (line_out p); line_in := line_in p;
             events := events p |}).

(** What arrives during the next read. *)
Definition next_read (p : port) : arrival :=
  match line_in p with
  | [] => silence
  | a :: _ => a
  end.

(** The line once the next read has taken its arrival. *)
Definition advance (p : port) : port :=
  {| line_out := line_out p; line_in := tl (line_in p); events := events p |}.

(** The verdict and the bytes of a read that asks for [nbytes] bytes:
    it is served when that many bytes arrive; otherwise it fails and
    has received what did arrive. *)
Definition read_result (nbytes : nat) (a : arrival) : TTY_ERROR * list ascii :=
  if Nat.leb nbytes (length (arr_bytes a))
  then (TTY_OK, firstn nbytes (arr_bytes a))
  else (fault_of a, arr_bytes a).

(** Modelled from the spec:
    [tty_read_expanded(fd, buf, nbytes, sec, usec, &nbytes_read)] of
    indicom, "block for at most the configured timeout reading exactly
    one byte" (here [nbytes] bytes).  On a failure the bytes received so
    far stay in [buf] and are counted in [nbytes_read]. *)
Definition tty_read_expanded (buf : buffer) (nbytes : nat) (sec usec : Z)
    (p : port) : TTY_ERROR * buffer * nat * port :=
  let r := read_result nbytes (next_read p) in
  (fst r, blit (snd r) buf, length (snd r),
   observe (EvRead nbytes sec usec (fst r) (snd r)) (advance p)).

(** The bytes up to and including the first [stop], if it arrives. *)
Fixpoint upto (stop : ascii) (bytes : list ascii) : option (list ascii) :=
  match bytes with
  | [] => None
  | c :: rest =>
      if Ascii.eqb c stop then Some [c]
      else option_map (cons c) (upto stop rest)
  end.

(** The verdict and the bytes of a read up to [stop]. *)
Definition section_result (stop : ascii) (a : arrival) : TTY_ERROR * list ascii :=
  match upto stop (arr_bytes a) with
  | Some section => (TTY_OK, section)
  | None => (fault_of a, arr_bytes a)
  end.

(** Modelled from the spec:
    [tty_read_section_expanded(fd, buf, stop, sec, usec, &nbytes_read)]
    of indicom, "block for at most the configured timeout reading bytes
    up to and including the terminator".  The call has no parameter for
    the size of [buf]. *)
Definition tty_read_section_expanded (buf : buffer) (stop : ascii)
    (sec usec : Z) (p : port) : TTY_ERROR * buffer * nat * port :=
  let r := section_result stop (next_read p) in
  (fst r, blit (snd r) buf, length (snd r),
   observe (EvReadSection stop sec usec (fst r) (snd r)) (advance p)).

(** The arrival that the read of the next transaction meets: the one
    behind the arrival that the discard read of [flushIO] takes. *)
Definition answer (p : port) : arrival := next_read (advance p).

End Indicom.

Import Indicom.

(** C++'s conversion of an [int] to [bool]. *)
Definition bool_of_int (z : Z) : bool := negb (Z.eqb z 0).

(* ------------------------------------------------------------------ *)
(** * Numeric conversions of the C and C++ libraries *)

Module Libc.

(** [std::invalid_argument] and [std::out_of_range]. *)
Inductive exn := invalid_argument | out_of_range.

Fixpoint take_digits (s : list ascii) : list ascii :=
  match s with
  | c :: rest => if isdigit c then c :: take_digits rest else []
  | [] => []
  end.

Definition decimal_value (ds : list ascii) : Z :=
  fold_left (fun acc c => acc * 10 + digit_val c)%Z ds 0%Z.

Definition is_octal (c : ascii) : bool :=
  let n := nat_of_ascii c in Nat.leb 48 n && Nat.leb n 55.

Definition hex_val (c : ascii) : option Z :=
  let n := nat_of_ascii c in
  if Nat.leb 48 n && Nat.leb n 57 then Some (Z.of_nat n - 48)%Z
  else if Nat.leb 65 n && Nat.leb n 70 then Some (Z.of_nat n - 55)%Z
  else if Nat.leb 97 n && Nat.leb n 102 then Some (Z.of_nat n - 87)%Z
  else None.

Fixpoint radix_value (base : Z) (digit : ascii -> option Z)
    (s : list ascii) (acc : Z) : Z :=
  match s with
  | c :: rest =>
      match digit c with
      | Some d => radix_value base digit rest (acc * base + d)%Z
      | None => acc
      end
  | [] => acc
  end.

Definition octal_val (c : ascii) : option Z :=
  if is_octal c then Some (digit_val c) else None.

Definition decimal_val (c : ascii) : option Z :=
  if isdigit c then Some (digit_val c) else None.

(** An optional sign in front of a number. *)
Definition split_sign (s : list ascii) : bool * list ascii :=
  match s with
  | "-"%char :: rest => (true, rest)
  | "+"%char :: rest => (false, rest)
  | _ => (false, s)
  end.

Definition signed (neg : bool) (v : Z) : Z := if neg then (- v)%Z else v.

Definition INT_MIN : Z := (-2147483648)%Z.
Definition INT_MAX : Z := 2147483647%Z.
Definition LONG_MIN : Z := (-9223372036854775808)%Z.
Definition LONG_MAX : Z := 9223372036854775807%Z.

(** [strtol]'s clamping on a 64-bit [long]. *)
Definition clamp_long (v : Z) : Z := Z.max LONG_MIN (Z.min LONG_MAX v).

(** The conversion of a [long] that is stored into an [int]. *)
Definition to_int (v : Z) : Z :=
  ((v + 2147483648) mod 4294967296 - 2147483648)%Z.

(** [sscanf(s, "%i", &value)] as the GNU C library does it: white space
    is skipped, a sign is optional, a leading [0x] selects base 16, a
    leading [0] base 8, at least one digit has to be there.  [Some v]
    is the return value 1 with [v] stored; [None] is every other return
    value (0, or [EOF] on an empty input), with nothing stored. *)
Definition sscanf_i (s : list ascii) : option Z :=
  let '(neg, body) := split_sign (skip_space s) in
  match body with
  | "0"%char :: rest =>
      match rest with
      | x :: digits =>
          if Ascii.eqb x "x"%char || Ascii.eqb x "X"%char
          then Some (to_int (clamp_long (signed neg (radix_value 16 hex_val digits 0))))
          else Some (to_int (clamp_long (signed neg (radix_value 8 octal_val rest 0))))
      | [] => Some 0%Z
      end
  | c :: _ =>
      if isdigit c
      then Some (to_int (clamp_long (signed neg (radix_value 10 decimal_val body 0))))
      else None
  | [] => None
  end.

Definition lower (c : ascii) : ascii :=
  let n := nat_of_ascii c in
  if Nat.leb 65 n && Nat.leb n 90 then ascii_of_nat (n + 32) else c.

(** Whether a floating-point conversion ([strtod], [strtof], [%lf])
    finds a number at the head of [s]: after white space and an
    optional sign, a digit, a point followed by a digit, or one of the
    words [inf] and [nan] in any case.  (Hexadecimal floating
    constants are not told apart from the decimal [0] they start
    with.) *)
Definition float_head (s : list ascii) : bool :=
  let '(_, body) := split_sign (skip_space s) in
  match body with
  | c :: rest =>
      if isdigit c then true
      else if Ascii.eqb c "."%char
      then match rest with d :: _ => isdigit d | [] => false end
      else CStr.eqb (map lower (firstn 3 body)) (of_string "inf")
           || CStr.eqb (map lower (firstn 3 body)) (of_string "nan")
  | [] => false
  end.

(** A converted floating-point value is kept as the text it was
    converted from; its rounding to [float] or [double] is not
    modelled. *)
Definition numeral := list ascii.

(** [sscanf(s, "%lf", &value)]: [Some] is the return value 1. *)
Definition sscanf_lf (s : list ascii) : option numeral :=
  if float_head s then Some (skip_space s) else None.

(** [std::stof(s)]: throws [std::invalid_argument] when no conversion
    can be performed.  (The [std::out_of_range] of a value outside the
    range of [float] is not modelled.) *)
Definition stof (s : list ascii) : exn + numeral :=
  if float_head s then inr (skip_space s) else inl invalid_argument.

(** [std::stoi(s)]: base 10; [std::invalid_argument] when there is no
    digit, [std::out_of_range] when the value does not fit an [int]. *)
Definition stoi (s : list ascii) : exn + Z :=
  let '(neg, body) := split_sign (skip_space s) in
  match take_digits body with
  | [] => inl invalid_argument
  | ds =>
      let v := signed neg (decimal_value ds) in
      if (Z.leb INT_MIN v && Z.leb v INT_MAX)%bool then inr v
      else inl out_of_range
  end.


(** [atoi(s)], i.e. [(int) strtol(s, NULL, 10)]: 0 when there is no
    digit. *)
Definition atoi (s : list ascii) : Z :=
  let '(neg, body) := split_sign (skip_space s) in
  to_int (clamp_long (signed neg (decimal_value (take_digits body)))).

(** The tokens that successive [strtok(s, delim)], [strtok(NULL, delim)]
    calls return for a one-character [delim]: the maximal runs without
    the delimiter. *)
Fixpoint tokens_from (delim : ascii) (s cur : list ascii) : list (list ascii) :=
  match s with
  | [] => match cur with [] => [] | _ => [rev cur] end
  | c :: rest =>
      if Ascii.eqb c delim
      then match cur with
           | [] => tokens_from delim rest []
           | _ => rev cur :: tokens_from delim rest []
           end
      else tokens_from delim rest (c :: cur)
  end.

Definition strtok_all (s : list ascii) (delim : ascii) : list (list ascii) :=
  tokens_from delim s [].

End Libc.

Import Libc.

(* ------------------------------------------------------------------ *)
(** * Calls with state, exceptions and non-termination *)

(** How a member function ends: it returns, it leaves by a C++
    exception, it never returns (the wait loop of [blockUntilClear]), or
    it runs into undefined behaviour (a null pointer handed to [atoi]). *)
Inductive outcome (S A : Type) : Type :=
| Done (a : A) (s : S)
| Thrown (e : exn) (s : S)
| Spins (s : S)
| Undefined (s : S).

Arguments Done {S A} a s.
Arguments Thrown {S A} e s.
Arguments Spins {S A} s.
Arguments Undefined {S A} s.

Definition M (S A : Type) : Type := S -> outcome S A.

Definition ret {S A} (a : A) : M S A := fun s => Done a s.

Definition bind {S A B} (m : M S A) (k : A -> M S B) : M S B :=
  fun s =>
    match m s with
    | Done a s1 => k a s1
    | Thrown e s1 => Thrown e s1
    | Spins s1 => Spins s1
    | Undefined s1 => Undefined s1
    end.

Definition throw {S A} (e : exn) : M S A := fun s => Thrown e s.
Definition undefined {S A} : M S A := fun s => Undefined s.
Definition get {S} : M S S := fun s => Done s s.
Definition modify {S} (f : S -> S) : M S unit := fun s => Done tt (f s).

(** The state an outcome ends in. *)
Definition final {S A} (o : outcome S A) : S :=
  match o with
  | Done _ s | Thrown _ s | Spins s | Undefined s => s
  end.

(** The value of an outcome that returned. *)
Definition returned {S A} (o : outcome S A) : option A :=
  match o with Done a _ => Some a | _ => None end.

(** The exception of an outcome that threw. *)
Definition thrown {S A} (o : outcome S A) : option exn :=
  match o with Thrown e _ => Some e | _ => None end.

(** Whether the call never returns. *)
Definition hangs {S A} (o : outcome S A) : bool :=
  match o with Spins _ => true | _ => false end.

Declare Scope call_scope.
Delimit Scope call_scope with call.
Notation "x <- m ;; k" := (bind m (fun x => k))
  (at level 61, m at next level, right associativity) : call_scope.
Notation "' p <- m ;; k" := (bind m (fun x => let p := x in k))
  (at level 61, p pattern, m at next level, right associativity) : call_scope.
Notation "m ;;; k" := (bind m (fun _ => k))
  (at level 61, right associativity) : call_scope.

(** The transport kinds a driver registers. *)
Inductive connection := CONNECTION_SERIAL | CONNECTION_TCP.

(** [Connection::Interface::name()] *)
Definition name (c : connection) : string :=
  match c with
  | CONNECTION_SERIAL => "CONNECTION_SERIAL"
  | CONNECTION_TCP => "CONNECTION_TCP"
  end.

(** The discard loop of [flushIO] (the same in both drivers):
<<
    do {
        char discard_data[RB_MAX_LEN] = {0};
        error_type = tty_read_section_expanded(fd, discard_data, '#', 0, 1000, &nbytes_read);
        ...
    } while (error_type > 0);
>>
    One unit of fuel pays for one pass; [None] is fuel used up.
    [flushIO] grants one pass for each arrival waiting on the line and
    one more. *)
Fixpoint discard_loop (fuel : nat) (p : port) : option port :=
  match fuel with
  | O => None
  | S fuel' =>
      let '(error_type, _, _, p1) :=
        tty_read_section_expanded (zeroed RB_MAX_LEN) terminator 0 1000 p in
      if (0 <? tty_code error_type)%Z then discard_loop fuel' p1 else Some p1
  end.

(** The line after the two [tcflush(fd, TCIOFLUSH)] and one discard read
    of [flushIO]. *)
Definition flushed_line (p : port) : port :=
  let '(_, _, _, p1) :=
    tty_read_section_expanded (zeroed RB_MAX_LEN) terminator 0 1000
      (tcflush TCIOFLUSH (tcflush TCIOFLUSH p)) in
  p1.

(** ** Notions used in the statements *)

(** The caller's buffer after a read up to the terminator has stored the
    bytes of [a] into [data] and the framing block has run, and the
    payload in it. *)
Definition section_framed (data : buffer) (a : arrival) : buffer :=
  framed (blit (snd (section_result terminator a)) data)
         (length (snd (section_result terminator a))).

Definition section_payload (data : buffer) (a : arrival) : list ascii :=
  c_str (section_framed data a).

(** The same for a read of one byte. *)
Definition byte_framed (data : buffer) (a : arrival) : buffer :=
  framed (blit (snd (read_result 1 a)) data) (length (snd (read_result 1 a))).

Definition byte_payload (data : buffer) (a : arrival) : list ascii :=
  c_str (byte_framed data a).

(** The line after [flushIO], [tcflush(fd, TCIFLUSH)] and the write of
    [cmd]; and after the read up to the terminator with the timeouts
    [sec], [usec] and the [tcflush(fd, TCIFLUSH)] behind it. *)
Definition line_written (cmd : list ascii) (p : port) : port :=
  snd (tty_write_string cmd (tcflush TCIFLUSH (flushed_line p))).

Definition line_answered (sec usec : Z) (cmd : list ascii) (p : port) : port :=
  tcflush TCIFLUSH
    (observe (EvReadSection terminator sec usec
                (fst (section_result terminator (answer p)))
                (snd (section_result terminator (answer p))))
             (advance (line_written cmd p))).

(** The value that the accessors for long responses return after a
    write that succeeded. *)
Definition section_return (a : arrival) : Z :=
  if is_ok (fst (section_result terminator a))
  then Z.of_nat (length (snd (section_result terminator a)))
  else tty_code (fst (section_result terminator a)).

(** The caller's buffer after the exchange of one command for a long
    response: untouched when the write fails. *)
Definition exchanged (data : buffer) (p : port) : buffer :=
  if is_ok (next_write p) then section_framed data (answer p) else data.

(** The timeout pair (seconds, microseconds) of a read. *)
Definition read_wait (ev : tty_event) : option (Z * Z) :=
  match ev with
  | EvRead _ sec usec _ _ => Some (sec, usec)
  | EvReadSection _ sec usec _ _ => Some (sec, usec)
  | _ => None
  end.





(** What [flushIO] does hold to: the wait of each of its reads. *)
Definition waits_a_millisecond (ev : tty_event) : Prop :=
  match read_wait ev with
  | Some w => w = (0%Z, 1000%Z)
  | None => True
  end.

(** The latest event at the line. *)
Definition last_event (p : port) : option tty_event :=
  last (map Some (events p)) None.

(** The commands written so far, oldest first. *)
Definition written (p : port) : list (list ascii) :=
  flat_map (fun ev => match ev with EvWrite cmd _ => [cmd] | _ => [] end)
           (events p).

(* ------------------------------------------------------------------ *)
(** * The OCS dome driver (drivers/dome/ocs.h) *)

Module OCS.

(** Commands of the OCS lexicon that the modelled functions send. *)
Definition OCS_handshake : list ascii := of_string ":IP#".
Definition OCS_get_timeouts : list ascii := of_string ":IT".
Definition OCS_get_dome_status : list ascii := of_string ":DU#".

(** The [INDI::Dome] capability bits the driver sets. *)
Inductive DomeCapability :=
| DOME_CAN_ABORT | DOME_CAN_ABS_MOVE | DOME_CAN_PARK | DOME_CAN_SYNC
| DOME_HAS_BACKLASH | DOME_HAS_SHUTTER.

(** The members of [class OCS] that the protocol engine uses, and the
    line behind [PortFD]. *)
Record state := {
  PortFD : Z;
  activeConnection : connection;
  OCSTimeoutSeconds : Z;
  OCSTimeoutMicroSeconds : Z;
  capability : list DomeCapability;
  ROOF_TIME_PRE_MOTION : Z;
  ROOF_TIME_POST_MOTION : Z;
  tty : port
}.

(** The driver as [OCS::OCS()] and the member initialisers leave it. *)
Definition constructed (fd : Z) (c : connection) (p : port) : state :=
  {| PortFD := fd; activeConnection := c;
     OCSTimeoutSeconds := 0; OCSTimeoutMicroSeconds := 100000;
     capability := [DOME_CAN_ABORT; DOME_HAS_SHUTTER];
     ROOF_TIME_PRE_MOTION := 0; ROOF_TIME_POST_MOTION := 0;
     tty := p |}.

Definition set_tty (p : port) (s : state) : state :=
  {| PortFD := PortFD s; activeConnection := activeConnection s;
     OCSTimeoutSeconds := OCSTimeoutSeconds s;
     OCSTimeoutMicroSeconds := OCSTimeoutMicroSeconds s;
     capability := capability s;
     ROOF_TIME_PRE_MOTION := ROOF_TIME_PRE_MOTION s;
     ROOF_TIME_POST_MOTION := ROOF_TIME_POST_MOTION s;
     tty := p |}.

Definition set_timeouts (sec usec : Z) (s : state) : state :=
  {| PortFD := PortFD s; activeConnection := activeConnection s;
     OCSTimeoutSeconds := sec;
     OCSTimeoutMicroSeconds := usec;
     capability := capability s;
     ROOF_TIME_PRE_MOTION := ROOF_TIME_PRE_MOTION s;
     ROOF_TIME_POST_MOTION := ROOF_TIME_POST_MOTION s;
     tty := tty s |}.

(** [SetDomeCapability(cap)] *)
Definition SetDomeCapability (cap : list DomeCapability) (s : state) : state :=
  {| PortFD := PortFD s; activeConnection := activeConnection s;
     OCSTimeoutSeconds := OCSTimeoutSeconds s;
     OCSTimeoutMicroSeconds := OCSTimeoutMicroSeconds s;
     capability := cap;
     ROOF_TIME_PRE_MOTION := ROOF_TIME_PRE_MOTION s;
     ROOF_TIME_POST_MOTION := ROOF_TIME_POST_MOTION s;
     tty := tty s |}.

Definition set_roof_times (pre post : Z) (s : state) : state :=
  {| PortFD := PortFD s; activeConnection := activeConnection s;
     OCSTimeoutSeconds := OCSTimeoutSeconds s;
     OCSTimeoutMicroSeconds := OCSTimeoutMicroSeconds s;
     capability := capability s;
     ROOF_TIME_PRE_MOTION := pre;
     ROOF_TIME_POST_MOTION := post;
     tty := tty s |}.

Local Open Scope call_scope.

(** A call on the line.  The [std::unique_lock] guards on
    [ocsCommsLock] do nothing in a single thread of control (no guarded
    region calls a function that locks again); the interleaving of
    several callers is the subject of [Module Interleaving]. *)
Definition on_line {A} (f : port -> A * port) : M state A :=
  fun s => let '(a, p) := f (tty s) in Done a (set_tty p s).

Definition flush (q : queue_selector) : M state unit :=
  on_line (fun p => (tt, tcflush q p)).

Definition write (cmd : list ascii) : M state TTY_ERROR :=
  on_line (tty_write_string cmd).

(** A read with the configured timeouts
    [OCSTimeoutSeconds], [OCSTimeoutMicroSeconds]. *)
Definition read_n (buf : buffer) (n : nat) : M state (TTY_ERROR * buffer * nat) :=
  fun s =>
    let '(e, b, k, p) :=
      tty_read_expanded buf n (OCSTimeoutSeconds s) (OCSTimeoutMicroSeconds s) (tty s) in
    Done (e, b, k) (set_tty p s).

Definition read_section (buf : buffer) : M state (TTY_ERROR * buffer * nat) :=
  fun s =>
    let '(e, b, k, p) :=
      tty_read_section_expanded buf terminator
        (OCSTimeoutSeconds s) (OCSTimeoutMicroSeconds s) (tty s) in
    Done (e, b, k) (set_tty p s).

(** [int OCS::flushIO(int fd)] *)
Definition flushIO : M state Z :=
  flush TCIOFLUSH ;;;
  flush TCIOFLUSH ;;;
  (fun s =>
     match discard_loop (S (length (line_in (tty s)))) (tty s) with
     | Some p => Done 0%Z (set_tty p s)
     | None => Spins s
     end).

(** [bool OCS::sendOCSCommandBlind(const char *cmd)] *)
Definition sendOCSCommandBlind (cmd : list ascii) : M state bool :=
  flushIO ;;;
  flush TCIFLUSH ;;;
  error_type <- write cmd ;;
  if negb (is_ok error_type) then ret (bool_of_int 0)
  else ret (bool_of_int 1).

(** [bool OCS::sendOCSCommand(const char *cmd)] *)
Definition sendOCSCommand (cmd : list ascii) : M state bool :=
  let response := zeroed 1 in
  flushIO ;;;
  flush TCIFLUSH ;;;
  error_type <- write cmd ;;
  if negb (is_ok error_type) then ret (bool_of_int (tty_code error_type))
  else
    '(_, response, nbytes_read) <- read_n response 1 ;;
    flush TCIFLUSH ;;;
    if Nat.ltb nbytes_read 1 then ret false
    else ret (Ascii.eqb (nth 0 response NUL) "0"%char).

(** [int OCS::getCommandSingleCharResponse(int fd, char *data, const char *cmd)] *)
Definition getCommandSingleCharResponse (data : buffer) (cmd : list ascii)
    : M state (Z * buffer) :=
  flushIO ;;;
  error_type <- write cmd ;;
  if negb (is_ok error_type) then ret (tty_code error_type, data)
  else
    '(error_type, data, nbytes_read) <- read_n data 1 ;;
    flush TCIFLUSH ;;;
    if negb (is_ok error_type) then ret (tty_code error_type, data)
    else
      let data := framed data nbytes_read in
      ret (Z.of_nat nbytes_read, data).

(** [int OCS::getCommandDoubleResponse(int fd, double *value, char *data, const char *cmd)];
    the second component is the value stored through [value], if any. *)
Definition getCommandDoubleResponse (data : buffer) (cmd : list ascii)
    : M state (Z * option numeral * buffer) :=
  flushIO ;;;
  flush TCIFLUSH ;;;
  error_type <- write cmd ;;
  if negb (is_ok error_type) then ret (tty_code error_type, None, data)
  else
    '(error_type, data, nbytes_read) <- read_section data ;;
    flush TCIFLUSH ;;;
    let data := framed data nbytes_read in
    if negb (is_ok error_type)
    then flush TCIOFLUSH ;;; ret (tty_code error_type, None, data)
    else
      match sscanf_lf (c_str data) with
      | None => flush TCIOFLUSH ;;; ret (RES_ERR_FORMAT, None, data)
      | Some v => ret (Z.of_nat nbytes_read, Some v, data)
      end.

(** [int OCS::getCommandIntResponse(int fd, int *value, char *data, const char *cmd)] *)
Definition getCommandIntResponse (data : buffer) (cmd : list ascii)
    : M state (Z * option Z * buffer) :=
  flushIO ;;;
  flush TCIFLUSH ;;;
  error_type <- write cmd ;;
  if negb (is_ok error_type) then ret (tty_code error_type, None, data)
  else
    '(error_type, data, nbytes_read) <- read_section data ;;
    flush TCIFLUSH ;;;
    let data := framed data nbytes_read in
    if negb (is_ok error_type)
    then flush TCIOFLUSH ;;; ret (tty_code error_type, None, data)
    else
      match sscanf_i (c_str data) with
      | None => flush TCIOFLUSH ;;; ret (RES_ERR_FORMAT, None, data)
      | Some v => ret (Z.of_nat nbytes_read, Some v, data)
      end.

(** [int OCS::getCommandSingleCharErrorOrLongResponse(int fd, char *data, const char *cmd)] *)
Definition getCommandSingleCharErrorOrLongResponse (data : buffer)
    (cmd : list ascii) : M state (Z * buffer) :=
  flushIO ;;;
  flush TCIFLUSH ;;;
  error_type <- write cmd ;;
  if negb (is_ok error_type) then ret (tty_code error_type, data)
  else
    '(error_type, data, nbytes_read) <- read_section data ;;
    flush TCIFLUSH ;;;
    let data := framed data nbytes_read in
    if negb (is_ok error_type) then ret (tty_code error_type, data)
    else ret (Z.of_nat nbytes_read, data).

(** The roof delays of [OCS::Handshake]:
<<
  split = strtok(roof_timeout_response, ",");
  ROOF_TIME_PRE_MOTION = atoi(split);
  split = strtok(NULL, ",");
  ROOF_TIME_POST_MOTION = atoi(split);
>>
  A missing token is a null pointer in [atoi]. *)
Definition parse_roof_delays (response : buffer) : M state unit :=
  match strtok_all (c_str response) ","%char with
  | pre :: post :: _ =>
      modify (fun s => set_roof_times (atoi pre) (ROOF_TIME_POST_MOTION s) s) ;;;
      modify (fun s => set_roof_times (ROOF_TIME_PRE_MOTION s) (atoi post) s)
  | [pre] =>
      modify (fun s => set_roof_times (atoi pre) (ROOF_TIME_POST_MOTION s) s) ;;;
      undefined
  | [] => undefined
  end.

(** [bool OCS::Handshake()] *)
Definition Handshake : M state bool :=
  st <- get ;;
  if (0 <? PortFD st)%Z then
    (if String.eqb (name (activeConnection st)) "CONNECTION_TCP"
     then modify (set_timeouts 2 0)
     else modify (set_timeouts 0 200000)) ;;;
    '(r, handshake_response) <-
       getCommandSingleCharErrorOrLongResponse (zeroed RB_MAX_LEN) OCS_handshake ;;
    let handshake_status := bool_of_int r in
    if strcmp_eq handshake_response "OCS" then
      let handshake_status := true in
      '(OCS_dome_present, _) <-
         getCommandSingleCharErrorOrLongResponse (zeroed RB_MAX_LEN) OCS_get_dome_status ;;
      (if (0 <? OCS_dome_present)%Z
       then modify (SetDomeCapability
                      [DOME_CAN_ABORT; DOME_CAN_PARK; DOME_CAN_ABS_MOVE;
                       DOME_CAN_SYNC; DOME_HAS_BACKLASH; DOME_HAS_SHUTTER])
       else ret tt) ;;;
      '(roof_timeout_error_or_fail, roof_timeout_response) <-
         getCommandSingleCharErrorOrLongResponse (zeroed RB_MAX_LEN) OCS_get_timeouts ;;
      (if (1 <? roof_timeout_error_or_fail)%Z
       then parse_roof_delays roof_timeout_response
       else ret tt) ;;;
      ret handshake_status
    else ret handshake_status
  else ret false.

End OCS.

(* ------------------------------------------------------------------ *)
(** * The OnStep Aux driver (drivers/auxiliary/onstep_aux.cpp) *)

Module OnStep_Aux.

(** Commands of the OnStep lexicon (onstep_aux.h).  The header among
    the sources defines [OS_get_defined_focusers_part] only; the full
    command that onstep_aux.cpp names is that part with the command
    terminator.  No modelled function looks into a command. *)
Definition OS_handshake : list ascii := of_string ":GVP#".
Definition OS_get_firmware : list ascii := of_string ":GVN#".
Definition OS_get_defined_focusers : list ascii := of_string ":FA#".
Definition OS_get_defined_rotator : list ascii := of_string ":rA#".
Definition OS_get_temperature : list ascii := of_string ":GX9A#".
Definition OS_get_pressure : list ascii := of_string ":GX9B#".
Definition OS_get_humidity : list ascii := of_string ":GX9C#".
Definition OS_get_dew_point : list ascii := of_string ":GX9E#".
Definition OS_get_defined_features : list ascii := of_string ":GXY0#".

(** [static constexpr const int conversion_error = -10000;] *)
Definition conversion_error : Z := (-10000)%Z.

(** [enum { WEATHER_TEMPERATURE, ..., WEATHER_MEASUREMENTS_COUNT }] *)
Definition WEATHER_TEMPERATURE : nat := 0.
Definition WEATHER_PRESSURE : nat := 1.
Definition WEATHER_HUMIDITY : nat := 2.
Definition WEATHER_DEW_POINT : nat := 3.
Definition WEATHER_MEASUREMENTS_COUNT : nat := 4.

(** The capability members that [GetCapabilites] sets. *)
Record capabilities := {
  hasFocuser : bool;
  hasRotator : bool;
  hasWeather : bool;
  hasFeatures : bool;
  weather_enabled : list Z;
  weather_tab_enabled : bool
}.

(** The members as the class initialisers leave them
    ([weather_enabled] has no initialiser; it is taken as zeros). *)
Definition no_capabilities : capabilities :=
  {| hasFocuser := false; hasRotator := false; hasWeather := false;
     hasFeatures := false;
     weather_enabled := repeat 0%Z WEATHER_MEASUREMENTS_COUNT;
     weather_tab_enabled := false |}.

(** The members of [class OnStep_Aux] that the protocol engine uses,
    the descriptors of the two registered connections, and the line
    behind [PortFD]. *)
Record state := {
  PortFD : Z;
  activeConnection : connection;
  serialPortFD : Z;
  tcpPortFD : Z;
  isConnected : bool;
  OSTimeoutSeconds : Z;
  OSTimeoutMicroSeconds : Z;
  waitingForResponse : bool;
  caps : capabilities;
  firmware : option (list ascii);
  slowTimerStarted : bool;
  tty : port
}.

(** The driver after construction, with the descriptor [fd] of the
    active connection ([int PortFD { -1 }], [OSTimeoutSeconds = 0],
    [OSTimeoutMicroSeconds = 100000], [waitingForResponse = false]). *)
Definition constructed (c : connection) (fd : Z) (p : port) : state :=
  {| PortFD := -1; activeConnection := c;
     serialPortFD := match c with CONNECTION_SERIAL => fd | _ => -1 end;
     tcpPortFD := match c with CONNECTION_TCP => fd | _ => -1 end;
     isConnected := false;
     OSTimeoutSeconds := 0; OSTimeoutMicroSeconds := 100000;
     waitingForResponse := false;
     caps := no_capabilities; firmware := None;
     slowTimerStarted := false; tty := p |}.

Definition set_tty (p : port) (s : state) : state :=
  {| PortFD := PortFD s; activeConnection := activeConnection s;
     serialPortFD := serialPortFD s; tcpPortFD := tcpPortFD s;
     isConnected := isConnected s;
     OSTimeoutSeconds := OSTimeoutSeconds s;
     OSTimeoutMicroSeconds := OSTimeoutMicroSeconds s;
     waitingForResponse := waitingForResponse s;
     caps := caps s; firmware := firmware s;
     slowTimerStarted := slowTimerStarted s; tty := p |}.

Definition set_PortFD (fd : Z) (s : state) : state :=
  {| PortFD := fd; activeConnection := activeConnection s;
     serialPortFD := serialPortFD s; tcpPortFD := tcpPortFD s;
     isConnected := isConnected s;
     OSTimeoutSeconds := OSTimeoutSeconds s;
     OSTimeoutMicroSeconds := OSTimeoutMicroSeconds s;
     waitingForResponse := waitingForResponse s;
     caps := caps s; firmware := firmware s;
     slowTimerStarted := slowTimerStarted s; tty := tty s |}.

Definition set_timeouts (sec usec : Z) (s : state) : state :=
  {| PortFD := PortFD s; activeConnection := activeConnection s;
     serialPortFD := serialPortFD s; tcpPortFD := tcpPortFD s;
     isConnected := isConnected s;
     OSTimeoutSeconds := sec;
     OSTimeoutMicroSeconds := usec;
     waitingForResponse := waitingForResponse s;
     caps := caps s; firmware := firmware s;
     slowTimerStarted := slowTimerStarted s; tty := tty s |}.

Definition set_waitingForResponse (b : bool) (s : state) : state :=
  {| PortFD := PortFD s; activeConnection := activeConnection s;
     serialPortFD := serialPortFD s; tcpPortFD := tcpPortFD s;
     isConnected := isConnected s;
     OSTimeoutSeconds := OSTimeoutSeconds s;
     OSTimeoutMicroSeconds := OSTimeoutMicroSeconds s;
     waitingForResponse := b;
     caps := caps s; firmware := firmware s;
     slowTimerStarted := slowTimerStarted s; tty := tty s |}.

Definition set_caps (c : capabilities) (s : state) : state :=
  {| PortFD := PortFD s; activeConnection := activeConnection s;
     serialPortFD := serialPortFD s; tcpPortFD := tcpPortFD s;
     isConnected := isConnected s;
     OSTimeoutSeconds := OSTimeoutSeconds s;
     OSTimeoutMicroSeconds := OSTimeoutMicroSeconds s;
     waitingForResponse := waitingForResponse s;
     caps := c; firmware := firmware s;
     slowTimerStarted := slowTimerStarted s; tty := tty s |}.

Definition set_firmware (f : list ascii) (s : state) : state :=
  {| PortFD := PortFD s; activeConnection := activeConnection s;
     serialPortFD := serialPortFD s; tcpPortFD := tcpPortFD s;
     isConnected := isConnected s;
     OSTimeoutSeconds := OSTimeoutSeconds s;
     OSTimeoutMicroSeconds := OSTimeoutMicroSeconds s;
     waitingForResponse := waitingForResponse s;
     caps := caps s; firmware := Some f;
     slowTimerStarted := slowTimerStarted s; tty := tty s |}.

Definition start_SlowTimer (s : state) : state :=
  {| PortFD := PortFD s; activeConnection := activeConnection s;
     serialPortFD := serialPortFD s; tcpPortFD := tcpPortFD s;
     isConnected := isConnected s;
     OSTimeoutSeconds := OSTimeoutSeconds s;
     OSTimeoutMicroSeconds := OSTimeoutMicroSeconds s;
     waitingForResponse := waitingForResponse s;
     caps := caps s; firmware := firmware s;
     slowTimerStarted := true; tty := tty s |}.

Definition set_hasFocuser (c : capabilities) : capabilities :=
  {| hasFocuser := true; hasRotator := hasRotator c;
     hasWeather := hasWeather c; hasFeatures := hasFeatures c;
     weather_enabled := weather_enabled c;
     weather_tab_enabled := weather_tab_enabled c |}.

Definition set_hasRotator (c : capabilities) : capabilities :=
  {| hasFocuser := hasFocuser c; hasRotator := true;
     hasWeather := hasWeather c; hasFeatures := hasFeatures c;
     weather_enabled := weather_enabled c;
     weather_tab_enabled := weather_tab_enabled c |}.

Definition set_hasFeatures (c : capabilities) : capabilities :=
  {| hasFocuser := hasFocuser c; hasRotator := hasRotator c;
     hasWeather := hasWeather c; hasFeatures := true;
     weather_enabled := weather_enabled c;
     weather_tab_enabled := weather_tab_enabled c |}.

Definition set_weather_tab_enabled (c : capabilities) : capabilities :=
  {| hasFocuser := hasFocuser c; hasRotator := hasRotator c;
     hasWeather := hasWeather c; hasFeatures := hasFeatures c;
     weather_enabled := weather_enabled c;
     weather_tab_enabled := true |}.

(** [weather_enabled[measurement] = v], and [hasWeather = true] with
    the value 1. *)
Definition set_weather (measurement : nat) (present : bool) (c : capabilities)
    : capabilities :=
  {| hasFocuser := hasFocuser c; hasRotator := hasRotator c;
     hasWeather := if present then true else hasWeather c;
     hasFeatures := hasFeatures c;
     weather_enabled :=
       firstn measurement (weather_enabled c)
         ++ (if present then 1%Z else 0%Z)
         :: skipn (S measurement) (weather_enabled c);
     weather_tab_enabled := weather_tab_enabled c |}.

Local Open Scope call_scope.

Definition on_caps (f : capabilities -> capabilities) : M state unit :=
  modify (fun s => set_caps (f (caps s)) s).

(** A call on the line; for the [std::unique_lock] guards on
    [osaCommsLock] see [OCS.on_line]. *)
Definition on_line {A} (f : port -> A * port) : M state A :=
  fun s => let '(a, p) := f (tty s) in Done a (set_tty p s).

Definition flush (q : queue_selector) : M state unit :=
  on_line (fun p => (tt, tcflush q p)).

Definition write (cmd : list ascii) : M state TTY_ERROR :=
  on_line (tty_write_string cmd).

(** A read with the configured timeouts
    [OSTimeoutSeconds], [OSTimeoutMicroSeconds]. *)
Definition read_n (buf : buffer) (n : nat) : M state (TTY_ERROR * buffer * nat) :=
  fun s =>
    let '(e, b, k, p) :=
      tty_read_expanded buf n (OSTimeoutSeconds s) (OSTimeoutMicroSeconds s) (tty s) in
    Done (e, b, k) (set_tty p s).

Definition read_section (buf : buffer) : M state (TTY_ERROR * buffer * nat) :=
  fun s =>
    let '(e, b, k, p) :=
      tty_read_section_expanded buf terminator
        (OSTimeoutSeconds s) (OSTimeoutMicroSeconds s) (tty s) in
    Done (e, b, k) (set_tty p s).

(** The wait loop of [blockUntilClear]:
<<
    while (waitingForResponse) { usleep(...); }
>>
    One unit of fuel pays for one test of the flag.  Nothing in the body
    changes the flag, so in one thread of control the first test decides
    (for every fuel: lemmas [wait_loop_busy] and [wait_loop_clear]). *)
Fixpoint wait_loop (fuel : nat) (s : state) : option state :=
  match fuel with
  | O => None
  | S fuel' => if waitingForResponse s then wait_loop fuel' s else Some s
  end.

(** [void OnStep_Aux::blockUntilClear()] *)
Definition blockUntilClear : M state unit :=
  fun s =>
    match wait_loop 1 s with
    | Some s1 => Done tt (set_waitingForResponse true s1)
    | None => Spins s
    end.

(** [void OnStep_Aux::clearBlock()] *)
Definition clearBlock : M state unit :=
  modify (set_waitingForResponse false).

(** [int OnStep_Aux::flushIO(int fd)] *)
Definition flushIO : M state Z :=
  flush TCIOFLUSH ;;;
  flush TCIOFLUSH ;;;
  (fun s =>
     match discard_loop (S (length (line_in (tty s)))) (tty s) with
     | Some p => Done 0%Z (set_tty p s)
     | None => Spins s
     end).

(** [bool OnStep_Aux::sendOSCommandBlind(const char *cmd)] *)
Definition sendOSCommandBlind (cmd : list ascii) : M state bool :=
  flushIO ;;;
  flush TCIFLUSH ;;;
  error_type <- write cmd ;;
  if negb (is_ok error_type) then clearBlock ;;; ret (bool_of_int 0)
  else ret (bool_of_int 1).

(** [bool OnStep_Aux::sendOSCommand(const char *cmd)] *)
Definition sendOSCommand (cmd : list ascii) : M state bool :=
  blockUntilClear ;;;
  let response := zeroed 1 in
  flushIO ;;;
  flush TCIFLUSH ;;;
  error_type <- write cmd ;;
  if negb (is_ok error_type) then ret (bool_of_int (tty_code error_type))
  else
    '(_, response, nbytes_read) <- read_n response 1 ;;
    flush TCIFLUSH ;;;
    clearBlock ;;;
    if Nat.ltb nbytes_read 1 then ret false
    else ret (Ascii.eqb (nth 0 response NUL) "0"%char).

(** [int OnStep_Aux::getCommandSingleCharResponse(int fd, char *data, const char *cmd)] *)
Definition getCommandSingleCharResponse (data : buffer) (cmd : list ascii)
    : M state (Z * buffer) :=
  blockUntilClear ;;;
  flushIO ;;;
  error_type <- write cmd ;;
  if negb (is_ok error_type) then ret (tty_code error_type, data)
  else
    '(error_type, data, nbytes_read) <- read_n data 1 ;;
    flush TCIFLUSH ;;;
    if negb (is_ok error_type) then ret (tty_code error_type, data)
    else
      let data := framed data nbytes_read in
      clearBlock ;;;
      ret (Z.of_nat nbytes_read, data).

(** [int OnStep_Aux::getCommandDoubleResponse(int fd, double *value, char *data, const char *cmd)] *)
Definition getCommandDoubleResponse (data : buffer) (cmd : list ascii)
    : M state (Z * option numeral * buffer) :=
  blockUntilClear ;;;
  flushIO ;;;
  flush TCIFLUSH ;;;
  error_type <- write cmd ;;
  if negb (is_ok error_type) then ret (tty_code error_type, None, data)
  else
    '(error_type, data, nbytes_read) <- read_section data ;;
    flush TCIFLUSH ;;;
    let data := framed data nbytes_read in
    clearBlock ;;;
    if negb (is_ok error_type)
    then flush TCIOFLUSH ;;; ret (tty_code error_type, None, data)
    else
      match sscanf_lf (c_str data) with
      | None => flush TCIOFLUSH ;;; ret (RES_ERR_FORMAT, None, data)
      | Some v => ret (Z.of_nat nbytes_read, Some v, data)
      end.

(** [int OnStep_Aux::getCommandIntResponse(int fd, int *value, char *data, const char *cmd)];
    the read asks for [sizeof(char)] bytes. *)
Definition getCommandIntResponse (data : buffer) (cmd : list ascii)
    : M state (Z * option Z * buffer) :=
  blockUntilClear ;;;
  flushIO ;;;
  flush TCIFLUSH ;;;
  error_type <- write cmd ;;
  if negb (is_ok error_type) then ret (tty_code error_type, None, data)
  else
    '(error_type, data, nbytes_read) <- read_n data 1 ;;
    flush TCIFLUSH ;;;
    let data := framed data nbytes_read in
    clearBlock ;;;
    if negb (is_ok error_type)
    then flush TCIOFLUSH ;;; ret (tty_code error_type, None, data)
    else
      match sscanf_i (c_str data) with
      | None => flush TCIOFLUSH ;;; ret (RES_ERR_FORMAT, None, data)
      | Some v => ret (Z.of_nat nbytes_read, Some v, data)
      end.

(** [int OnStep_Aux::getCommandSingleCharErrorOrLongResponse(int fd, char *data, const char *cmd)] *)
Definition getCommandSingleCharErrorOrLongResponse (data : buffer)
    (cmd : list ascii) : M state (Z * buffer) :=
  blockUntilClear ;;;
  flushIO ;;;
  flush TCIFLUSH ;;;
  error_type <- write cmd ;;
  if negb (is_ok error_type) then ret (tty_code error_type, data)
  else
    '(error_type, data, nbytes_read) <- read_section data ;;
    flush TCIFLUSH ;;;
    let data := framed data nbytes_read in
    clearBlock ;;;
    if negb (is_ok error_type) then ret (tty_code error_type, data)
    else ret (Z.of_nat nbytes_read, data).

(** [int OnStep_Aux::charToInt(char *inString)] *)
Definition charToInt (inString : list ascii) : Z :=
  match stoi inString with
  | inr v => v
  | inl _ => conversion_error
  end.

(** [int OnStep_Aux::getCommandIntFromCharResponse(int fd, char *data, int *response, const char *cmd)] *)
Definition getCommandIntFromCharResponse (data : buffer) (cmd : list ascii)
    : M state (Z * option Z * buffer) :=
  '(errorOrFail, data) <- getCommandSingleCharErrorOrLongResponse data cmd ;;
  if (errorOrFail <? 1)%Z
  then modify (set_waitingForResponse false) ;;; ret (errorOrFail, None, data)
  else ret (errorOrFail, Some (charToInt (c_str data)), data).

(** The command of one pass of the weather loop of [GetCapabilites]
    (the [switch] on [measurement]; its [default] leaves [command]
    as it is and is never reached by the loop). *)
Definition weather_command (measurement : nat) : list ascii :=
  match measurement with
  | 0 => OS_get_temperature
  | 1 => OS_get_pressure
  | 2 => OS_get_humidity
  | 3 => OS_get_dew_point
  | _ => []
  end.

(** The weather loop of [GetCapabilites], over the measurements still
    to probe:
<<
  for (int measurement = 0; measurement < WEATHER_MEASUREMENTS_COUNT; measurement ++) {
      ...
      error_or_fail = getCommandSingleCharErrorOrLongResponse(PortFD, response, command);
      if (error_or_fail > 1 && strcmp(response, "N/A") != 0 &&
          strcmp(response, "nan") != 0 && strcmp(response, "0") != 0) {
          weather_enabled[measurement] = 1;
          hasWeather = true;
      } else {
          weather_enabled[measurement] = 0;
      }
  }
>> *)
Fixpoint probe_weather (measurements : list nat) (response : buffer)
    : M state buffer :=
  match measurements with
  | [] => ret response
  | measurement :: rest =>
      '(error_or_fail, response) <-
         getCommandSingleCharErrorOrLongResponse response
           (weather_command measurement) ;;
      on_caps (set_weather measurement
                 ((1 <? error_or_fail)%Z
                  && negb (strcmp_eq response "N/A")
                  && negb (strcmp_eq response "nan")
                  && negb (strcmp_eq response "0"))) ;;;
      probe_weather rest response
  end.

(** [weatherDisabled]: the sum of [weather_enabled[wmeasure]] for
    [wmeasure] from 1 up to [WEATHER_MEASUREMENTS_COUNT - 1]. *)
Definition weatherDisabled (c : capabilities) : Z :=
  fold_left Z.add
    (map (fun wmeasure => nth wmeasure (weather_enabled c) 0%Z)
         (seq 1 (WEATHER_MEASUREMENTS_COUNT - 1)))
    0%Z.

(** [void OnStep_Aux::SlowTimerHit()] has an empty body. *)
Definition SlowTimerHit : M state unit := ret tt.

(** [void OnStep_Aux::GetCapabilites()] (onstep_aux.cpp).  Log lines
    are not modelled: of [if (std::stof(response) < minimum_OS_fw)
    LOGF_WARN(...)] the call of [std::stof] remains. *)
Definition GetCapabilites : M state unit :=
  let response := zeroed RB_MAX_LEN in
  '(error_or_fail, response) <-
     getCommandSingleCharErrorOrLongResponse response OS_get_firmware ;;
  (if (1 <? error_or_fail)%Z
   then modify (set_firmware (c_str response))
   else ret tt) ;;;
  match stof (c_str response) with
  | inl e => throw e
  | inr _ =>
      let intResponse := 0%Z in
      '(error_or_fail, value, response) <-
         getCommandIntResponse response OS_get_defined_focusers ;;
      let intResponse := match value with Some v => v | None => intResponse end in
      (if (0 <? error_or_fail)%Z && (0 <? intResponse)%Z
       then on_caps set_hasFocuser
       else ret tt) ;;;
      '(error_or_fail, value, response) <-
         getCommandIntResponse response OS_get_defined_rotator ;;
      let intResponse := match value with Some v => v | None => intResponse end in
      (if (0 <? error_or_fail)%Z && (0 <? intResponse)%Z
       then on_caps set_hasRotator
       else ret tt) ;;;
      response <- probe_weather (seq 0 WEATHER_MEASUREMENTS_COUNT) response ;;
      st <- get ;;
      (if (0 <? weatherDisabled (caps st))%Z
       then on_caps set_weather_tab_enabled
       else ret tt) ;;;
      '(error_or_fail, response) <-
         getCommandSingleCharErrorOrLongResponse response OS_get_defined_features ;;
      (if (1 <? error_or_fail)%Z
       then match stoi (c_str response) with
            | inl e => throw e
            | inr v => if (0 <? v)%Z then on_caps set_hasFeatures else ret tt
            end
       else ret tt) ;;;
      modify start_SlowTimer ;;;
      SlowTimerHit
  end.

(** [bool OnStep_Aux::Handshake()] *)
Definition Handshake : M state bool :=
  st <- get ;;
  (match activeConnection st with
   | CONNECTION_SERIAL => modify (set_PortFD (serialPortFD st))
   | CONNECTION_TCP => modify (set_PortFD (tcpPortFD st))
   end) ;;;
  st <- get ;;
  if (PortFD st <? 0)%Z then ret false
  else
    '(r, response) <-
       getCommandSingleCharErrorOrLongResponse (zeroed RB_MAX_LEN) OS_handshake ;;
    let handshake_status := bool_of_int r in
    if strcmp_eq response "On-Step" then
      let handshake_status := true in
      GetCapabilites ;;;
      ret handshake_status
    else ret handshake_status.

(** [bool OnStep_Aux::updateProperties()]: the selection of the timeout
    pair and the return value; the definition and deletion of the
    framework's properties are left out. *)
Definition updateProperties : M state bool :=
  st <- get ;;
  if isConnected st then
    (if String.eqb (name (activeConnection st)) "CONNECTION_TCP"
     then modify (set_timeouts 2 0)
     else modify (set_timeouts 0 100000)) ;;;
    ret true
  else ret false.

(** The descriptor that [Handshake] takes from the active connection. *)
Definition active_PortFD (s : state) : Z :=
  match activeConnection s with
  | CONNECTION_SERIAL => serialPortFD s
  | CONNECTION_TCP => tcpPortFD s
  end.

(** The timeout pair is [(sec, usec)], and every read so far waited
    with that pair or with the constants of [flushIO]. *)
Definition read_with (sec usec : Z) (ev : tty_event) : Prop :=
  match read_wait ev with
  | Some w => w = (sec, usec) \/ w = (0%Z, 1000%Z)
  | None => True
  end.

Definition steady (sec usec : Z) (s : state) : Prop :=
  OSTimeoutSeconds s = sec /\ OSTimeoutMicroSeconds s = usec /\
  Forall (read_with sec usec) (events (tty s)).

(** [setConnected(true)] of the framework, which precedes its call of
    [updateProperties]. *)
Definition setConnected (b : bool) (s : state) : state :=
  {| PortFD := PortFD s; activeConnection := activeConnection s;
     serialPortFD := serialPortFD s; tcpPortFD := tcpPortFD s;
     isConnected := b;
     OSTimeoutSeconds := OSTimeoutSeconds s;
     OSTimeoutMicroSeconds := OSTimeoutMicroSeconds s;
     waitingForResponse := waitingForResponse s;
     caps := caps s; firmware := firmware s;
     slowTimerStarted := slowTimerStarted s; tty := tty s |}.

(** A call keeps the timeout pair: from a steady state it ends, however
    it ends, in a steady state. *)
Definition keeps (sec usec : Z) {A} (m : M state A) : Prop :=
  forall s, steady sec usec s -> steady sec usec (final (m s)).

(** The call returned and the busy flag is clear / is still set. *)
Definition released {A} (o : outcome state A) : bool :=
  match o with
  | Done _ s => negb (waitingForResponse s)
  | _ => false
  end.

Definition left_busy {A} (o : outcome state A) : bool :=
  match o with
  | Done _ s => waitingForResponse s
  | _ => false
  end.

End OnStep_Aux.

(* ------------------------------------------------------------------ *)
(** * Several callers on one line *)

(** The accessors of a driver share one control skeleton around the
    driver's [std::mutex] ([ocsCommsLock], [osaCommsLock]).  The
    receiving accessors ([getCommandSingleCharResponse],
    [getCommandDoubleResponse], [getCommandIntResponse],
    [getCommandSingleCharErrorOrLongResponse], [sendOCSCommand] /
    [sendOSCommand]):
<<
    flushIO(fd);                 // tcflush; { lock; tcflush; discard read; unlock }
    std::unique_lock<std::mutex> guard(lock);
    tty_write_string(...)        // on failure: return, the guard unlocks
    tty_read_..._expanded(...)
    ...
    return ...;                  // the guard unlocks
>>
    and the blind send ([sendOCSCommandBlind] / [sendOSCommandBlind]),
    which is the same without the read.  Callers are interleaved at the
    grain of these steps.  The busy flag of [OnStep_Aux] only keeps a
    caller from entering; leaving it out leaves more interleavings, not
    fewer. *)
Module Interleaving.

Definition tid := nat.

(** The two shapes of a call. *)
Inductive call := Receiving | Blind.

(** Where a caller stands inside an accessor. *)
Inductive pc :=
| Idle                      (* outside an accessor *)
| FlushEntered (c : call)   (* in flushIO, first tcflush done, mutex not yet taken *)
| FlushLocked (c : call)    (* in flushIO, mutex taken *)
| FlushRead (c : call)      (* in flushIO, discard read done *)
| Flushed (c : call)        (* flushIO returned, its guard released *)
| Locked (c : call)         (* the accessor's guard taken *)
| Written                   (* receiving: tty_write_string returned TTY_OK *)
| WriteFailed               (* tty_write_string failed *)
| ReadDone                  (* receiving: the response read returned *)
| BlindSent.                (* blind: tty_write_string returned TTY_OK *)

(** Whether a caller at this point owns the mutex. *)
Definition holds (p : pc) : bool :=
  match p with
  | FlushLocked _ | FlushRead _ | Locked _ | Written | WriteFailed
  | ReadDone | BlindSent => true
  | Idle | FlushEntered _ | Flushed _ => false
  end.

(** What is observed at the line. *)
Inductive obs :=
| Flush (t : tid)
| Discard (t : tid)
| Write (t : tid)
| BlindWrite (t : tid)
| WriteError (t : tid)
| Read (t : tid).

Record state := {
  pcs : tid -> pc;
  owner : option tid;
  trace : list obs
}.

Definition init : state :=
  {| pcs := fun _ => Idle; owner := None; trace := [] |}.

Definition move (t : tid) (p : pc) (f : tid -> pc) : tid -> pc :=
  fun u => if Nat.eqb u t then p else f u.

(** One step of caller [t].  The choice [b] is the shape of the call if
    the caller is idle ([true]: a receiving accessor), and the verdict of
    the line if the step is the write.  A caller that waits for the
    mutex does not move. *)
Definition step (t : tid) (b : bool) (s : state) : state :=
  match pcs s t with
  | Idle =>
      {| pcs := move t (FlushEntered (if b then Receiving else Blind)) (pcs s);
         owner := owner s;
         trace := trace s ++ [Flush t] |}
  | FlushEntered c =>
      match owner s with
      | None => {| pcs := move t (FlushLocked c) (pcs s); owner := Some t;
                   trace := trace s |}
      | Some _ => s
      end
  | FlushLocked c =>
      {| pcs := move t (FlushRead c) (pcs s); owner := owner s;
         trace := trace s ++ [Flush t; Discard t] |}
  | FlushRead c =>
      {| pcs := move t (Flushed c) (pcs s); owner := None; trace := trace s |}
  | Flushed c =>
      match owner s with
      | None => {| pcs := move t (Locked c) (pcs s); owner := Some t;
                   trace := trace s |}
      | Some _ => s
      end
  | Locked c =>
      if b
      then match c with
           | Receiving =>
               {| pcs := move t Written (pcs s); owner := owner s;
                  trace := trace s ++ [Flush t; Write t] |}
           | Blind =>
               {| pcs := move t BlindSent (pcs s); owner := owner s;
                  trace := trace s ++ [Flush t; BlindWrite t] |}
           end
      else {| pcs := move t WriteFailed (pcs s); owner := owner s;
              trace := trace s ++ [Flush t; WriteError t] |}
  | Written =>
      {| pcs := move t ReadDone (pcs s); owner := owner s;
         trace := trace s ++ [Read t; Flush t] |}
  | WriteFailed | ReadDone | BlindSent =>
      {| pcs := move t Idle (pcs s); owner := None; trace := trace s |}
  end.

(** A schedule names, step by step, the caller that moves and its
    choice. *)
Definition schedule := list (tid * bool).

Definition run (sch : schedule) (s : state) : state :=
  fold_left (fun s '(t, b) => step t b s) sch s.

(** The line seen as a sequence of command transactions: the caller
    whose write is still waiting for its read, or a violation (a write
    of any shape while a transaction is open, or a read that is not the
    one of the open transaction). *)
Definition track (st : option (option tid)) (e : obs) : option (option tid) :=
  match st, e with
  | None, _ => None
  | Some None, Write t => Some (Some t)
  | Some (Some _), Write _ => None
  | Some (Some _), BlindWrite _ => None
  | Some (Some u), Read t => if Nat.eqb t u then Some None else None
  | Some None, Read _ => None
  | Some o, _ => Some o
  end.

Definition open_transaction (tr : list obs) : option (option tid) :=
  fold_left track tr (Some None).

(** A write of either shape by caller [t]. *)
Definition write_by (t : tid) (e : obs) : Prop :=
  e = Write t \/ e = BlindWrite t.

(** The mutex is owned by the caller that stands in a guarded region, and
    the transaction that is open on the line belongs to the caller that
    stands between its write and its read. *)
Definition exclusive (s : state) : Prop :=
  (forall t, holds (pcs s t) = true -> owner s = Some t) /\
  exists o, open_transaction (trace s) = Some o /\
            forall t, o = Some t <-> pcs s t = Written.

End Interleaving.

(* ------------------------------------------------------------------ *)
(** * Formatted output of the C library *)

Module Printf.

(** The decimal digits of a natural number, most significant first. *)
Definition digits (n : N) : list ascii :=
  list_ascii_of_string (NilEmpty.string_of_uint (N.to_uint n)).

Definition sign (v : Z) : list ascii :=
  if (v <? 0)%Z then ["-"%char] else [].

Definition zeros (n : nat) : list ascii := repeat "0"%char n.

(** [%d] *)
Definition fmt_d (v : Z) : list ascii := sign v ++ digits (Z.abs_N v).

(** [%0wd]: the sign, then zeros up to the field width [w], then the
    digits. *)
Definition fmt_0d (w : nat) (v : Z) : list ascii :=
  let ds := digits (Z.abs_N v) in
  sign v ++ zeros (w - length (sign v) - length ds) ++ ds.

(** [%.pd]: the sign, then at least [p] digits; the value 0 with the
    precision 0 gives no digit. *)
Definition fmt_prec_d (p : nat) (v : Z) : list ascii :=
  let ds := if (v =? 0)%Z && Nat.eqb p 0 then [] else digits (Z.abs_N v) in
  sign v ++ zeros (p - length ds) ++ ds.

(** [%5f] of a [double] that holds the integer [v] with
    [|v| < 2^53]: six decimals, all zero; the field width 5 never
    pads. *)
Definition fmt_f_integral (v : Z) : list ascii :=
  sign v ++ digits (Z.abs_N v) ++ of_string ".000000".

(** [snprintf(buf, size, ...)] for [size > 0]: the C string left in
    [buf] is the formatted text cut to [size - 1] characters. *)
Definition snprintf (size : nat) (text : list ascii) : list ascii :=
  firstn (size - 1) text.

(** [strncpy(dest, src, n)]: [n] cells are stored, the characters of
    [src] followed by NUL padding. *)
Definition strncpy (dest : buffer) (src : list ascii) (n : nat) : buffer :=
  firstn n (src ++ repeat NUL n) ++ skipn n dest.

End Printf.

(** [IPState] and [ISState] of the INDI API. *)
Inductive IPState := IPS_IDLE | IPS_OK | IPS_BUSY | IPS_ALERT.
Inductive ISState := ISS_OFF | ISS_ON.

(** A line of the driver's log at warning level: the format and its
    arguments.  Lines at debug and info level are not modelled. *)
Inductive log_arg := ArgInt (v : Z) | ArgStr (s : list ascii).
Record log_line := LOG_WARN { log_format : string; log_args : list log_arg }.

(* ------------------------------------------------------------------ *)
(** * How a call ends *)

(** The ways a call ends without returning. *)
Inductive abnormal := Threw (e : exn) | Hung | Undef.

(** [Q] holds of the value and the state when the call returns, [E] of
    the way it ends and the state it ends in when it does not. *)
Definition ends {S A} (o : outcome S A) (Q : A -> S -> Prop)
    (E : abnormal -> S -> Prop) : Prop :=
  match o with
  | Done a s => Q a s
  | Thrown e s => E (Threw e) s
  | Spins s => E Hung s
  | Undefined s => E Undef s
  end.

(** The call returns; the call returns or hangs; the call returns or
    runs into undefined behaviour. *)
Definition never {S} (k : abnormal) (s : S) : Prop := False.

Definition only_hangs {S} (k : abnormal) (s : S) : Prop := k = Hung.

Definition only_undefined {S} (k : abnormal) (s : S) : Prop := k = Undef.

(* ------------------------------------------------------------------ *)
(** * The focuser and rotator of OnStep Aux (drivers/auxiliary/onstep_aux.cpp) *)

Module OnStep_Aux_Devices.

Import OnStep_Aux.

(** Further commands of the OnStep lexicon (onstep_aux.h). *)
Definition OS_move_focuser_rel_part : list ascii := of_string ":FR".
Definition OS_move_focuser_abs_part : list ascii := of_string ":FS".
Definition OS_stop_focuser : list ascii := of_string ":FQ#".
Definition OS_get_focuser_position : list ascii := of_string ":FG#".
Definition OS_get_focuser_status : list ascii := of_string ":FT#".
Definition OS_get_focuser_min : list ascii := of_string ":FI#".
Definition OS_get_focuser_max : list ascii := of_string ":FM#".
Definition OS_get_focuser_temperature : list ascii := of_string ":Ft#".
Definition OS_get_focuser_diff_temperature : list ascii := of_string ":Fe#".
Definition OS_get_focuser_temp_comp_coef : list ascii := of_string ":FC#".
Definition OS_get_focuser_deadband : list ascii := of_string ":FD#".
Definition OS_get_focuser_temp_comp_en : list ascii := of_string ":Fc#".
Definition OS_set_rotator_angle_part : list ascii := of_string ":rS".
Definition OS_command_terminator : list ascii := of_string "#".

(** [FocusDirection] of the INDI focuser interface. *)
Inductive FocusDirection := FOCUS_INWARD | FOCUS_OUTWARD.

(** The INDI properties that the focuser functions read and set.  The
    number members are [double]s; a value is kept as the rational it
    holds (the driver stores [int]s there), a value that [atof]
    delivers as the text it was converted from. *)
Record properties := {
  FocusAbsPos_value : QArith_base.Q;
  FocusAbsPos_min : QArith_base.Q;
  FocusAbsPos_max : QArith_base.Q;
  FocusAbsPos_state : IPState;
  FocusRelPos_state : IPState;
  FocusTemperature_0 : numeral;
  FocusTemperature_1 : numeral;
  TFCCoefficient : numeral;
  TFCDeadband : QArith_base.Q;
  TFCCompensation_state : IPState;
  TFCCompensation_0 : ISState;
  TFCCompensation_1 : ISState
}.

(** The driver: the members of the protocol engine, the properties and
    the device name that [getDeviceName()] returns. *)
Record driver := {
  core : OnStep_Aux.state;
  props : properties;
  deviceName : list ascii
}.

Definition set_core (s : OnStep_Aux.state) (d : driver) : driver :=
  {| core := s; props := props d; deviceName := deviceName d |}.

Definition set_props (p : properties) (d : driver) : driver :=
  {| core := core d; props := p; deviceName := deviceName d |}.

(** [FocusAbsPosNP[0].setValue(v)] *)
Definition set_FocusAbsPos_value (v : QArith_base.Q) (p : properties) : properties :=
  {| FocusAbsPos_value := v;
     FocusAbsPos_min := FocusAbsPos_min p; FocusAbsPos_max := FocusAbsPos_max p;
     FocusAbsPos_state := FocusAbsPos_state p;
     FocusRelPos_state := FocusRelPos_state p;
     FocusTemperature_0 := FocusTemperature_0 p;
     FocusTemperature_1 := FocusTemperature_1 p;
     TFCCoefficient := TFCCoefficient p; TFCDeadband := TFCDeadband p;
     TFCCompensation_state := TFCCompensation_state p;
     TFCCompensation_0 := TFCCompensation_0 p;
     TFCCompensation_1 := TFCCompensation_1 p |}.

(** [FocusAbsPosNP[0].setMin(v)] *)
Definition set_FocusAbsPos_min (v : QArith_base.Q) (p : properties) : properties :=
  {| FocusAbsPos_value := FocusAbsPos_value p;
     FocusAbsPos_min := v; FocusAbsPos_max := FocusAbsPos_max p;
     FocusAbsPos_state := FocusAbsPos_state p;
     FocusRelPos_state := FocusRelPos_state p;
     FocusTemperature_0 := FocusTemperature_0 p;
     FocusTemperature_1 := FocusTemperature_1 p;
     TFCCoefficient := TFCCoefficient p; TFCDeadband := TFCDeadband p;
     TFCCompensation_state := TFCCompensation_state p;
     TFCCompensation_0 := TFCCompensation_0 p;
     TFCCompensation_1 := TFCCompensation_1 p |}.

(** [FocusAbsPosNP[0].setMax(v)] *)
Definition set_FocusAbsPos_max (v : QArith_base.Q) (p : properties) : properties :=
  {| FocusAbsPos_value := FocusAbsPos_value p;
     FocusAbsPos_min := FocusAbsPos_min p; FocusAbsPos_max := v;
     FocusAbsPos_state := FocusAbsPos_state p;
     FocusRelPos_state := FocusRelPos_state p;
     FocusTemperature_0 := FocusTemperature_0 p;
     FocusTemperature_1 := FocusTemperature_1 p;
     TFCCoefficient := TFCCoefficient p; TFCDeadband := TFCDeadband p;
     TFCCompensation_state := TFCCompensation_state p;
     TFCCompensation_0 := TFCCompensation_0 p;
     TFCCompensation_1 := TFCCompensation_1 p |}.

(** [FocusRelPosNP.setState(st); FocusAbsPosNP.setState(st);] *)
Definition set_Focus_state (st : IPState) (p : properties) : properties :=
  {| FocusAbsPos_value := FocusAbsPos_value p;
     FocusAbsPos_min := FocusAbsPos_min p; FocusAbsPos_max := FocusAbsPos_max p;
     FocusAbsPos_state := st;
     FocusRelPos_state := st;
     FocusTemperature_0 := FocusTemperature_0 p;
     FocusTemperature_1 := FocusTemperature_1 p;
     TFCCoefficient := TFCCoefficient p; TFCDeadband := TFCDeadband p;
     TFCCompensation_state := TFCCompensation_state p;
     TFCCompensation_0 := TFCCompensation_0 p;
     TFCCompensation_1 := TFCCompensation_1 p |}.

(** [FocusTemperatureN[0].value = v] and [FocusTemperatureN[1].value = v] *)
Definition set_FocusTemperature_0 (v : numeral) (p : properties) : properties :=
  {| FocusAbsPos_value := FocusAbsPos_value p;
     FocusAbsPos_min := FocusAbsPos_min p; FocusAbsPos_max := FocusAbsPos_max p;
     FocusAbsPos_state := FocusAbsPos_state p;
     FocusRelPos_state := FocusRelPos_state p;
     FocusTemperature_0 := v;
     FocusTemperature_1 := FocusTemperature_1 p;
     TFCCoefficient := TFCCoefficient p; TFCDeadband := TFCDeadband p;
     TFCCompensation_state := TFCCompensation_state p;
     TFCCompensation_0 := TFCCompensation_0 p;
     TFCCompensation_1 := TFCCompensation_1 p |}.

Definition set_FocusTemperature_1 (v : numeral) (p : properties) : properties :=
  {| FocusAbsPos_value := FocusAbsPos_value p;
     FocusAbsPos_min := FocusAbsPos_min p; FocusAbsPos_max := FocusAbsPos_max p;
     FocusAbsPos_state := FocusAbsPos_state p;
     FocusRelPos_state := FocusRelPos_state p;
     FocusTemperature_0 := FocusTemperature_0 p;
     FocusTemperature_1 := v;
     TFCCoefficient := TFCCoefficient p; TFCDeadband := TFCDeadband p;
     TFCCompensation_state := TFCCompensation_state p;
     TFCCompensation_0 := TFCCompensation_0 p;
     TFCCompensation_1 := TFCCompensation_1 p |}.

(** [TFCCoefficientN[0].value = v] *)
Definition set_TFCCoefficient (v : numeral) (p : properties) : properties :=
  {| FocusAbsPos_value := FocusAbsPos_value p;
     FocusAbsPos_min := FocusAbsPos_min p; FocusAbsPos_max := FocusAbsPos_max p;
     FocusAbsPos_state := FocusAbsPos_state p;
     FocusRelPos_state := FocusRelPos_state p;
     FocusTemperature_0 := FocusTemperature_0 p;
     FocusTemperature_1 := FocusTemperature_1 p;
     TFCCoefficient := v; TFCDeadband := TFCDeadband p;
     TFCCompensation_state := TFCCompensation_state p;
     TFCCompensation_0 := TFCCompensation_0 p;
     TFCCompensation_1 := TFCCompensation_1 p |}.

(** [TFCDeadbandN[0].value = v] *)
Definition set_TFCDeadband (v : QArith_base.Q) (p : properties) : properties :=
  {| FocusAbsPos_value := FocusAbsPos_value p;
     FocusAbsPos_min := FocusAbsPos_min p; FocusAbsPos_max := FocusAbsPos_max p;
     FocusAbsPos_state := FocusAbsPos_state p;
     FocusRelPos_state := FocusRelPos_state p;
     FocusTemperature_0 := FocusTemperature_0 p;
     FocusTemperature_1 := FocusTemperature_1 p;
     TFCCoefficient := TFCCoefficient p; TFCDeadband := v;
     TFCCompensation_state := TFCCompensation_state p;
     TFCCompensation_0 := TFCCompensation_0 p;
     TFCCompensation_1 := TFCCompensation_1 p |}.

(** [TFCCompensationSP.s = IPS_OK; TFCCompensationS[0].s = s0;
    TFCCompensationS[1].s = s1;] *)
Definition set_TFCCompensation (s0 s1 : ISState) (p : properties) : properties :=
  {| FocusAbsPos_value := FocusAbsPos_value p;
     FocusAbsPos_min := FocusAbsPos_min p; FocusAbsPos_max := FocusAbsPos_max p;
     FocusAbsPos_state := FocusAbsPos_state p;
     FocusRelPos_state := FocusRelPos_state p;
     FocusTemperature_0 := FocusTemperature_0 p;
     FocusTemperature_1 := FocusTemperature_1 p;
     TFCCoefficient := TFCCoefficient p; TFCDeadband := TFCDeadband p;
     TFCCompensation_state := IPS_OK;
     TFCCompensation_0 := s0;
     TFCCompensation_1 := s1 |}.

(** The properties as [initProperties] fills them
    ([FocusAbsPosNP[0].min = 0.], [.max = 60000.], [.value = 0], the
    [IUFillNumber] and [IUFillSwitch] calls of the focus tab; the states
    of the two position vectors are the framework's, taken as idle). *)
Definition initial_properties : properties :=
  {| FocusAbsPos_value := QArith_base.inject_Z 0;
     FocusAbsPos_min := QArith_base.inject_Z 0;
     FocusAbsPos_max := QArith_base.inject_Z 60000;
     FocusAbsPos_state := IPS_IDLE;
     FocusRelPos_state := IPS_IDLE;
     FocusTemperature_0 := of_string "25";
     FocusTemperature_1 := of_string "25";
     TFCCoefficient := of_string "100";
     TFCDeadband := QArith_base.inject_Z 5;
     TFCCompensation_state := IPS_IDLE;
     TFCCompensation_0 := ISS_OFF;
     TFCCompensation_1 := ISS_OFF |}.

(** The driver once [initProperties] has run and the descriptor 3 of a
    serial line [p] is set; the device name is the default name. *)
Definition started (p : port) : driver :=
  {| core := set_PortFD 3 (constructed CONNECTION_SERIAL 3 p);
     props := initial_properties;
     deviceName := of_string "OnStep Aux" |}.

Local Open Scope call_scope.

(** A call of the protocol engine from a function of the driver. *)
Definition lift {A} (m : M OnStep_Aux.state A) : M driver A :=
  fun d =>
    match m (core d) with
    | Done a s => Done a (set_core s d)
    | Thrown e s => Thrown e (set_core s d)
    | Spins s => Spins (set_core s d)
    | Undefined s => Undefined (set_core s d)
    end.

Definition on_props (f : properties -> properties) : M driver unit :=
  modify (fun d => set_props (f (props d)) d).

(** [IPState OnStep_Aux::MoveFocuser(FocusDirection dir, int speed, uint16_t duration)];
    [duration] is below [2^16]. *)
Definition MoveFocuser (dir : FocusDirection) (speed : Z) (duration : N)
    : M driver IPState :=
  let output := Z.of_N duration in
  let output := match dir with FOCUS_INWARD => (0 - output)%Z | _ => output end in
  let cmd := Printf.snprintf 32
               (OS_move_focuser_rel_part ++ Printf.fmt_f_integral output
                  ++ OS_command_terminator) in
  lift (sendOSCommandBlind cmd) ;;;
  ret IPS_BUSY.

(** [IPState OnStep_Aux::MoveAbsFocuser(uint32_t targetTicks)];
    [int(targetTicks)] is [to_int targetTicks]. *)
Definition MoveAbsFocuser (targetTicks : N) : M driver IPState :=
  st <- get ;;
  let target := to_int (Z.of_N targetTicks) in
  if QArith_base.Qle_bool (QArith_base.inject_Z target) (FocusAbsPos_max (props st))
     && QArith_base.Qle_bool (FocusAbsPos_min (props st)) (QArith_base.inject_Z target)
  then
    let cmd := Printf.snprintf 32
                 (OS_move_focuser_abs_part ++ Printf.fmt_0d 6 target
                    ++ OS_command_terminator) in
    '(error_or_fail, _) <-
       lift (getCommandSingleCharResponse (zeroed RB_MAX_LEN) cmd) ;;
    if (1 <? error_or_fail)%Z then ret IPS_BUSY else ret IPS_ALERT
  else ret IPS_ALERT.

(** [IPState OnStep_Aux::MoveRelFocuser(FocusDirection dir, uint32_t ticks)];
    [output = ticks] and [output = 0 - ticks] convert an [unsigned]
    value to [int]. *)
Definition MoveRelFocuser (dir : FocusDirection) (ticks : N) : M driver IPState :=
  let output := to_int (Z.of_N ticks) in
  let output := match dir with
                | FOCUS_INWARD => to_int ((0 - Z.of_N ticks) mod 4294967296)
                | _ => output
                end in
  let cmd := Printf.snprintf 32
               (OS_move_focuser_rel_part ++ Printf.fmt_0d 4 output
                  ++ OS_command_terminator) in
  lift (sendOSCommandBlind cmd) ;;;
  ret IPS_BUSY.

(** [bool OnStep_Aux::AbortFocuser()] *)
Definition AbortFocuser : M driver bool :=
  let cmd := Printf.strncpy (zeroed CMD_MAX_LEN) OS_stop_focuser CMD_MAX_LEN in
  lift (sendOSCommandBlind (c_str cmd)).

(** [IPState OnStep_Aux::MoveRotator(double angle)].  [getSexComponents]
    of indicom is not among the sources: the function is given the
    components [d], [m], [s] that it delivers for [angle]. *)
Definition MoveRotator (d m s : Z) : M driver IPState :=
  let cmd := Printf.snprintf CMD_MAX_LEN
               (OS_set_rotator_angle_part ++ Printf.fmt_prec_d 3 d
                  ++ of_string ":" ++ Printf.fmt_0d 2 m
                  ++ of_string ":" ++ Printf.fmt_0d 2 s
                  ++ OS_command_terminator) in
  '(OS_moveRotator_error_or_fail, _) <-
     lift (getCommandSingleCharResponse (zeroed RB_MAX_LEN) cmd) ;;
  if (1 <? OS_moveRotator_error_or_fail)%Z then ret IPS_BUSY else ret IPS_ALERT.

(** [IPState OnStep_Aux::HomeRotator()] *)
Definition HomeRotator : M driver IPState :=
  lift (sendOSCommandBlind (of_string ":rC#")) ;;;
  ret IPS_BUSY.

(** [bool OnStep_Aux::AbortRotator()] *)
Definition AbortRotator : M driver bool :=
  lift (sendOSCommandBlind (of_string ":rQ#")) ;;;
  ret true.

(** [bool OnStep_Aux::SetRotatorBacklash(int32_t steps)] *)
Definition SetRotatorBacklash (steps : Z) : M driver bool :=
  let cmd := Printf.snprintf CMD_MAX_LEN
               (of_string ":rb" ++ Printf.fmt_d steps ++ of_string "#") in
  r <- lift (sendOSCommand cmd) ;;
  if r then ret true else ret false.

(** [bool OnStep_Aux::SetRotatorBacklashEnabled(bool enabled)] *)
Definition SetRotatorBacklashEnabled (enabled : bool) : M driver bool :=
  ret true.


(** [atof(s)]: the number at the head of [s], 0 when there is none. *)
Definition atof (s : list ascii) : numeral :=
  if float_head s then skip_space s else of_string "0".

(** [int OnStep_Aux::OSUpdateFocuser()].  [response] is the content of
    the local array [char response[RB_MAX_LEN]], which has no
    initialiser.  The calls that only notify the client ([apply],
    [IDSetNumber], [IDSetSwitch], [updateMinMax],
    [FI::updateProperties]) and the log lines are left out. *)
Definition OSUpdateFocuser (response : buffer) : M driver Z :=
  '(error_or_fail, value_int, _) <-
     lift (getCommandIntResponse (zeroed RB_MAX_LEN) OS_get_focuser_position) ;;
  (if (1 <? error_or_fail)%Z
   then match value_int with
        | Some v => on_props (set_FocusAbsPos_value (QArith_base.inject_Z v))
        | None => undefined
        end
   else ret tt) ;;;
  '(error_or_fail, valueStatus) <-
     lift (getCommandSingleCharErrorOrLongResponse (zeroed RB_MAX_LEN)
             OS_get_focuser_status) ;;
  (if (0 <? error_or_fail)%Z
   then if Ascii.eqb (nth 0 valueStatus NUL) "S"%char
        then on_props (set_Focus_state IPS_OK)
        else if Ascii.eqb (nth 0 valueStatus NUL) "M"%char
        then on_props (set_Focus_state IPS_BUSY)
        else on_props (set_Focus_state IPS_ALERT)
   else on_props (set_Focus_state IPS_ALERT)) ;;;
  '(fm_error, focus_max_int, _) <-
     lift (getCommandIntResponse (zeroed RB_MAX_LEN) OS_get_focuser_max) ;;
  (if (0 <? fm_error)%Z
   then match focus_max_int with
        | Some v => on_props (set_FocusAbsPos_max (QArith_base.inject_Z v))
        | None => undefined
        end
   else lift flushIO ;;; ret tt) ;;;
  '(fi_error, focus_min_int, _) <-
     lift (getCommandIntResponse (zeroed RB_MAX_LEN) OS_get_focuser_min) ;;
  (if (0 <? fi_error)%Z
   then match focus_min_int with
        | Some v => on_props (set_FocusAbsPos_min (QArith_base.inject_Z v))
        | None => undefined
        end
   else lift flushIO ;;; ret tt) ;;;
  '(ft_error, _, focus_T) <-
     lift (getCommandDoubleResponse (zeroed RB_MAX_LEN)
             OS_get_focuser_temperature) ;;
  (if (0 <? ft_error)%Z
   then on_props (set_FocusTemperature_0 (atof (c_str focus_T)))
   else lift flushIO ;;; ret tt) ;;;
  '(fe_error, _, focus_TD) <-
     lift (getCommandIntResponse (zeroed RB_MAX_LEN)
             OS_get_focuser_diff_temperature) ;;
  (if (0 <? fe_error)%Z
   then on_props (set_FocusTemperature_1 (atof (c_str focus_TD)))
   else lift flushIO ;;; ret tt) ;;;
  '(fC_error, _, focus_Coeficient) <-
     lift (getCommandIntResponse (zeroed RB_MAX_LEN)
             OS_get_focuser_temp_comp_coef) ;;
  (if (0 <? fC_error)%Z
   then on_props (set_TFCCoefficient (atof (c_str focus_Coeficient)))
   else lift flushIO ;;; ret tt) ;;;
  '(fD_error, focus_Deadband_int, _) <-
     lift (getCommandIntResponse (zeroed RB_MAX_LEN) OS_get_focuser_deadband) ;;
  (if (0 <? fD_error)%Z
   then match focus_Deadband_int with
        | Some v => on_props (set_TFCDeadband (QArith_base.inject_Z v))
        | None => undefined
        end
   else lift flushIO ;;; ret tt) ;;;
  '(res, response) <-
     lift (getCommandSingleCharResponse response OS_get_focuser_temp_comp_en) ;;
  (if (0 <? res)%Z
   then if negb (strcmp_eq response "0")
        then on_props (set_TFCCompensation ISS_OFF ISS_ON)
        else if negb (strcmp_eq response "1")
        then on_props (set_TFCCompensation ISS_ON ISS_OFF)
        else ret tt
   else lift flushIO ;;; ret tt) ;;;
  ret 0%Z.



(** ** Notions used in the statements *)

(** A bound of the position property after [OSUpdateFocuser]: the value
    it had, or a single digit that the function stored. *)
Definition digit_or_kept (old new : QArith_base.Q) : Prop :=
  new = old \/ exists v, (0 <= v <= 9)%Z /\ new = QArith_base.inject_Z v.

(** The position is the one of [p0], and each bound is the one of [p0]
    or a single digit. *)
Definition position_kept (p0 p : properties) : Prop :=
  FocusAbsPos_value p = FocusAbsPos_value p0 /\
  digit_or_kept (FocusAbsPos_max p0) (FocusAbsPos_max p) /\
  digit_or_kept (FocusAbsPos_min p0) (FocusAbsPos_min p).


End OnStep_Aux_Devices.

(* ------------------------------------------------------------------ *)
(** * The roof of OCS (drivers/dome/ocs.h): polling and shutter control *)

Module OCS_Dome.

Import OCS.

(** Further commands of the OCS lexicon (ocs.h). *)
Definition OCS_roof_close : list ascii := of_string ":RC#".
Definition OCS_roof_open : list ascii := of_string ":RO#".
Definition OCS_get_roof_status : list ascii := of_string ":RS#".
Definition OCS_get_roof_last_error : list ascii := of_string ":RSL#".
Definition OCS_get_thermostat_status : list ascii := of_string ":GT#".
Definition OCS_get_thermostat_heat_setpoint : list ascii := of_string ":GH#".
Definition OCS_get_thermostat_cool_setpoint : list ascii := of_string ":GV#".

(** [ShutterOperation] and [ShutterState] of [INDI::Dome]. *)
Inductive ShutterOperation := SHUTTER_OPEN | SHUTTER_CLOSE.

Inductive ShutterState :=
| SHUTTER_OPENED | SHUTTER_CLOSED | SHUTTER_MOVING | SHUTTER_UNKNOWN
| SHUTTER_ERROR.

Definition is_SHUTTER_ERROR (st : ShutterState) : bool :=
  match st with SHUTTER_ERROR => true | _ => false end.

(** The driver: the members of the protocol engine; the shutter state
    that [setShutterState] stores and [getShutterState] returns; the
    member [last_shutter_error]; the texts and values of the thermostat
    properties; what [isConnected()] and [getCurrentPollingPeriod()]
    return; the arguments of the calls of [SetTimer] so far; and the log
    at warning level. *)
Record driver := {
  core : OCS.state;
  shutterState : ShutterState;
  last_shutter_error : buffer;
  Thermostat_temperature : list ascii;
  Thermostat_humidity : list ascii;
  Thermostat_heat_setpoint : QArith_base.Q;
  Thermostat_cool_setpoint : QArith_base.Q;
  isConnected : bool;
  pollingPeriod : Z;
  timers : list Z;
  log : list log_line
}.

Definition set_core (s : OCS.state) (d : driver) : driver :=
  {| core := s; shutterState := shutterState d;
     last_shutter_error := last_shutter_error d;
     Thermostat_temperature := Thermostat_temperature d;
     Thermostat_humidity := Thermostat_humidity d;
     Thermostat_heat_setpoint := Thermostat_heat_setpoint d;
     Thermostat_cool_setpoint := Thermostat_cool_setpoint d;
     isConnected := isConnected d; pollingPeriod := pollingPeriod d;
     timers := timers d; log := log d |}.

(** [setShutterState(st)] *)
Definition set_shutterState (st : ShutterState) (d : driver) : driver :=
  {| core := core d; shutterState := st;
     last_shutter_error := last_shutter_error d;
     Thermostat_temperature := Thermostat_temperature d;
     Thermostat_humidity := Thermostat_humidity d;
     Thermostat_heat_setpoint := Thermostat_heat_setpoint d;
     Thermostat_cool_setpoint := Thermostat_cool_setpoint d;
     isConnected := isConnected d; pollingPeriod := pollingPeriod d;
     timers := timers d; log := log d |}.

Definition set_last_shutter_error (b : buffer) (d : driver) : driver :=
  {| core := core d; shutterState := shutterState d;
     last_shutter_error := b;
     Thermostat_temperature := Thermostat_temperature d;
     Thermostat_humidity := Thermostat_humidity d;
     Thermostat_heat_setpoint := Thermostat_heat_setpoint d;
     Thermostat_cool_setpoint := Thermostat_cool_setpoint d;
     isConnected := isConnected d; pollingPeriod := pollingPeriod d;
     timers := timers d; log := log d |}.

(** [IUSaveText(&Thermostat_StatusT[THERMOSTAT_TEMERATURE], text)] *)
Definition set_Thermostat_temperature (text : list ascii) (d : driver) : driver :=
  {| core := core d; shutterState := shutterState d;
     last_shutter_error := last_shutter_error d;
     Thermostat_temperature := text;
     Thermostat_humidity := Thermostat_humidity d;
     Thermostat_heat_setpoint := Thermostat_heat_setpoint d;
     Thermostat_cool_setpoint := Thermostat_cool_setpoint d;
     isConnected := isConnected d; pollingPeriod := pollingPeriod d;
     timers := timers d; log := log d |}.

(** [IUSaveText(&Thermostat_StatusT[THERMOSTAT_HUMIDITY], text)] *)
Definition set_Thermostat_humidity (text : list ascii) (d : driver) : driver :=
  {| core := core d; shutterState := shutterState d;
     last_shutter_error := last_shutter_error d;
     Thermostat_temperature := Thermostat_temperature d;
     Thermostat_humidity := text;
     Thermostat_heat_setpoint := Thermostat_heat_setpoint d;
     Thermostat_cool_setpoint := Thermostat_cool_setpoint d;
     isConnected := isConnected d; pollingPeriod := pollingPeriod d;
     timers := timers d; log := log d |}.

(** [Thermostat_setpointN[THERMOSTAT_HEAT_SETPOINT].value = v] *)
Definition set_Thermostat_heat_setpoint (v : QArith_base.Q) (d : driver) : driver :=
  {| core := core d; shutterState := shutterState d;
     last_shutter_error := last_shutter_error d;
     Thermostat_temperature := Thermostat_temperature d;
     Thermostat_humidity := Thermostat_humidity d;
     Thermostat_heat_setpoint := v;
     Thermostat_cool_setpoint := Thermostat_cool_setpoint d;
     isConnected := isConnected d; pollingPeriod := pollingPeriod d;
     timers := timers d; log := log d |}.

(** [Thermostat_setpointN[THERMOSTAT_COOL_SETPOINT].value = v] *)
Definition set_Thermostat_cool_setpoint (v : QArith_base.Q) (d : driver) : driver :=
  {| core := core d; shutterState := shutterState d;
     last_shutter_error := last_shutter_error d;
     Thermostat_temperature := Thermostat_temperature d;
     Thermostat_humidity := Thermostat_humidity d;
     Thermostat_heat_setpoint := Thermostat_heat_setpoint d;
     Thermostat_cool_setpoint := v;
     isConnected := isConnected d; pollingPeriod := pollingPeriod d;
     timers := timers d; log := log d |}.

(** [SetTimer(ms)] *)
Definition add_timer (ms : Z) (d : driver) : driver :=
  {| core := core d; shutterState := shutterState d;
     last_shutter_error := last_shutter_error d;
     Thermostat_temperature := Thermostat_temperature d;
     Thermostat_humidity := Thermostat_humidity d;
     Thermostat_heat_setpoint := Thermostat_heat_setpoint d;
     Thermostat_cool_setpoint := Thermostat_cool_setpoint d;
     isConnected := isConnected d; pollingPeriod := pollingPeriod d;
     timers := timers d ++ [ms]; log := log d |}.

Definition add_log (l : log_line) (d : driver) : driver :=
  {| core := core d; shutterState := shutterState d;
     last_shutter_error := last_shutter_error d;
     Thermostat_temperature := Thermostat_temperature d;
     Thermostat_humidity := Thermostat_humidity d;
     Thermostat_heat_setpoint := Thermostat_heat_setpoint d;
     Thermostat_cool_setpoint := Thermostat_cool_setpoint d;
     isConnected := isConnected d; pollingPeriod := pollingPeriod d;
     timers := timers d; log := log d ++ [l] |}.

Local Open Scope call_scope.

(** A call of the protocol engine from a function of the driver. *)
Definition lift {A} (m : M OCS.state A) : M driver A :=
  fun d =>
    match m (core d) with
    | Done a s => Done a (set_core s d)
    | Thrown e s => Thrown e (set_core s d)
    | Spins s => Spins (set_core s d)
    | Undefined s => Undefined (set_core s d)
    end.

Definition setShutterState (st : ShutterState) : M driver unit :=
  modify (set_shutterState st).

Definition SetTimer (ms : Z) : M driver unit := modify (add_timer ms).

(** [LOG_WARN(fmt)] and [LOGF_WARN(fmt, args)] *)
Definition warn (fmt : string) (args : list log_arg) : M driver unit :=
  modify (add_log (LOG_WARN fmt args)).

(** The C string at the start of a buffer that held [s] once
    [strtok(buf, delim)] has returned a token: the delimiters that
    [strtok] skipped and the token, behind which it stored a NUL.
    When there is no token the buffer is not changed. *)
Fixpoint strtok_token (s : list ascii) (delim : ascii) : list ascii :=
  match s with
  | [] => []
  | c :: rest => if Ascii.eqb c delim then [] else c :: strtok_token rest delim
  end.

Fixpoint strtok_head (s : list ascii) (delim : ascii) : list ascii :=
  match s with
  | [] => []
  | c :: rest =>
      if Ascii.eqb c delim then c :: strtok_head rest delim
      else strtok_token s delim
  end.

(** The roof errors that [TimerHit] tells apart, in the order of its
    [if] ... [else if] chain, with the warning of each. *)
Definition roof_errors : list (string * string) :=
  [("RERR_OPEN_SAFETY_INTERLOCK"%string, "Roof/shutter error - Open safety interlock"%string);
   ("RERR_CLOSE_SAFETY_INTERLOCK"%string, "Roof/shutter error - Close safety interlock"%string);
   ("RERR_OPEN_UNKNOWN"%string, "Roof/shutter error - Open unknown"%string);
   ("RERR_OPEN_LIMIT_SW"%string, "Roof/shutter error - Open limit switch"%string);
   ("RERR_OPEN_MAX_TIME"%string, "Roof/shutter error - Open max time exceeded"%string);
   ("RERR_OPEN_MIN_TIME"%string, "Roof/shutter error - Open min time not reached"%string);
   ("RERR_CLOSE_UNKNOWN"%string, "Roof/shutter error - Close unknow"%string);
   ("RERR_CLOSE_LIMIT_SW"%string, "Roof/shutter error - Close limit switch"%string);
   ("RERR_CLOSE_MAX_TIME"%string, "Roof/shutter error - Close max time exceeded"%string);
   ("RERR_CLOSE_MIN_TIME"%string, "Roof/shutter error - Close min time not reached"%string);
   ("RERR_LIMIT_SW"%string,
    "Roof/shutter error - Both open & close limit switches active together"%string)].

(** The chain
<<
  if (strcmp(roof_error_response, "RERR_OPEN_SAFETY_INTERLOCK") == 0 &&
      strcmp(roof_error_response, last_shutter_error) != 0) { ... }
  else if (...) ...
>>
    the warning of the branch that is taken, if one is. *)
Fixpoint roof_error_chain (table : list (string * string))
    (roof_error_response last : list ascii) : option string :=
  match table with
  | [] => None
  | (code, message) :: rest =>
      if CStr.eqb roof_error_response (of_string code)
         && negb (CStr.eqb roof_error_response last)
      then Some message
      else roof_error_chain rest roof_error_response last
  end.

(** The roof status part of [TimerHit]; the result is the C string that
    [roof_status_response] holds afterwards.  [strtok] returns a null
    pointer when no field is left, and [strcmp] on it is undefined.  The
    second field of an opening or closing roof only goes to a log line at
    debug level. *)
Definition roof_status (roof_status_response : buffer) : M driver (list ascii) :=
  match strtok_all (c_str roof_status_response) ","%char with
  | [] => undefined
  | split :: more =>
      (if CStr.eqb split (of_string "o") then setShutterState SHUTTER_MOVING
       else if CStr.eqb split (of_string "c") then setShutterState SHUTTER_MOVING
       else if CStr.eqb split (of_string "i") then
         match more with
         | [] => undefined
         | split :: _ =>
             if CStr.eqb split (of_string "OPEN")
             then setShutterState SHUTTER_OPENED
             else if CStr.eqb split (of_string "CLOSED")
             then setShutterState SHUTTER_CLOSED
             else ret tt
         end
       else ret tt) ;;;
      ret (strtok_head (c_str roof_status_response) ","%char)
  end.

(** The thermostat part of [TimerHit]; [IUSaveText] is handed a null
    pointer when a field is missing. *)
Definition thermostat_status (thermostat_status_response : buffer)
    : M driver unit :=
  match strtok_all (c_str thermostat_status_response) ","%char with
  | [] => undefined
  | [split] => modify (set_Thermostat_temperature split) ;;; undefined
  | split :: split' :: _ =>
      modify (set_Thermostat_temperature split) ;;;
      modify (set_Thermostat_humidity split')
  end.

(** [void OCS::TimerHit()], part by part.  The roof status: the result
    is the C string that [roof_status_response] holds afterwards. *)
Definition poll_roof_status : M driver (list ascii) :=
  '(roof_status_error_or_fail, roof_status_response) <-
     lift (getCommandSingleCharErrorOrLongResponse (zeroed RB_MAX_LEN)
             OCS_get_roof_status) ;;
  if (1 <? roof_status_error_or_fail)%Z
  then roof_status roof_status_response
  else ret (c_str roof_status_response).

(** The last roof error; [roof_status_text] is what
    [roof_status_response] holds, which is what the [strncpy] calls copy
    into [last_shutter_error]. *)
Definition poll_roof_error (roof_status_text : list ascii) : M driver unit :=
  '(roof_error_error_or_fail, roof_error_response) <-
     lift (getCommandSingleCharErrorOrLongResponse (zeroed RB_MAX_LEN)
             OCS_get_roof_last_error) ;;
  if (1 <? roof_error_error_or_fail)%Z then
    st <- get ;;
    (if negb (is_SHUTTER_ERROR (shutterState st)) then
       setShutterState SHUTTER_ERROR ;;;
       warn "roof_error_error_or_fail = %d" [ArgInt roof_error_error_or_fail] ;;;
       warn "roof_error_response = %s" [ArgStr (c_str roof_error_response)]
     else ret tt) ;;;
    match roof_error_chain roof_errors (c_str roof_error_response)
            (c_str (last_shutter_error st)) with
    | Some message =>
        modify (set_last_shutter_error
                  (Printf.strncpy (last_shutter_error st) roof_status_text
                     RB_MAX_LEN)) ;;;
        warn message []
    | None => ret tt
    end
  else if (roof_error_error_or_fail =? 1)%Z then
    warn "Communication error on get Roof/Shutter last error %s, this update aborted, will try again..."
         [ArgStr OCS_get_roof_last_error]
  else ret tt.

(** The thermostat readings. *)
Definition poll_thermostat_status : M driver unit :=
  '(thermostat_status_error_or_fail, thermostat_status_response) <-
     lift (getCommandSingleCharErrorOrLongResponse (zeroed RB_MAX_LEN)
             OCS_get_thermostat_status) ;;
  if (1 <? thermostat_status_error_or_fail)%Z
  then thermostat_status thermostat_status_response
  else
    warn "Communication error on get Thermostat Status %s, this update aborted, will try again..."
         [ArgStr OCS_get_thermostat_status] ;;;
    warn "thermostat_status_error_or_fail = %d"
         [ArgInt thermostat_status_error_or_fail] ;;;
    warn "thermostat_status_response = %s"
         [ArgStr (c_str thermostat_status_response)].

(** The warning that [getCommandIntResponse] logs itself before it
    returns [RES_ERR_FORMAT], the value it returns on no other path. *)
Definition invalid_response (error_or_fail : Z) : M driver unit :=
  if (error_or_fail =? RES_ERR_FORMAT)%Z
  then warn "Invalid response, check connection" []
  else ret tt.

(** The thermostat setpoints; the two queries share the buffer
    [value]. *)
Definition poll_thermostat_setpoints : M driver unit :=
  '(hot_setpoint_error_or_fail, thermostat_heat_setpoint, value) <-
     lift (getCommandIntResponse (zeroed RB_MAX_LEN)
             OCS_get_thermostat_heat_setpoint) ;;
  invalid_response hot_setpoint_error_or_fail ;;;
  (if (1 <? hot_setpoint_error_or_fail)%Z
   then match thermostat_heat_setpoint with
        | Some v => modify (set_Thermostat_heat_setpoint (QArith_base.inject_Z v))
        | None => undefined
        end
   else
     warn "Communication error on get Thermostat Heat Setpoint %s, this update aborted, will try again..."
          [ArgStr OCS_get_thermostat_heat_setpoint]) ;;;
  '(cool_setpoint_error_or_fail, thermostat_vent_setpoint, _) <-
     lift (getCommandIntResponse value OCS_get_thermostat_cool_setpoint) ;;
  invalid_response cool_setpoint_error_or_fail ;;;
  if (1 <? cool_setpoint_error_or_fail)%Z
  then match thermostat_vent_setpoint with
       | Some v => modify (set_Thermostat_cool_setpoint (QArith_base.inject_Z v))
       | None => undefined
       end
  else
    warn "Communication error on get Thermostat Cool Setpoint %s, this update aborted, will try again..."
         [ArgStr OCS_get_thermostat_cool_setpoint].

(** [void OCS::TimerHit()] *)
Definition TimerHit : M driver unit :=
  roof_status_text <- poll_roof_status ;;
  poll_roof_error roof_status_text ;;;
  poll_thermostat_status ;;;
  poll_thermostat_setpoints ;;;
  st <- get ;;
  if negb (isConnected st) then ret tt
  else SetTimer (pollingPeriod st).

(** The driver after construction on the line [p], connected, with a
    polling period of one second; [last_shutter_error], which has no
    initialiser, is taken as zeros. *)
Definition started (p : port) : driver :=
  {| core := OCS.constructed 3 CONNECTION_SERIAL p;
     shutterState := SHUTTER_UNKNOWN;
     last_shutter_error := zeroed RB_MAX_LEN;
     Thermostat_temperature := of_string "NA";
     Thermostat_humidity := of_string "NA";
     Thermostat_heat_setpoint := QArith_base.inject_Z 0;
     Thermostat_cool_setpoint := QArith_base.inject_Z 0;
     isConnected := true; pollingPeriod := 1000; timers := []; log := [] |}.

(** [IPState OCS::ControlShutter(ShutterOperation operation)].  The
    argument of [SetTimer] is computed in [int]; an overflow there is
    undefined, and a negative value is converted to [uint32_t]. *)
Definition ControlShutter (operation : ShutterOperation) : M driver IPState :=
  (match operation with
   | SHUTTER_OPEN => lift (sendOCSCommandBlind OCS_roof_open) ;;; ret tt
   | SHUTTER_CLOSE => lift (sendOCSCommandBlind OCS_roof_close) ;;; ret tt
   end) ;;;
  st <- get ;;
  let ms := (ROOF_TIME_PRE_MOTION (core st) * 1000 + 500)%Z in
  if (INT_MIN <=? ROOF_TIME_PRE_MOTION (core st) * 1000)%Z
     && (ms <=? INT_MAX)%Z
  then SetTimer (ms mod 4294967296) ;;; ret IPS_BUSY
  else undefined.

(** ** Notions used in the statements *)

(** [d'] is [d] after queries with the commands [cmds]: they were
    written, in this order; no timer was set and the connection is as
    it was; the log has grown. *)
Definition polled (cmds : list (list ascii)) (d d' : driver) : Prop :=
  written (tty (core d')) = written (tty (core d)) ++ cmds /\
  timers d' = timers d /\ isConnected d' = isConnected d /\
  pollingPeriod d' = pollingPeriod d /\
  exists l, log d' = log d ++ l.

(** The line has moved on by one query: one verdict of a write is used
    up, and of the arrivals the one that the discard read took and, when
    the write succeeded, the one that the read of the response took. *)
Definition advanced (p p' : port) : Prop :=
  line_out p' = tl (line_out p) /\
  line_in p'
  = if is_ok (next_write p) then tl (tl (line_in p)) else tl (line_in p).

(** The line behind one query, as the next query meets it: one verdict
    of a write is used up, and of the arrivals the one that the discard
    read took and, when the write succeeded, the one that the read of
    the response took. *)
Definition queried (p : port) : port :=
  {| line_out := tl (line_out p);
     line_in := if is_ok (next_write p) then tl (tl (line_in p))
                else tl (line_in p);
     events := events p |}.

(** What a query for a long response into a zeroed buffer brings back
    from the line [p]: the return value and the C string. *)
Definition reply_return (p : port) : Z :=
  if is_ok (next_write p) then section_return (answer p)
  else tty_code (next_write p).

Definition reply_text (p : port) : list ascii :=
  c_str (exchanged (zeroed RB_MAX_LEN) p).

(** The roof status that a poll on the line [p] receives makes [strtok]
    return the null pointer that [strcmp] is handed: a reply of more
    than one byte that has no field at all, or the first field [i] and
    no second one. *)
Definition roof_status_lacks_a_field (p : port) : bool :=
  (1 <? reply_return p)%Z &&
  match strtok_all (reply_text p) ","%char with
  | [] => true
  | [split] => CStr.eqb split (of_string "i")
  | _ => false
  end.

(** The thermostat status received on the line [p] makes [strtok] return
    the null pointer that [IUSaveText] is handed: a reply of more than
    one byte with fewer than two fields. *)
Definition thermostat_status_lacks_a_field (p : port) : bool :=
  (1 <? reply_return p)%Z &&
  match strtok_all (reply_text p) ","%char with
  | [] => true
  | [_] => true
  | _ => false
  end.

(** What the roof parts of [TimerHit] leave to the later parts. *)
Definition roof_kept (d d' : driver) : Prop :=
  shutterState d' = shutterState d /\
  last_shutter_error d' = last_shutter_error d.

End OCS_Dome.

(* ------------------------------------------------------------------ *)
(** * Example sessions *)

(** A connection over TCP to a device that answers every probe. *)
Definition tcp_session : OnStep_Aux.state :=
  OnStep_Aux.constructed CONNECTION_TCP 5
    (fresh_port (repeat TTY_OK 9)
       [silence; delivers "On-Step#"; silence; delivers "10.25#";
        silence; delivers "1"; silence; delivers "0";
        silence; delivers "21.5#"; silence; delivers "nan#";
        silence; delivers "N/A#"; silence; delivers "3.2#";
        silence; delivers "11000000#"]).

(** A serial line on which the device is identified and then stays
    silent on the firmware probe. *)
Definition silent_firmware_session : OnStep_Aux.state :=
  OnStep_Aux.constructed CONNECTION_SERIAL 3
    (fresh_port [TTY_OK; TTY_OK]
       [silence; delivers "On-Step#"; silence; silence]).

(** The device answers the firmware probe; the write of the focuser
    probe fails. *)
Definition failed_probe_write_session : OnStep_Aux.state :=
  OnStep_Aux.constructed CONNECTION_SERIAL 3
    (fresh_port [TTY_OK; TTY_OK; TTY_WRITE_ERROR; TTY_OK]
       [silence; delivers "On-Step#"; silence; delivers "10.25#";
        silence; silence; silence; silence]).

(** The device answers the firmware probe and stays silent on every
    other probe. *)
Definition silent_probes_session : OnStep_Aux.state :=
  OnStep_Aux.constructed CONNECTION_SERIAL 3
    (fresh_port (repeat TTY_OK 9)
       [silence; delivers "On-Step#"; silence; delivers "10.25#"]).

(** Two callers on one line: caller 1 comes to the mutex while caller 0
    stands between its write and its read, and waits. *)
Definition two_callers : Interleaving.schedule :=
  [(0, true); (1, true); (0, true); (1, true); (0, true); (0, true);
   (1, true); (0, true); (1, true); (0, true); (1, true); (0, true);
   (1, true); (0, true); (1, true); (0, true); (1, true); (0, true);
   (1, true); (1, true); (1, true); (1, true); (1, true)].

(** A focuser that answers every query of [OSUpdateFocuser]. *)
Definition focuser_session : OnStep_Aux_Devices.driver :=
  OnStep_Aux_Devices.started
    (fresh_port (repeat TTY_OK 9)
       [silence; delivers "12345#"; silence; delivers "S#";
        silence; delivers "50000#"; silence; delivers "0#";
        silence; delivers "21.5#"; silence; delivers "3#";
        silence; delivers "1.5#"; silence; delivers "7#";
        silence; delivers "1"]).

(** The roof is open and idle; OCS still reports the error of an
    earlier move. *)
Definition open_roof_with_old_error : OCS_Dome.driver :=
  OCS_Dome.started
    (fresh_port (repeat TTY_OK 5)
       [silence; delivers "i,OPEN#"; silence; delivers "RERR_OPEN_LIMIT_SW#";
        silence; delivers "21.5,40.0#"; silence; delivers "18#";
        silence; delivers "30#"]).

(** The roof is idle and OCS leaves out the state. *)
Definition idle_roof_without_state : OCS_Dome.driver :=
  OCS_Dome.started (fresh_port [TTY_OK] [silence; delivers "i#"]).

(** The roof is open, OCS answers as its lexicon says and has no error
    to report. *)
Definition open_roof_by_the_lexicon : OCS_Dome.driver :=
  OCS_Dome.started
    (fresh_port (repeat TTY_OK 5)
       [silence; delivers "OPEN#"; silence; delivers "#";
        silence; delivers "21.5,40.0#"; silence; delivers "18#";
        silence; delivers "30#"]).

(** Two polls of a roof that is open and idle while OCS keeps reporting
    the error of an earlier move. *)
Definition standing_error_session : OCS_Dome.driver :=
  OCS_Dome.started
    (fresh_port (repeat TTY_OK 10)
       [silence; delivers "i,OPEN#"; silence; delivers "RERR_OPEN_LIMIT_SW#";
        silence; delivers "21.5,40.0#"; silence; delivers "18#";
        silence; delivers "30#";
        silence; delivers "i,OPEN#"; silence; delivers "RERR_OPEN_LIMIT_SW#";
        silence; delivers "21.5,40.0#"; silence; delivers "18#";
        silence; delivers "30#"]).

(* ================================================================== *)
(** * Properties *)

(** ** C buffers *)

Lemma c_str_text_then_NUL (bs rest : list ascii) :
  forallb not_NUL bs = true -> c_str (bs ++ NUL :: rest) = bs.
Proof.
  induction bs as [|b bs IH]; simpl; intros H.
  - reflexivity.
  - apply andb_prop in H as [Hb Hbs].
    unfold not_NUL in Hb. apply negb_true_iff in Hb. rewrite Hb.
    now rewrite IH.
Qed.

Lemma text_char_not_NUL (bs : list ascii) :
  forallb text_char bs = true -> forallb not_NUL bs = true.
Proof.
  induction bs as [|b bs IH]; simpl; intros H; [reflexivity|].
  apply andb_prop in H as [Hb Hbs]. unfold text_char in Hb.
  apply andb_prop in Hb as [Hb _]. now rewrite Hb, IH.
Qed.

Lemma strchr_text_then_stop (bs rest : list ascii) :
  forallb text_char bs = true ->
  strchr (bs ++ terminator :: rest) terminator = Some (length bs).
Proof.
  induction bs as [|b bs IH]; simpl; intros H.
  - reflexivity.
  - apply andb_prop in H as [Hb Hbs]. unfold text_char, not_NUL in Hb.
    apply andb_prop in Hb as [Hn Ht].
    apply negb_true_iff in Hn. apply negb_true_iff in Ht.
    rewrite Ht, Hn, IH by assumption. reflexivity.
Qed.

Lemma poke_at_length (bs rest : list ascii) (x c : ascii) :
  poke (length bs) c (bs ++ x :: rest) = bs ++ c :: rest.
Proof. induction bs as [|b bs IH]; simpl; [reflexivity | now rewrite IH]. Qed.

(** A store at or behind the first NUL does not change the C string. *)
Lemma c_str_poke_behind (bs rest : list ascii) (n : nat) :
  forallb not_NUL bs = true -> length bs <= n ->
  c_str (poke n NUL (bs ++ NUL :: rest)) = bs.
Proof.
  revert n. induction bs as [|b bs IH]; simpl; intros n H Hn.
  - destruct n; reflexivity.
  - apply andb_prop in H as [Hb Hbs].
    destruct n as [|n]; [lia|]. simpl.
    unfold not_NUL in Hb. apply negb_true_iff in Hb. rewrite Hb.
    rewrite IH by (assumption || lia). reflexivity.
Qed.


(** ** Framing *)

Lemma frame_terminated (bs rest : list ascii) (n : nat) :
  forallb text_char bs = true ->
  length bs < RB_MAX_LEN -> length bs < n ->
  payload (bs ++ terminator :: rest) n = bs /\
  Forall (fun i => i < RB_MAX_LEN) (frame_stores (bs ++ terminator :: rest) n).
Proof.
  intros Ht Hk Hn.
  unfold payload, framed, frame_stores, frame.
  rewrite strchr_text_then_stop by assumption.
  rewrite poke_at_length.
  pose proof (text_char_not_NUL _ Ht) as Hnn.
  destruct (Nat.ltb n RB_MAX_LEN) eqn:E; cbn [fst snd app].
  - apply Nat.ltb_lt in E. split.
    + apply c_str_poke_behind; [assumption | lia].
    + apply Forall_cons; [assumption|].
      apply Forall_cons; [assumption | apply Forall_nil].
  - split.
    + apply c_str_poke_behind; [assumption | unfold RB_MAX_LEN in *; lia].
    + apply Forall_cons; [assumption|].
      apply Forall_cons; [unfold RB_MAX_LEN; lia | apply Forall_nil].
Qed.


(** The framing behind the read of [OCS] and [OnStep_Aux]: a response
    that arrives with its terminator, whatever was in the buffer and
    whatever arrives behind the terminator. *)
Lemma upto_text_then_stop (bs rest : list ascii) :
  forallb text_char bs = true ->
  upto terminator (bs ++ terminator :: rest) = Some (bs ++ [terminator]).
Proof.
  induction bs as [|b bs IH]; simpl; intros H.
  - reflexivity.
  - apply andb_prop in H as [Hb Hbs]. unfold text_char in Hb.
    apply andb_prop in Hb as [_ Ht]. apply negb_true_iff in Ht.
    rewrite Ht, IH by assumption. reflexivity.
Qed.

Lemma section_payload_of_response (data : buffer) (a : arrival)
    (bs rest : list ascii) :
  arr_bytes a = bs ++ terminator :: rest ->
  forallb text_char bs = true ->
  length bs < RB_MAX_LEN ->
  section_payload data a = bs.
Proof.
  intros Ha Ht Hk. unfold section_payload, section_framed, section_result.
  rewrite Ha, upto_text_then_stop by assumption. cbn [fst snd].
  unfold blit. rewrite <- app_assoc. cbn [app].
  apply (frame_terminated bs _ Ht Hk).
  rewrite length_app. cbn. lia.
Qed.



(** ** The line *)

Lemma tty_code_nonpos (e : TTY_ERROR) : (tty_code e <= 0)%Z.
Proof. destruct e; simpl; lia. Qed.

Lemma tty_code_ok (e : TTY_ERROR) : tty_code e = 0%Z <-> e = TTY_OK.
Proof. destruct e; simpl; split; intros H; (reflexivity || discriminate). Qed.

Lemma bool_of_int_tty_code (e : TTY_ERROR) :
  bool_of_int (tty_code e) = negb (is_ok e).
Proof. destruct e; reflexivity. Qed.

Lemma RES_ERR_FORMAT_no_tty_code (e : TTY_ERROR) : tty_code e <> RES_ERR_FORMAT.
Proof. destruct e; discriminate. Qed.

(** The discard loop of [flushIO] ends after its first pass whatever the
    fuel, since no code of the line is positive. *)
Lemma discard_loop_once (fuel : nat) (p : port) :
  discard_loop (S fuel) p =
  Some (observe (EvReadSection terminator 0 1000
                   (fst (section_result terminator (next_read p)))
                   (snd (section_result terminator (next_read p))))
                (advance p)).
Proof.
  simpl.
  assert (H : (0 <? tty_code (fst (section_result terminator (next_read p))))%Z
              = false).
  { apply Z.ltb_ge. apply tty_code_nonpos. }
  now rewrite H.
Qed.

Lemma next_write_flushed (p : port) : next_write (flushed_line p) = next_write p.
Proof. reflexivity. Qed.

Lemma next_read_flushed (p : port) : next_read (flushed_line p) = answer p.
Proof. reflexivity. Qed.

Lemma next_write_tcflush (q : queue_selector) (p : port) :
  next_write (tcflush q p) = next_write p.
Proof. reflexivity. Qed.

Lemma next_read_tcflush (q : queue_selector) (p : port) :
  next_read (tcflush q p) = next_read p.
Proof. reflexivity. Qed.

Lemma next_read_observe (ev : tty_event) (p : port) :
  next_read (observe ev p) = next_read p.
Proof. reflexivity. Qed.

Lemma next_read_same_line_in (o : list TTY_ERROR) (e : list tty_event) (p : port) :
  next_read {| line_out := o; line_in := line_in p; events := e |} = next_read p.
Proof. reflexivity. Qed.

(** A section that is read in full holds at least its terminator. *)
Lemma upto_nonempty (stop : ascii) (bytes section : list ascii) :
  upto stop bytes = Some section -> section <> [].
Proof.
  destruct bytes as [|c rest]; simpl; [discriminate|].
  destruct (Ascii.eqb c stop).
  - intros [= <-]. discriminate.
  - destruct (upto stop rest); simpl; [intros [= <-]; discriminate | discriminate].
Qed.

Lemma section_result_ok_nonempty (stop : ascii) (a : arrival) :
  fst (section_result stop a) = TTY_OK -> snd (section_result stop a) <> [].
Proof.
  unfold section_result. destruct (upto stop (arr_bytes a)) eqn:E; simpl.
  - intros _. exact (upto_nonempty _ _ E).
  - unfold fault_of. destruct (arr_fault a); discriminate.
Qed.

(** ** The sequencing guard of OnStep_Aux *)

(** While the flag is set the wait loop uses up any fuel. *)
Lemma wait_loop_busy (s : OnStep_Aux.state) :
  OnStep_Aux.waitingForResponse s = true ->
  forall fuel, OnStep_Aux.wait_loop fuel s = None.
Proof.
  intros H fuel. induction fuel as [|fuel IH]; simpl; [reflexivity|].
  now rewrite H.
Qed.

Lemma wait_loop_clear (s : OnStep_Aux.state) :
  OnStep_Aux.waitingForResponse s = false ->
  forall fuel, OnStep_Aux.wait_loop (S fuel) s = Some s.
Proof. intros H fuel. simpl. now rewrite H. Qed.

Lemma blockUntilClear_busy (s : OnStep_Aux.state) :
  OnStep_Aux.waitingForResponse s = true ->
  OnStep_Aux.blockUntilClear s = Spins s.
Proof.
  intros H. unfold OnStep_Aux.blockUntilClear. now rewrite wait_loop_busy.
Qed.

Lemma blockUntilClear_clear (s : OnStep_Aux.state) :
  OnStep_Aux.waitingForResponse s = false ->
  OnStep_Aux.blockUntilClear s
  = Done tt (OnStep_Aux.set_waitingForResponse true s).
Proof.
  intros H. unfold OnStep_Aux.blockUntilClear. now rewrite wait_loop_clear.
Qed.

Lemma OnStep_flushIO_eq (s : OnStep_Aux.state) :
  OnStep_Aux.flushIO s
  = Done 0%Z (OnStep_Aux.set_tty (flushed_line (OnStep_Aux.tty s)) s).
Proof.
  unfold OnStep_Aux.flushIO, bind, OnStep_Aux.flush, OnStep_Aux.on_line.
  cbn [OnStep_Aux.tty OnStep_Aux.set_tty]. rewrite discard_loop_once.
  reflexivity.
Qed.

Lemma OCS_flushIO_eq (s : OCS.state) :
  OCS.flushIO s = Done 0%Z (OCS.set_tty (flushed_line (OCS.tty s)) s).
Proof.
  unfold OCS.flushIO, bind, OCS.flush, OCS.on_line.
  cbn [OCS.tty OCS.set_tty]. rewrite discard_loop_once. reflexivity.
Qed.

(** Entering a guarded accessor with the flag clear. *)
Ltac enter_guarded H :=
  unfold bind at 1; rewrite (blockUntilClear_clear _ H);
  unfold bind at 1; rewrite OnStep_flushIO_eq.

Ltac enter_ocs :=
  unfold bind at 1; rewrite OCS_flushIO_eq.

Ltac on_the_line :=
  unfold bind, OnStep_Aux.flush, OnStep_Aux.write, OnStep_Aux.read_n,
    OnStep_Aux.read_section, OnStep_Aux.on_line, OnStep_Aux.clearBlock,
    OCS.flush, OCS.write, OCS.read_n, OCS.read_section, OCS.on_line,
    modify, ret;
  cbn -[flushed_line next_write next_read answer framed read_result
        section_result sscanf_i sscanf_lf c_str blit zeroed Nat.ltb
        tty_code bool_of_int];
  rewrite ?next_write_tcflush, ?next_write_flushed;
  rewrite ?next_read_observe, ?next_read_same_line_in, ?next_read_tcflush,
    ?next_read_flushed.

Ltac branch :=
  match goal with
  | |- context [if ?c then _ else _] => destruct c eqn:?
  | |- context [match sscanf_i ?x with _ => _ end] => destruct (sscanf_i x) eqn:?
  | |- context [match sscanf_lf ?x with _ => _ end] => destruct (sscanf_lf x) eqn:?
  end.

Section GuardProofs.
Import OnStep_Aux.

Variables (s : state) (cmd : list ascii) (data : buffer).

(** A guarded accessor that is entered while the flag is set never
    returns. *)
Lemma guarded_calls_spin_when_busy :
  waitingForResponse s = true ->
  sendOSCommand cmd s = Spins s /\
  getCommandSingleCharResponse data cmd s = Spins s /\
  getCommandDoubleResponse data cmd s = Spins s /\
  getCommandIntResponse data cmd s = Spins s /\
  getCommandSingleCharErrorOrLongResponse data cmd s = Spins s.
Proof.
  intros H.
  unfold sendOSCommand, getCommandSingleCharResponse,
    getCommandDoubleResponse, getCommandIntResponse,
    getCommandSingleCharErrorOrLongResponse.
  repeat split; unfold bind at 1; now rewrite (blockUntilClear_busy _ H).
Qed.

(** Once the write has succeeded the flag is clear at the return of
    four of the five guarded accessors, whatever the read and the
    conversion do. *)
Lemma guard_released_after_write :
  waitingForResponse s = false ->
  is_ok (next_write (tty s)) = true ->
  released (sendOSCommand cmd s) = true /\
  released (getCommandDoubleResponse data cmd s) = true /\
  released (getCommandIntResponse data cmd s) = true /\
  released (getCommandSingleCharErrorOrLongResponse data cmd s) = true.
Proof.
  intros Hw He.
  unfold sendOSCommand, getCommandDoubleResponse, getCommandIntResponse,
    getCommandSingleCharErrorOrLongResponse.
  repeat split; enter_guarded Hw; on_the_line; rewrite He; cbn [negb];
    repeat branch; reflexivity.
Qed.

(** [getCommandSingleCharResponse] returns before [clearBlock] also when
    its read fails. *)
Lemma getCommandSingleCharResponse_guard :
  waitingForResponse s = false ->
  is_ok (next_write (tty s)) = true ->
  left_busy (getCommandSingleCharResponse data cmd s)
  = negb (is_ok (fst (read_result 1 (answer (tty s))))).
Proof.
  intros Hw He. unfold getCommandSingleCharResponse.
  enter_guarded Hw. on_the_line. rewrite He. cbn [negb]. on_the_line.
  destruct (is_ok (fst (read_result 1 (answer (tty s))))); reflexivity.
Qed.

End GuardProofs.

(** The early [return error_type] on a failed write comes before
    [clearBlock()] in each guarded accessor. *)
Lemma write_error_leaves_busy
    (s : OnStep_Aux.state) (cmd : list ascii) (data : buffer) :
  OnStep_Aux.waitingForResponse s = false ->
  is_ok (next_write (OnStep_Aux.tty s)) = false ->
  OnStep_Aux.left_busy (OnStep_Aux.sendOSCommand cmd s) = true /\
  OnStep_Aux.left_busy (OnStep_Aux.getCommandSingleCharResponse data cmd s) = true /\
  OnStep_Aux.left_busy (OnStep_Aux.getCommandDoubleResponse data cmd s) = true /\
  OnStep_Aux.left_busy (OnStep_Aux.getCommandIntResponse data cmd s) = true /\
  OnStep_Aux.left_busy
    (OnStep_Aux.getCommandSingleCharErrorOrLongResponse data cmd s) = true.
Proof.
  intros Hw He.
  unfold OnStep_Aux.sendOSCommand, OnStep_Aux.getCommandSingleCharResponse,
    OnStep_Aux.getCommandDoubleResponse, OnStep_Aux.getCommandIntResponse,
    OnStep_Aux.getCommandSingleCharErrorOrLongResponse.
  repeat split; enter_guarded Hw; on_the_line; rewrite He; reflexivity.
Qed.

(** C1 (defect of the code).  When the write of a command fails, each of
    the five guarded accessors of OnStep_Aux returns with the busy flag
    [waitingForResponse] still set: the early [return error_type] comes
    before [clearBlock()]. *)
Theorem guard_stays_set_after_write_error
    (s : OnStep_Aux.state) (cmd : list ascii) (data : buffer) :
  OnStep_Aux.waitingForResponse s = false ->
  is_ok (next_write (OnStep_Aux.tty s)) = false ->
  OnStep_Aux.left_busy (OnStep_Aux.sendOSCommand cmd s) = true /\
  OnStep_Aux.left_busy (OnStep_Aux.getCommandSingleCharResponse data cmd s) = true /\
  OnStep_Aux.left_busy (OnStep_Aux.getCommandDoubleResponse data cmd s) = true /\
  OnStep_Aux.left_busy (OnStep_Aux.getCommandIntResponse data cmd s) = true /\
  OnStep_Aux.left_busy
    (OnStep_Aux.getCommandSingleCharErrorOrLongResponse data cmd s) = true.
Proof. exact (write_error_leaves_busy s cmd data). Qed.

Lemma guard_stays_set_after_write_error_witness :
  let s := OnStep_Aux.set_PortFD 3
             (OnStep_Aux.constructed CONNECTION_SERIAL 3
                (fresh_port [TTY_WRITE_ERROR] [])) in
  OnStep_Aux.left_busy (OnStep_Aux.sendOSCommand (of_string ":FQ#") s) = true /\
  OnStep_Aux.left_busy
    (OnStep_Aux.getCommandSingleCharErrorOrLongResponse
       (zeroed RB_MAX_LEN) OnStep_Aux.OS_get_firmware s) = true.
Proof.
  intros s.
  pose proof (guard_stays_set_after_write_error s (of_string ":FQ#")
                (zeroed RB_MAX_LEN) eq_refl eq_refl) as H1.
  pose proof (guard_stays_set_after_write_error s OnStep_Aux.OS_get_firmware
                (zeroed RB_MAX_LEN) eq_refl eq_refl) as H2.
  exact (conj (proj1 H1) (proj2 (proj2 (proj2 (proj2 H2))))).
Defined.

(** The consequence: after a failed write the next guarded call of the
    same driver never returns. *)
Lemma guarded_call_after_write_error_spins
    (s : OnStep_Aux.state) (cmd cmd' : list ascii) :
  OnStep_Aux.waitingForResponse s = false ->
  is_ok (next_write (OnStep_Aux.tty s)) = false ->
  hangs
    (OnStep_Aux.sendOSCommand cmd' (final (OnStep_Aux.sendOSCommand cmd s)))
  = true.
Proof.
  intros Hw He.
  destruct (write_error_leaves_busy s cmd [] Hw He) as [H _].
  destruct (OnStep_Aux.sendOSCommand cmd s) as [a s1| | |]; try discriminate.
  simpl in H. simpl.
  destruct (guarded_calls_spin_when_busy s1 cmd' [] H) as [E _].
  now rewrite E.
Qed.

(** ** The success/fail accessor *)

Lemma read_result_one_byte (a : arrival) (b : ascii) (rest : list ascii) :
  arr_bytes a = b :: rest -> read_result 1 a = (TTY_OK, [b]).
Proof. intros H. unfold read_result. rewrite H. reflexivity. Qed.

Lemma OCS_sendOCSCommand_digit (s : OCS.state) (cmd : list ascii)
    (b : ascii) (rest : list ascii) :
  is_ok (next_write (OCS.tty s)) = true ->
  arr_bytes (answer (OCS.tty s)) = b :: rest ->
  returned (OCS.sendOCSCommand cmd s) = Some (Ascii.eqb b "0"%char).
Proof.
  intros He Hb. unfold OCS.sendOCSCommand.
  enter_ocs. on_the_line. rewrite He. cbn [negb]. on_the_line.
  rewrite (read_result_one_byte _ Hb). reflexivity.
Qed.

Lemma OnStep_sendOSCommand_digit (s : OnStep_Aux.state) (cmd : list ascii)
    (b : ascii) (rest : list ascii) :
  OnStep_Aux.waitingForResponse s = false ->
  is_ok (next_write (OnStep_Aux.tty s)) = true ->
  arr_bytes (answer (OnStep_Aux.tty s)) = b :: rest ->
  returned (OnStep_Aux.sendOSCommand cmd s) = Some (Ascii.eqb b "0"%char).
Proof.
  intros Hw He Hb. unfold OnStep_Aux.sendOSCommand.
  enter_guarded Hw. on_the_line. rewrite He. cbn [negb]. on_the_line.
  rewrite (read_result_one_byte _ Hb). reflexivity.
Qed.

(** C8.  A setter sent through [sendOCSCommand] or [sendOSCommand] whose
    write succeeds and whose answer starts with the byte [b] returns
    [true] when [b] is ['0'] and [false] for every other byte, ['1']
    included. *)
Theorem digit_response_convention :
  (forall (s : OCS.state) (cmd : list ascii) (b : ascii) (rest : list ascii),
      is_ok (next_write (OCS.tty s)) = true ->
      arr_bytes (answer (OCS.tty s)) = b :: rest ->
      returned (OCS.sendOCSCommand cmd s) = Some (Ascii.eqb b "0"%char)) /\
  (forall (s : OnStep_Aux.state) (cmd : list ascii) (b : ascii)
          (rest : list ascii),
      OnStep_Aux.waitingForResponse s = false ->
      is_ok (next_write (OnStep_Aux.tty s)) = true ->
      arr_bytes (answer (OnStep_Aux.tty s)) = b :: rest ->
      returned (OnStep_Aux.sendOSCommand cmd s) = Some (Ascii.eqb b "0"%char)).
Proof.
  split.
  - exact OCS_sendOCSCommand_digit.
  - exact OnStep_sendOSCommand_digit.
Qed.

Lemma digit_response_convention_witness :
  returned (OCS.sendOCSCommand (of_string ":SH21#")
              (OCS.constructed 3 CONNECTION_SERIAL
                 (fresh_port [TTY_OK] [silence; delivers "0"]))) = Some true /\
  returned (OCS.sendOCSCommand (of_string ":SH21#")
              (OCS.constructed 3 CONNECTION_SERIAL
                 (fresh_port [TTY_OK] [silence; delivers "1"]))) = Some false /\
  returned (OnStep_Aux.sendOSCommand (of_string ":FQ#")
              (OnStep_Aux.set_PortFD 3
                 (OnStep_Aux.constructed CONNECTION_SERIAL 3
                    (fresh_port [TTY_OK] [silence; delivers "0"])))) = Some true /\
  returned (OnStep_Aux.sendOSCommand (of_string ":FQ#")
              (OnStep_Aux.set_PortFD 3
                 (OnStep_Aux.constructed CONNECTION_SERIAL 3
                    (fresh_port [TTY_OK] [silence; delivers "1"])))) = Some false.
Proof.
  refine (conj _ (conj _ (conj _ _))).
  - apply (proj1 digit_response_convention _ _ "0"%char []); reflexivity.
  - apply (proj1 digit_response_convention _ _ "1"%char []); reflexivity.
  - apply (proj2 digit_response_convention _ _ "0"%char []); reflexivity.
  - apply (proj2 digit_response_convention _ _ "1"%char []); reflexivity.
Defined.

(** Without an answer the accessor returns [false]. *)
Lemma OCS_sendOCSCommand_silent (s : OCS.state) (cmd : list ascii) :
  is_ok (next_write (OCS.tty s)) = true ->
  arr_bytes (answer (OCS.tty s)) = [] ->
  returned (OCS.sendOCSCommand cmd s) = Some false.
Proof.
  intros He Hb. unfold OCS.sendOCSCommand.
  enter_ocs. on_the_line. rewrite He. cbn [negb]. on_the_line.
  unfold read_result. rewrite Hb. reflexivity.
Qed.

(** C10.  When the write fails, [sendOCSCommand] and [sendOSCommand]
    return the error code of the line converted to [bool], which is
    [true]: the value that an answer ['0'] gives. *)
Theorem write_failure_reads_as_success :
  (forall (s : OCS.state) (cmd : list ascii),
      is_ok (next_write (OCS.tty s)) = false ->
      returned (OCS.sendOCSCommand cmd s)
      = Some (bool_of_int (tty_code (next_write (OCS.tty s)))) /\
      returned (OCS.sendOCSCommand cmd s) = Some true) /\
  (forall (s : OnStep_Aux.state) (cmd : list ascii),
      OnStep_Aux.waitingForResponse s = false ->
      is_ok (next_write (OnStep_Aux.tty s)) = false ->
      returned (OnStep_Aux.sendOSCommand cmd s)
      = Some (bool_of_int (tty_code (next_write (OnStep_Aux.tty s)))) /\
      returned (OnStep_Aux.sendOSCommand cmd s) = Some true).
Proof.
  split.
  - intros s cmd He.
    assert (E : returned (OCS.sendOCSCommand cmd s)
                = Some (bool_of_int (tty_code (next_write (OCS.tty s))))).
    { unfold OCS.sendOCSCommand. enter_ocs. on_the_line. rewrite He.
      reflexivity. }
    split; [exact E|].
    rewrite E, bool_of_int_tty_code, He. reflexivity.
  - intros s cmd Hw He.
    assert (E : returned (OnStep_Aux.sendOSCommand cmd s)
                = Some (bool_of_int (tty_code (next_write (OnStep_Aux.tty s))))).
    { unfold OnStep_Aux.sendOSCommand. enter_guarded Hw. on_the_line.
      rewrite He. reflexivity. }
    split; [exact E|].
    rewrite E, bool_of_int_tty_code, He. reflexivity.
Qed.

Lemma write_failure_reads_as_success_witness :
  returned (OCS.sendOCSCommand (of_string ":SH21#")
              (OCS.constructed 3 CONNECTION_SERIAL
                 (fresh_port [TTY_WRITE_ERROR] []))) = Some true /\
  returned (OnStep_Aux.sendOSCommand (of_string ":FQ#")
              (OnStep_Aux.set_PortFD 3
                 (OnStep_Aux.constructed CONNECTION_SERIAL 3
                    (fresh_port [TTY_WRITE_ERROR] [])))) = Some true.
Proof.
  split.
  - apply (proj1 write_failure_reads_as_success); reflexivity.
  - apply (proj2 write_failure_reads_as_success); reflexivity.
Defined.

(** ** Numeric accessors *)

Lemma last_event_observe (ev : tty_event) (p : port) :
  last_event (observe ev p) = Some ev.
Proof.
  unfold last_event, observe. cbn [events]. rewrite map_app. cbn [map].
  now rewrite last_last.
Qed.

Lemma last_event_tcflush (q : queue_selector) (p : port) :
  last_event (tcflush q p) = Some (EvFlush q).
Proof. apply last_event_observe. Qed.

Lemma OCS_getCommandIntResponse_format (s : OCS.state) (data : buffer)
    (cmd : list ascii) :
  is_ok (next_write (OCS.tty s)) = true ->
  fst (section_result terminator (answer (OCS.tty s))) = TTY_OK ->
  sscanf_i (section_payload data (answer (OCS.tty s))) = None ->
  exists s',
    OCS.getCommandIntResponse data cmd s
    = Done (RES_ERR_FORMAT, None, section_framed data (answer (OCS.tty s))) s' /\
    last_event (OCS.tty s') = Some (EvFlush TCIOFLUSH).
Proof.
  intros He Hr Hp. unfold OCS.getCommandIntResponse.
  enter_ocs. on_the_line. rewrite He. cbn [negb]. on_the_line.
  rewrite Hr. cbn [is_ok negb].
  unfold section_payload, section_framed in Hp. rewrite Hp.
  on_the_line. eexists. split; [reflexivity | apply last_event_tcflush].
Qed.

Lemma OCS_getCommandDoubleResponse_format (s : OCS.state) (data : buffer)
    (cmd : list ascii) :
  is_ok (next_write (OCS.tty s)) = true ->
  fst (section_result terminator (answer (OCS.tty s))) = TTY_OK ->
  sscanf_lf (section_payload data (answer (OCS.tty s))) = None ->
  exists s',
    OCS.getCommandDoubleResponse data cmd s
    = Done (RES_ERR_FORMAT, None, section_framed data (answer (OCS.tty s))) s' /\
    last_event (OCS.tty s') = Some (EvFlush TCIOFLUSH).
Proof.
  intros He Hr Hp. unfold OCS.getCommandDoubleResponse.
  enter_ocs. on_the_line. rewrite He. cbn [negb]. on_the_line.
  rewrite Hr. cbn [is_ok negb].
  unfold section_payload, section_framed in Hp. rewrite Hp.
  on_the_line. eexists. split; [reflexivity | apply last_event_tcflush].
Qed.

Lemma OnStep_getCommandIntResponse_format (s : OnStep_Aux.state)
    (data : buffer) (cmd : list ascii) :
  OnStep_Aux.waitingForResponse s = false ->
  is_ok (next_write (OnStep_Aux.tty s)) = true ->
  fst (read_result 1 (answer (OnStep_Aux.tty s))) = TTY_OK ->
  sscanf_i (byte_payload data (answer (OnStep_Aux.tty s))) = None ->
  exists s',
    OnStep_Aux.getCommandIntResponse data cmd s
    = Done (RES_ERR_FORMAT, None,
            byte_framed data (answer (OnStep_Aux.tty s))) s' /\
    last_event (OnStep_Aux.tty s') = Some (EvFlush TCIOFLUSH).
Proof.
  intros Hw He Hr Hp. unfold OnStep_Aux.getCommandIntResponse.
  enter_guarded Hw. on_the_line. rewrite He. cbn [negb]. on_the_line.
  rewrite Hr. cbn [is_ok negb].
  unfold byte_payload, byte_framed in Hp. rewrite Hp.
  on_the_line. eexists. split; [reflexivity | apply last_event_tcflush].
Qed.

Lemma OnStep_getCommandDoubleResponse_format (s : OnStep_Aux.state)
    (data : buffer) (cmd : list ascii) :
  OnStep_Aux.waitingForResponse s = false ->
  is_ok (next_write (OnStep_Aux.tty s)) = true ->
  fst (section_result terminator (answer (OnStep_Aux.tty s))) = TTY_OK ->
  sscanf_lf (section_payload data (answer (OnStep_Aux.tty s))) = None ->
  exists s',
    OnStep_Aux.getCommandDoubleResponse data cmd s
    = Done (RES_ERR_FORMAT, None,
            section_framed data (answer (OnStep_Aux.tty s))) s' /\
    last_event (OnStep_Aux.tty s') = Some (EvFlush TCIOFLUSH).
Proof.
  intros Hw He Hr Hp. unfold OnStep_Aux.getCommandDoubleResponse.
  enter_guarded Hw. on_the_line. rewrite He. cbn [negb]. on_the_line.
  rewrite Hr. cbn [is_ok negb].
  unfold section_payload, section_framed in Hp. rewrite Hp.
  on_the_line. eexists. split; [reflexivity | apply last_event_tcflush].
Qed.

(** C6.  An integer or floating-point accessor whose write succeeds and
    whose read is served, but whose payload the conversion rejects,
    returns [RES_ERR_FORMAT = -1001] and stores no value; the last call
    on the line before it returns is [tcflush(fd, TCIOFLUSH)]; and no
    code of the line equals [RES_ERR_FORMAT]. *)
Theorem numeric_format_error_sentinel :
  RES_ERR_FORMAT = (-1001)%Z /\
  (forall e : TTY_ERROR, tty_code e <> RES_ERR_FORMAT) /\
  (forall (s : OCS.state) (data : buffer) (cmd : list ascii),
      is_ok (next_write (OCS.tty s)) = true ->
      fst (section_result terminator (answer (OCS.tty s))) = TTY_OK ->
      sscanf_i (section_payload data (answer (OCS.tty s))) = None ->
      exists s',
        OCS.getCommandIntResponse data cmd s
        = Done (RES_ERR_FORMAT, None,
                section_framed data (answer (OCS.tty s))) s' /\
        last_event (OCS.tty s') = Some (EvFlush TCIOFLUSH)) /\
  (forall (s : OCS.state) (data : buffer) (cmd : list ascii),
      is_ok (next_write (OCS.tty s)) = true ->
      fst (section_result terminator (answer (OCS.tty s))) = TTY_OK ->
      sscanf_lf (section_payload data (answer (OCS.tty s))) = None ->
      exists s',
        OCS.getCommandDoubleResponse data cmd s
        = Done (RES_ERR_FORMAT, None,
                section_framed data (answer (OCS.tty s))) s' /\
        last_event (OCS.tty s') = Some (EvFlush TCIOFLUSH)) /\
  (forall (s : OnStep_Aux.state) (data : buffer) (cmd : list ascii),
      OnStep_Aux.waitingForResponse s = false ->
      is_ok (next_write (OnStep_Aux.tty s)) = true ->
      fst (read_result 1 (answer (OnStep_Aux.tty s))) = TTY_OK ->
      sscanf_i (byte_payload data (answer (OnStep_Aux.tty s))) = None ->
      exists s',
        OnStep_Aux.getCommandIntResponse data cmd s
        = Done (RES_ERR_FORMAT, None,
                byte_framed data (answer (OnStep_Aux.tty s))) s' /\
        last_event (OnStep_Aux.tty s') = Some (EvFlush TCIOFLUSH)) /\
  (forall (s : OnStep_Aux.state) (data : buffer) (cmd : list ascii),
      OnStep_Aux.waitingForResponse s = false ->
      is_ok (next_write (OnStep_Aux.tty s)) = true ->
      fst (section_result terminator (answer (OnStep_Aux.tty s))) = TTY_OK ->
      sscanf_lf (section_payload data (answer (OnStep_Aux.tty s))) = None ->
      exists s',
        OnStep_Aux.getCommandDoubleResponse data cmd s
        = Done (RES_ERR_FORMAT, None,
                section_framed data (answer (OnStep_Aux.tty s))) s' /\
        last_event (OnStep_Aux.tty s') = Some (EvFlush TCIOFLUSH)).
Proof.
  refine (conj eq_refl (conj RES_ERR_FORMAT_no_tty_code
           (conj _ (conj _ (conj _ _))))).
  - exact OCS_getCommandIntResponse_format.
  - exact OCS_getCommandDoubleResponse_format.
  - exact OnStep_getCommandIntResponse_format.
  - exact OnStep_getCommandDoubleResponse_format.
Qed.

(** The answer [ERR#] to each of the four accessors. *)
Lemma numeric_format_error_sentinel_witness :
  let ocs := OCS.constructed 3 CONNECTION_SERIAL
               (fresh_port [TTY_OK] [silence; delivers "ERR#"]) in
  let osa := OnStep_Aux.set_PortFD 3
               (OnStep_Aux.constructed CONNECTION_SERIAL 3
                  (fresh_port [TTY_OK] [silence; delivers "ERR#"])) in
  let data := zeroed RB_MAX_LEN in
  option_map (fun r => fst (fst r))
    (returned (OCS.getCommandIntResponse data (of_string ":GH#") ocs))
  = Some (-1001)%Z /\
  option_map (fun r => fst (fst r))
    (returned (OCS.getCommandDoubleResponse data (of_string ":DZ#") ocs))
  = Some (-1001)%Z /\
  option_map (fun r => fst (fst r))
    (returned (OnStep_Aux.getCommandIntResponse data (of_string ":FA#") osa))
  = Some (-1001)%Z /\
  option_map (fun r => fst (fst r))
    (returned (OnStep_Aux.getCommandDoubleResponse data (of_string ":GX9A#") osa))
  = Some (-1001)%Z.
Proof.
  intros ocs osa data.
  destruct numeric_format_error_sentinel as (_ & _ & H1 & H2 & H3 & H4).
  destruct (H1 ocs data (of_string ":GH#") eq_refl eq_refl eq_refl)
    as (s1 & E1 & _).
  destruct (H2 ocs data (of_string ":DZ#") eq_refl eq_refl eq_refl)
    as (s2 & E2 & _).
  destruct (H3 osa data (of_string ":FA#") eq_refl eq_refl eq_refl eq_refl)
    as (s3 & E3 & _).
  destruct (H4 osa data (of_string ":GX9A#") eq_refl eq_refl eq_refl eq_refl)
    as (s4 & E4 & _).
  rewrite E1, E2, E3, E4. repeat split.
Defined.

(** ** The accessor for long responses in closed form *)

Lemma OCS_long_response_eq (s : OCS.state) (data : buffer) (cmd : list ascii) :
  OCS.getCommandSingleCharErrorOrLongResponse data cmd s =
  if is_ok (next_write (OCS.tty s))
  then Done (section_return (answer (OCS.tty s)),
             section_framed data (answer (OCS.tty s)))
            (OCS.set_tty
               (line_answered (OCS.OCSTimeoutSeconds s)
                  (OCS.OCSTimeoutMicroSeconds s) cmd (OCS.tty s)) s)
  else Done (tty_code (next_write (OCS.tty s)), data)
            (OCS.set_tty (line_written cmd (OCS.tty s)) s).
Proof.
  unfold OCS.getCommandSingleCharErrorOrLongResponse.
  enter_ocs. on_the_line.
  destruct (is_ok (next_write (OCS.tty s))); cbn [negb]; [|reflexivity].
  on_the_line. unfold section_return, section_framed.
  destruct (is_ok (fst (section_result terminator (answer (OCS.tty s)))));
    reflexivity.
Qed.

Lemma OnStep_long_response_eq (s : OnStep_Aux.state) (data : buffer)
    (cmd : list ascii) :
  OnStep_Aux.waitingForResponse s = false ->
  OnStep_Aux.getCommandSingleCharErrorOrLongResponse data cmd s =
  if is_ok (next_write (OnStep_Aux.tty s))
  then Done (section_return (answer (OnStep_Aux.tty s)),
             section_framed data (answer (OnStep_Aux.tty s)))
            (OnStep_Aux.set_tty
               (line_answered (OnStep_Aux.OSTimeoutSeconds s)
                  (OnStep_Aux.OSTimeoutMicroSeconds s) cmd (OnStep_Aux.tty s))
               s)
  else Done (tty_code (next_write (OnStep_Aux.tty s)), data)
            (OnStep_Aux.set_waitingForResponse true
               (OnStep_Aux.set_tty (line_written cmd (OnStep_Aux.tty s)) s)).
Proof.
  intros Hw. unfold OnStep_Aux.getCommandSingleCharErrorOrLongResponse.
  enter_guarded Hw. on_the_line.
  destruct (is_ok (next_write (OnStep_Aux.tty s))); cbn [negb].
  - on_the_line. unfold section_return, section_framed.
    destruct s; cbn in *; subst.
    destruct (is_ok (fst (section_result terminator _))); reflexivity.
  - destruct s; reflexivity.
Qed.

Lemma section_return_nonzero (a : arrival) : bool_of_int (section_return a) = true.
Proof.
  unfold section_return.
  destruct (is_ok (fst (section_result terminator a))) eqn:E.
  - assert (H : fst (section_result terminator a) = TTY_OK)
      by (destruct (fst (section_result terminator a)); (reflexivity || discriminate)).
    apply section_result_ok_nonempty in H.
    destruct (snd (section_result terminator a)); [congruence | reflexivity].
  - rewrite bool_of_int_tty_code, E. reflexivity.
Qed.

Lemma written_observe (ev : tty_event) (p : port) :
  written (observe ev p)
  = written p ++ match ev with EvWrite cmd _ => [cmd] | _ => [] end.
Proof.
  unfold written, observe. cbn [events]. rewrite flat_map_app. cbn [flat_map].
  now rewrite app_nil_r.
Qed.

Lemma written_advance (p : port) : written (advance p) = written p.
Proof. reflexivity. Qed.

Lemma written_flushed (p : port) : written (flushed_line p) = written p.
Proof.
  unfold flushed_line, tty_read_section_expanded, tcflush.
  rewrite written_observe, written_advance, !written_observe.
  now rewrite !app_nil_r.
Qed.

Lemma written_line_written (cmd : list ascii) (p : port) :
  written (line_written cmd p) = written p ++ [cmd].
Proof.
  unfold line_written, tty_write_string, tcflush. cbn [snd].
  rewrite written_observe.
  change (written {| line_out := tl (line_out (observe (EvFlush TCIFLUSH) (flushed_line p)));
                     line_in := line_in (observe (EvFlush TCIFLUSH) (flushed_line p));
                     events := events (observe (EvFlush TCIFLUSH) (flushed_line p)) |})
    with (written (observe (EvFlush TCIFLUSH) (flushed_line p))).
  rewrite written_observe, written_flushed. now rewrite app_nil_r.
Qed.

Lemma written_line_answered (sec usec : Z) (cmd : list ascii) (p : port) :
  written (line_answered sec usec cmd p) = written p ++ [cmd].
Proof.
  unfold line_answered, tcflush.
  rewrite !written_observe, written_advance, written_line_written.
  now rewrite !app_nil_r.
Qed.

(** ** The handshake *)

Lemma OCS_Handshake_unrecognised (s : OCS.state) :
  (0 <? OCS.PortFD s)%Z = true ->
  strcmp_eq (exchanged (zeroed RB_MAX_LEN) (OCS.tty s)) "OCS" = false ->
  exists s',
    OCS.Handshake s = Done true s' /\
    OCS.capability s' = OCS.capability s /\
    written (OCS.tty s') = written (OCS.tty s) ++ [OCS.OCS_handshake].
Proof.
  intros Hfd Hid. unfold OCS.Handshake.
  unfold bind at 1. unfold get. rewrite Hfd.
  unfold bind at 1.
  assert (T : exists sec usec,
             (if String.eqb (name (OCS.activeConnection s)) "CONNECTION_TCP"
              then modify (OCS.set_timeouts 2 0)
              else modify (OCS.set_timeouts 0 200000)) s
             = Done tt (OCS.set_timeouts sec usec s)).
  { destruct (String.eqb _ _); unfold modify; eauto. }
  destruct T as (sec & usec & ->).
  unfold bind at 1. rewrite OCS_long_response_eq.
  unfold exchanged in Hid. cbn [OCS.tty OCS.set_timeouts].
  destruct (is_ok (next_write (OCS.tty s))) eqn:E.
  - rewrite Hid. unfold ret. rewrite section_return_nonzero.
    eexists. split; [reflexivity|]. cbn. split; [reflexivity|].
    apply written_line_answered.
  - rewrite Hid. unfold ret. rewrite bool_of_int_tty_code, E.
    eexists. split; [reflexivity|]. cbn. split; [reflexivity|].
    apply written_line_written.
Qed.

Lemma OnStep_Handshake_unrecognised (s : OnStep_Aux.state) :
  OnStep_Aux.waitingForResponse s = false ->
  (OnStep_Aux.active_PortFD s <? 0)%Z = false ->
  strcmp_eq (exchanged (zeroed RB_MAX_LEN) (OnStep_Aux.tty s)) "On-Step" = false ->
  exists s',
    OnStep_Aux.Handshake s = Done true s' /\
    OnStep_Aux.caps s' = OnStep_Aux.caps s /\
    OnStep_Aux.firmware s' = OnStep_Aux.firmware s /\
    written (OnStep_Aux.tty s') = written (OnStep_Aux.tty s) ++ [OnStep_Aux.OS_handshake].
Proof.
  intros Hw Hfd Hid. unfold OnStep_Aux.Handshake.
  unfold bind at 1. unfold get.
  unfold bind at 1.
  assert (T : (match OnStep_Aux.activeConnection s with
               | CONNECTION_SERIAL =>
                   modify (OnStep_Aux.set_PortFD (OnStep_Aux.serialPortFD s))
               | CONNECTION_TCP =>
                   modify (OnStep_Aux.set_PortFD (OnStep_Aux.tcpPortFD s))
               end) s
              = Done tt (OnStep_Aux.set_PortFD (OnStep_Aux.active_PortFD s) s)).
  { unfold OnStep_Aux.active_PortFD.
    destruct (OnStep_Aux.activeConnection s); reflexivity. }
  rewrite T. unfold bind at 1. cbn [OnStep_Aux.PortFD OnStep_Aux.set_PortFD].
  rewrite Hfd.
  unfold bind at 1. rewrite OnStep_long_response_eq by exact Hw.
  unfold exchanged in Hid.
  cbn [OnStep_Aux.tty OnStep_Aux.set_PortFD OnStep_Aux.OSTimeoutSeconds
       OnStep_Aux.OSTimeoutMicroSeconds].
  destruct (is_ok (next_write (OnStep_Aux.tty s))) eqn:E.
  - rewrite Hid. unfold ret. rewrite section_return_nonzero.
    eexists. split; [reflexivity|]. cbn.
    split; [reflexivity|]. split; [reflexivity|].
    apply written_line_answered.
  - rewrite Hid. unfold ret. rewrite bool_of_int_tty_code, E.
    eexists. split; [reflexivity|]. cbn.
    split; [reflexivity|]. split; [reflexivity|].
    apply written_line_written.
Qed.

(** C2 (defect of the code).  When the identification response is not
    the product string (the write failed, nothing arrived within the
    timeout, or another text arrived), no further command is written and
    the capability members keep their values, but [Handshake] returns
    [true]: its status is the accessor's [int] result converted to
    [bool], and that result is an error code or a byte count, never 0. *)
Theorem handshake_failure_returns_true :
  (forall s : OCS.state,
      (0 <? OCS.PortFD s)%Z = true ->
      strcmp_eq (exchanged (zeroed RB_MAX_LEN) (OCS.tty s)) "OCS" = false ->
      exists s',
        OCS.Handshake s = Done true s' /\
        OCS.capability s' = OCS.capability s /\
        written (OCS.tty s') = written (OCS.tty s) ++ [OCS.OCS_handshake]) /\
  (forall s : OnStep_Aux.state,
      OnStep_Aux.waitingForResponse s = false ->
      (OnStep_Aux.active_PortFD s <? 0)%Z = false ->
      strcmp_eq (exchanged (zeroed RB_MAX_LEN) (OnStep_Aux.tty s)) "On-Step"
      = false ->
      exists s',
        OnStep_Aux.Handshake s = Done true s' /\
        OnStep_Aux.caps s' = OnStep_Aux.caps s /\
        OnStep_Aux.firmware s' = OnStep_Aux.firmware s /\
        written (OnStep_Aux.tty s')
        = written (OnStep_Aux.tty s) ++ [OnStep_Aux.OS_handshake]).
Proof.
  split.
  - exact OCS_Handshake_unrecognised.
  - exact OnStep_Handshake_unrecognised.
Qed.

(** The scenario of the spec: [:IP#] (or [:GVP#]) is sent and nothing
    arrives within the timeout. *)
Lemma handshake_failure_returns_true_witness :
  returned (OCS.Handshake
              (OCS.constructed 3 CONNECTION_SERIAL
                 (fresh_port [TTY_OK] [silence; silence]))) = Some true /\
  returned (OnStep_Aux.Handshake
              (OnStep_Aux.constructed CONNECTION_SERIAL 3
                 (fresh_port [TTY_OK] [silence; silence]))) = Some true.
Proof.
  destruct handshake_failure_returns_true as [H1 H2].
  destruct (H1 (OCS.constructed 3 CONNECTION_SERIAL
                  (fresh_port [TTY_OK] [silence; silence])) eq_refl eq_refl)
    as (s1 & E1 & _).
  destruct (H2 (OnStep_Aux.constructed CONNECTION_SERIAL 3
                  (fresh_port [TTY_OK] [silence; silence]))
              eq_refl eq_refl eq_refl)
    as (s2 & E2 & _).
  rewrite E1, E2. split; reflexivity.
Defined.

(** ** The pre-flush *)

Lemma events_flushed (p : port) :
  events (flushed_line p)
  = events p
    ++ [EvFlush TCIOFLUSH; EvFlush TCIOFLUSH;
        EvReadSection terminator 0 1000
          (fst (section_result terminator (next_read p)))
          (snd (section_result terminator (next_read p)))].
Proof.
  unfold flushed_line, tty_read_section_expanded, tcflush, observe, advance.
  cbn [events line_in line_out]. rewrite <- !app_assoc. reflexivity.
Qed.


Lemma OCS_flushIO_discard_read (s : OCS.state) :
  exists s' new,
    OCS.flushIO s = Done 0%Z s' /\
    events (OCS.tty s') = events (OCS.tty s) ++ new /\
    Forall waits_a_millisecond new /\
    Exists (fun ev => read_wait ev = Some (0%Z, 1000%Z)) new.
Proof.
  rewrite OCS_flushIO_eq. eexists. eexists.
  split; [reflexivity|]. cbn [OCS.tty OCS.set_tty].
  split; [apply events_flushed|].
  split.
  - repeat (apply Forall_cons; [exact I || reflexivity|]). apply Forall_nil.
  - apply Exists_cons_tl, Exists_cons_tl, Exists_cons_hd. reflexivity.
Qed.

Lemma OnStep_flushIO_discard_read (s : OnStep_Aux.state) :
  exists s' new,
    OnStep_Aux.flushIO s = Done 0%Z s' /\
    events (OnStep_Aux.tty s') = events (OnStep_Aux.tty s) ++ new /\
    Forall waits_a_millisecond new /\
    Exists (fun ev => read_wait ev = Some (0%Z, 1000%Z)) new.
Proof.
  rewrite OnStep_flushIO_eq. eexists. eexists.
  split; [reflexivity|]. cbn [OnStep_Aux.tty OnStep_Aux.set_tty].
  split; [apply events_flushed|].
  split.
  - repeat (apply Forall_cons; [exact I || reflexivity|]). apply Forall_nil.
  - apply Exists_cons_tl, Exists_cons_tl, Exists_cons_hd. reflexivity.
Qed.


(** ** The timeout pair during the handshake of OnStep_Aux *)

Section Steady.
Import OnStep_Aux.

Variables sec usec : Z.

Lemma keeps_ret {A} (a : A) : keeps sec usec (ret a).
Proof. intros s H. exact H. Qed.

Lemma keeps_throw {A} (e : exn) : keeps sec usec (@throw state A e).
Proof. intros s H. exact H. Qed.

Lemma keeps_get : keeps sec usec get.
Proof. intros s H. exact H. Qed.

Lemma keeps_bind {A B} (m : M state A) (k : A -> M state B) :
  keeps sec usec m -> (forall a, keeps sec usec (k a)) -> keeps sec usec (bind m k).
Proof.
  intros Hm Hk s H. specialize (Hm s H). unfold bind.
  destruct (m s) as [a s1|e s1|s1|s1]; cbn [final] in *; try exact Hm.
  apply Hk. exact Hm.
Qed.

Lemma keeps_bind_get {B} (k : state -> M state B) :
  (forall st, keeps sec usec (k st)) -> keeps sec usec (bind get k).
Proof. intros Hk. apply keeps_bind; [apply keeps_get | exact Hk]. Qed.

Lemma steady_observe (ev : tty_event) (p : port) (s : state) :
  steady sec usec s -> read_with sec usec ev ->
  events p = events (tty s) ++ [ev] ->
  steady sec usec (set_tty p s).
Proof.
  intros (H1 & H2 & H3) Hev E. repeat split; cbn; try assumption.
  rewrite E. apply Forall_app. split; [assumption|].
  apply Forall_cons; [assumption | apply Forall_nil].
Qed.

Lemma keeps_flush (q : queue_selector) : keeps sec usec (flush q).
Proof.
  intros s H. unfold flush, on_line. cbn.
  apply steady_observe with (ev := EvFlush q); [assumption | exact I | reflexivity].
Qed.

Lemma keeps_write (cmd : list ascii) : keeps sec usec (write cmd).
Proof.
  intros s H. unfold write, on_line. cbn.
  eapply steady_observe; [exact H | | reflexivity]. exact I.
Qed.

Lemma keeps_read_n (buf : buffer) (n : nat) : keeps sec usec (read_n buf n).
Proof.
  intros s H. unfold read_n. cbn.
  eapply steady_observe; [exact H | | reflexivity].
  destruct H as (H1 & H2 & _). unfold read_with. cbn. left. congruence.
Qed.

Lemma keeps_read_section (buf : buffer) : keeps sec usec (read_section buf).
Proof.
  intros s H. unfold read_section. cbn.
  eapply steady_observe; [exact H | | reflexivity].
  destruct H as (H1 & H2 & _). unfold read_with. cbn. left. congruence.
Qed.

Lemma keeps_flushIO : keeps sec usec flushIO.
Proof.
  intros s (H1 & H2 & H3). rewrite OnStep_flushIO_eq.
  unfold steady.
  cbn [final tty set_tty OSTimeoutSeconds OSTimeoutMicroSeconds].
  repeat split; try assumption.
  rewrite events_flushed. apply Forall_app. split; [assumption|].
  repeat (apply Forall_cons; [first [exact I | right; reflexivity]|]).
  apply Forall_nil.
Qed.

Lemma keeps_modify (f : state -> state) :
  (forall s, OSTimeoutSeconds (f s) = OSTimeoutSeconds s) ->
  (forall s, OSTimeoutMicroSeconds (f s) = OSTimeoutMicroSeconds s) ->
  (forall s, tty (f s) = tty s) ->
  keeps sec usec (modify f).
Proof.
  intros F1 F2 F3 s (H1 & H2 & H3). cbn.
  unfold steady. rewrite F1, F2, F3. auto.
Qed.

Lemma keeps_blockUntilClear : keeps sec usec blockUntilClear.
Proof.
  intros s H. unfold blockUntilClear.
  destruct (wait_loop 1 s) as [s1|] eqn:E; cbn [final]; [|exact H].
  cbn in E. destruct (waitingForResponse s); [discriminate|].
  injection E as <-. exact H.
Qed.

Lemma keeps_clearBlock : keeps sec usec clearBlock.
Proof. apply keeps_modify; reflexivity. Qed.

Lemma keeps_on_caps (f : capabilities -> capabilities) : keeps sec usec (on_caps f).
Proof. apply keeps_modify; reflexivity. Qed.

End Steady.

Ltac keeps_step :=
  match goal with
  | |- OnStep_Aux.keeps _ _ (bind get _) => apply keeps_bind_get; intro
  | |- OnStep_Aux.keeps _ _ (bind _ _) => apply keeps_bind; [|intro]
  | |- OnStep_Aux.keeps _ _ (ret _) => apply keeps_ret
  | |- OnStep_Aux.keeps _ _ (throw _) => apply keeps_throw
  | |- OnStep_Aux.keeps _ _ (OnStep_Aux.flush _) => apply keeps_flush
  | |- OnStep_Aux.keeps _ _ (OnStep_Aux.write _) => apply keeps_write
  | |- OnStep_Aux.keeps _ _ (OnStep_Aux.read_n _ _) => apply keeps_read_n
  | |- OnStep_Aux.keeps _ _ (OnStep_Aux.read_section _) => apply keeps_read_section
  | |- OnStep_Aux.keeps _ _ OnStep_Aux.flushIO => apply keeps_flushIO
  | |- OnStep_Aux.keeps _ _ OnStep_Aux.blockUntilClear => apply keeps_blockUntilClear
  | |- OnStep_Aux.keeps _ _ OnStep_Aux.clearBlock => apply keeps_clearBlock
  | |- OnStep_Aux.keeps _ _ (OnStep_Aux.on_caps _) => apply keeps_on_caps
  | |- OnStep_Aux.keeps _ _ OnStep_Aux.SlowTimerHit => apply keeps_ret
  | |- OnStep_Aux.keeps _ _ (modify _) => apply keeps_modify; reflexivity
  | |- OnStep_Aux.keeps _ _ (if ?c then _ else _) => destruct c
  | |- OnStep_Aux.keeps _ _ (match ?x with _ => _ end) => destruct x
  end.

Section SteadyCalls.
Import OnStep_Aux.

Variables sec usec : Z.

Lemma keeps_long_response (data : buffer) (cmd : list ascii) :
  keeps sec usec (getCommandSingleCharErrorOrLongResponse data cmd).
Proof. unfold getCommandSingleCharErrorOrLongResponse. repeat keeps_step. Qed.

Lemma keeps_int_response (data : buffer) (cmd : list ascii) :
  keeps sec usec (getCommandIntResponse data cmd).
Proof. unfold getCommandIntResponse. repeat keeps_step. Qed.

Lemma keeps_probe_weather (ms : list nat) :
  forall response, keeps sec usec (probe_weather ms response).
Proof.
  induction ms as [|m ms IH]; intros response; cbn [probe_weather].
  - apply keeps_ret.
  - apply keeps_bind; [apply keeps_long_response|]. intros [r resp].
    apply keeps_bind; [apply keeps_on_caps|]. intros _. apply IH.
Qed.

Lemma keeps_GetCapabilites : keeps sec usec GetCapabilites.
Proof.
  unfold GetCapabilites.
  repeat first [ apply keeps_long_response | apply keeps_int_response
               | apply keeps_probe_weather | keeps_step ].
Qed.

Lemma keeps_Handshake : keeps sec usec Handshake.
Proof.
  unfold Handshake.
  repeat first [ apply keeps_long_response | apply keeps_GetCapabilites
               | keeps_step ].
Qed.

End SteadyCalls.

(** C7 (defect of the code).  [OnStep_Aux::Handshake], which issues every
    capability probe through [GetCapabilites], never selects a timeout
    profile: whatever the transport kind, it ends with the pair it was
    entered with, and each of its reads waits with that pair (or with
    the constants of [flushIO]).  The selection sits in
    [updateProperties], which the framework calls after the connect. *)
Theorem OnStep_handshake_keeps_entry_timeouts (s : OnStep_Aux.state) :
  Forall (OnStep_Aux.read_with (OnStep_Aux.OSTimeoutSeconds s)
            (OnStep_Aux.OSTimeoutMicroSeconds s))
         (events (OnStep_Aux.tty s)) ->
  OnStep_Aux.steady (OnStep_Aux.OSTimeoutSeconds s)
    (OnStep_Aux.OSTimeoutMicroSeconds s)
    (final (OnStep_Aux.Handshake s)).
Proof.
  intros H. apply keeps_Handshake. repeat split. exact H.
Qed.

Lemma OnStep_handshake_keeps_entry_timeouts_witness :
  OnStep_Aux.steady 0 100000 (final (OnStep_Aux.Handshake tcp_session)) /\
  returned (OnStep_Aux.Handshake tcp_session) = Some true /\
  length (written (OnStep_Aux.tty (final (OnStep_Aux.Handshake tcp_session)))) = 9.
Proof.
  split.
  - exact (OnStep_handshake_keeps_entry_timeouts tcp_session (Forall_nil _)).
  - split; vm_compute; reflexivity.
Defined.

(** The profile for TCP is chosen by [updateProperties] only, that is
    after the probes of the handshake have been read with the pair of
    the serial line. *)
Lemma updateProperties_selects_profile (s : OnStep_Aux.state) :
  OnStep_Aux.isConnected s = true ->
  exists s',
    OnStep_Aux.updateProperties s = Done true s' /\
    (OnStep_Aux.OSTimeoutSeconds s', OnStep_Aux.OSTimeoutMicroSeconds s')
    = match OnStep_Aux.activeConnection s with
      | CONNECTION_TCP => (2, 0)
      | CONNECTION_SERIAL => (0, 100000)
      end%Z.
Proof.
  intros H. unfold OnStep_Aux.updateProperties, bind, get. rewrite H.
  destruct (OnStep_Aux.activeConnection s); cbn; eexists; split; reflexivity.
Qed.

Lemma tcp_session_profile_after_probes :
  let connected := OnStep_Aux.setConnected true
                     (final (OnStep_Aux.Handshake tcp_session)) in
  In (EvReadSection terminator 0 100000 TTY_OK (of_string "10.25#"))
     (events (OnStep_Aux.tty connected)) /\
  (OnStep_Aux.OSTimeoutSeconds connected,
   OnStep_Aux.OSTimeoutMicroSeconds connected) = (0, 100000)%Z /\
  (OnStep_Aux.OSTimeoutSeconds (final (OnStep_Aux.updateProperties connected)),
   OnStep_Aux.OSTimeoutMicroSeconds (final (OnStep_Aux.updateProperties connected)))
  = (2, 0)%Z.
Proof.
  cbv zeta. split; [|split].
  - vm_compute. repeat (first [left; reflexivity | right]).
  - vm_compute. reflexivity.
  - vm_compute. reflexivity.
Qed.

(** The sibling: [OCS::Handshake] selects the pair before its first
    exchange; over TCP the identification is read with 2 s. *)
Lemma OCS_Handshake_selects_profile_first :
  let s := OCS.constructed 3 CONNECTION_TCP
             (fresh_port [TTY_OK] [silence; delivers "OCS#"]) in
  nth 5 (events (OCS.tty (final (OCS.Handshake s)))) (EvFlush TCIFLUSH)
  = EvReadSection terminator 2 0 TTY_OK (of_string "OCS#").
Proof. vm_compute. reflexivity. Qed.

(** ** The capability discovery of OnStep_Aux *)

Lemma OnStep_GetCapabilites_without_firmware (s : OnStep_Aux.state) :
  OnStep_Aux.waitingForResponse s = false ->
  float_head (c_str (exchanged (zeroed RB_MAX_LEN) (OnStep_Aux.tty s))) = false ->
  exists s',
    OnStep_Aux.GetCapabilites s = Thrown invalid_argument s' /\
    OnStep_Aux.caps s' = OnStep_Aux.caps s /\
    OnStep_Aux.slowTimerStarted s' = OnStep_Aux.slowTimerStarted s /\
    written (OnStep_Aux.tty s')
    = written (OnStep_Aux.tty s) ++ [OnStep_Aux.OS_get_firmware].
Proof.
  intros Hw Hf. unfold OnStep_Aux.GetCapabilites.
  unfold bind at 1. rewrite OnStep_long_response_eq by exact Hw.
  unfold exchanged in Hf.
  destruct (is_ok (next_write (OnStep_Aux.tty s))) eqn:E.
  - unfold bind at 1.
    assert (T : exists s1,
               (if (1 <? section_return (answer (OnStep_Aux.tty s)))%Z
                then modify (OnStep_Aux.set_firmware
                               (c_str (section_framed (zeroed RB_MAX_LEN)
                                         (answer (OnStep_Aux.tty s)))))
                else ret tt)
                 (OnStep_Aux.set_tty
                    (line_answered (OnStep_Aux.OSTimeoutSeconds s)
                       (OnStep_Aux.OSTimeoutMicroSeconds s)
                       OnStep_Aux.OS_get_firmware (OnStep_Aux.tty s)) s)
               = Done tt s1 /\
               OnStep_Aux.caps s1 = OnStep_Aux.caps s /\
               OnStep_Aux.slowTimerStarted s1 = OnStep_Aux.slowTimerStarted s /\
               OnStep_Aux.tty s1
               = line_answered (OnStep_Aux.OSTimeoutSeconds s)
                   (OnStep_Aux.OSTimeoutMicroSeconds s)
                   OnStep_Aux.OS_get_firmware (OnStep_Aux.tty s)).
    { destruct (1 <? _)%Z; eexists; (split; [reflexivity|]); cbn; auto. }
    destruct T as (s1 & -> & C1 & C2 & C3).
    unfold stof. rewrite Hf. unfold throw.
    exists s1. split; [reflexivity|]. split; [exact C1|]. split; [exact C2|].
    rewrite C3. apply written_line_answered.
  - unfold bind at 1.
    assert (L : (1 <? tty_code (next_write (OnStep_Aux.tty s)))%Z = false).
    { apply Z.ltb_ge. pose proof (tty_code_nonpos (next_write (OnStep_Aux.tty s))).
      lia. }
    rewrite L. unfold ret at 1. unfold stof. rewrite Hf. unfold throw.
    eexists. split; [reflexivity|]. cbn.
    split; [reflexivity|]. split; [reflexivity|].
    apply written_line_written.
Qed.

(** C5 (defect of the code).  When the firmware probe fails or brings no
    numeral (write error, timeout, empty or non-numeric text),
    [GetCapabilites] leaves through the [std::invalid_argument] of
    [std::stof(response)]: no further probe is written, and the
    capability members and the slow timer stay as they were. *)
Theorem discovery_aborts_without_firmware (s : OnStep_Aux.state) :
  OnStep_Aux.waitingForResponse s = false ->
  float_head (c_str (exchanged (zeroed RB_MAX_LEN) (OnStep_Aux.tty s))) = false ->
  exists s',
    OnStep_Aux.GetCapabilites s = Thrown invalid_argument s' /\
    OnStep_Aux.caps s' = OnStep_Aux.caps s /\
    OnStep_Aux.slowTimerStarted s' = OnStep_Aux.slowTimerStarted s /\
    written (OnStep_Aux.tty s')
    = written (OnStep_Aux.tty s) ++ [OnStep_Aux.OS_get_firmware].
Proof. exact (OnStep_GetCapabilites_without_firmware s). Qed.

Lemma discovery_aborts_without_firmware_witness :
  let s := OnStep_Aux.set_PortFD 3
             (OnStep_Aux.constructed CONNECTION_SERIAL 3
                (fresh_port [TTY_OK] [silence; silence])) in
  thrown (OnStep_Aux.GetCapabilites s) = Some invalid_argument.
Proof.
  intros s.
  destruct (discovery_aborts_without_firmware s eq_refl eq_refl) as (s' & E & _).
  rewrite E. reflexivity.
Defined.

(** The whole handshake: the device is identified, the firmware probe
    times out, and the exception leaves [Handshake]. *)
Lemma Handshake_throws_on_silent_firmware_probe :
  thrown (OnStep_Aux.Handshake silent_firmware_session) = Some invalid_argument /\
  written (OnStep_Aux.tty (final (OnStep_Aux.Handshake silent_firmware_session)))
  = [OnStep_Aux.OS_handshake; OnStep_Aux.OS_get_firmware].
Proof. split; vm_compute; reflexivity. Qed.

(** A probe whose write fails leaves the busy flag set (C1), so the next
    probe never returns: the discovery does not complete here either. *)
Lemma Handshake_hangs_after_probe_write_error :
  hangs (OnStep_Aux.Handshake failed_probe_write_session) = true /\
  written (OnStep_Aux.tty (final (OnStep_Aux.Handshake failed_probe_write_session)))
  = [OnStep_Aux.OS_handshake; OnStep_Aux.OS_get_firmware;
     OnStep_Aux.OS_get_defined_focusers].
Proof. split; vm_compute; reflexivity. Qed.

(** Read timeouts of the probes behind the firmware probe are taken as
    absent capabilities, and the discovery runs to its end. *)
Lemma Handshake_completes_on_silent_probes :
  returned (OnStep_Aux.Handshake silent_probes_session) = Some true /\
  OnStep_Aux.caps (final (OnStep_Aux.Handshake silent_probes_session))
  = OnStep_Aux.no_capabilities /\
  OnStep_Aux.slowTimerStarted (final (OnStep_Aux.Handshake silent_probes_session))
  = true /\
  length (written (OnStep_Aux.tty
                     (final (OnStep_Aux.Handshake silent_probes_session)))) = 9.
Proof. repeat split; vm_compute; reflexivity. Qed.

(** ** Mutual exclusion on the line *)

Section Exclusion.
Import Interleaving.

Lemma move_same (t : tid) (p : pc) (f : tid -> pc) : move t p f t = p.
Proof. unfold move. now rewrite Nat.eqb_refl. Qed.

Lemma move_other (t u : tid) (p : pc) (f : tid -> pc) :
  u <> t -> move t p f u = f u.
Proof. intros H. unfold move. apply Nat.eqb_neq in H. now rewrite H. Qed.

Lemma open_transaction_app (tr evs : list obs) :
  open_transaction (tr ++ evs) = fold_left track evs (open_transaction tr).
Proof. unfold open_transaction. apply fold_left_app. Qed.

Lemma exclusive_init : exclusive init.
Proof.
  split.
  - intros t H. discriminate H.
  - exists None. split; [reflexivity|].
    intros t. split; intros H; discriminate H.
Qed.

Lemma owner_unique (s : state) (t u : tid) :
  exclusive s -> holds (pcs s t) = true -> holds (pcs s u) = true -> u = t.
Proof.
  intros [I1 _] Ht Hu. apply I1 in Ht. apply I1 in Hu. congruence.
Qed.

(** A step of caller [t] that neither opens nor closes a transaction:
    [t] moves between points other than [Written], and the events of the
    step leave the open transaction [o] as it is. *)
Lemma exclusive_quiet_step (s : state) (t : tid) (p : pc) (o' : option tid)
    (evs : list obs) (o : option tid) :
  (forall u, holds (pcs s u) = true -> owner s = Some u) ->
  open_transaction (trace s) = Some o ->
  (forall u, o = Some u <-> pcs s u = Written) ->
  pcs s t <> Written -> p <> Written ->
  fold_left track evs (Some o) = Some o ->
  (forall u, u <> t -> holds (pcs s u) = true -> o' = Some u) ->
  (holds p = true -> o' = Some t) ->
  exclusive {| pcs := move t p (pcs s); owner := o'; trace := trace s ++ evs |}.
Proof.
  intros I1 Ho Hw Hold Hnew Hq Hothers Hself.
  split; cbn [pcs owner trace].
  - intros u Hu. destruct (Nat.eq_dec u t) as [->|Hne].
    + rewrite move_same in Hu. auto.
    + rewrite move_other in Hu by assumption. auto.
  - exists o. split.
    + rewrite open_transaction_app, Ho. exact Hq.
    + intros u. rewrite Hw. destruct (Nat.eq_dec u t) as [->|Hne].
      * rewrite move_same. split; intros H; congruence.
      * rewrite move_other by assumption. reflexivity.
Qed.

(** The caller that owns the mutex outside [Written] sees no open
    transaction. *)
Lemma no_open_transaction (s : state) (t : tid) (o : option tid) :
  exclusive s ->
  (forall u, o = Some u <-> pcs s u = Written) ->
  holds (pcs s t) = true -> pcs s t <> Written -> o = None.
Proof.
  intros I Hw Ht Hn. destruct o as [u|]; [|reflexivity]. exfalso.
  assert (Wu : pcs s u = Written) by (apply Hw; reflexivity).
  assert (u = t).
  { eapply owner_unique; [exact I | exact Ht | now rewrite Wu]. }
  subst u. contradiction.
Qed.

(** The obligations of [exclusive_quiet_step] that every use settles
    alike. *)
Ltac quiet_step I1 Ho Hw P :=
  apply exclusive_quiet_step with (1 := I1) (2 := Ho) (3 := Hw);
  [ rewrite P; discriminate | discriminate | | | ].

Lemma exclusive_step (t : tid) (b : bool) (s : state) :
  exclusive s -> exclusive (step t b s).
Proof.
  intros I. pose proof I as [I1 (o & Ho & Hw)].
  assert (Others : forall u, u <> t -> holds (pcs s u) = true ->
                             owner s = Some u) by auto.
  assert (Alone : holds (pcs s t) = true ->
                  forall (o' : option tid) u, u <> t ->
                                              holds (pcs s u) = true ->
                                              o' = Some u).
  { intros Ht o' u Hne Hu. exfalso. apply Hne.
    eapply owner_unique; [exact I | exact Ht | exact Hu]. }
  assert (Free : owner s = None ->
                 forall (o' : option tid) u, u <> t ->
                                             holds (pcs s u) = true ->
                                             o' = Some u).
  { intros O o' u _ Hu. apply I1 in Hu. congruence. }
  assert (Owner : owner s = None \/ exists x, owner s = Some x)
    by (destruct (owner s); eauto).
  unfold step. destruct (pcs s t) eqn:P.
  - (* Idle *)
    quiet_step I1 Ho Hw P; [destruct o; reflexivity | exact Others | discriminate].
  - (* FlushEntered *)
    destruct Owner as [O | [x O]]; rewrite O; [|exact I].
    rewrite <- (app_nil_r (trace s)).
    quiet_step I1 Ho Hw P; [destruct o; reflexivity | apply Free; exact O | reflexivity].
  - (* FlushLocked *)
    quiet_step I1 Ho Hw P; [destruct o; reflexivity | exact Others | intros _; apply I1; now rewrite P].
  - (* FlushRead *)
    rewrite <- (app_nil_r (trace s)).
    quiet_step I1 Ho Hw P; [destruct o; reflexivity | apply Alone; reflexivity | discriminate].
  - (* Flushed *)
    destruct Owner as [O | [x O]]; rewrite O; [|exact I].
    rewrite <- (app_nil_r (trace s)).
    quiet_step I1 Ho Hw P; [destruct o; reflexivity | apply Free; exact O | reflexivity].
  - (* Locked *)
    assert (Hnone : o = None).
    { apply (no_open_transaction t I Hw); rewrite P; [reflexivity | discriminate]. }
    subst o. destruct b; [destruct c|].
    + (* the write of a receiving accessor opens a transaction *)
      split; cbn [pcs owner trace].
      * intros u Hu. destruct (Nat.eq_dec u t) as [->|Hne].
        -- apply I1. now rewrite P.
        -- rewrite move_other in Hu by assumption. auto.
      * exists (Some t). split.
        -- rewrite open_transaction_app, Ho. reflexivity.
        -- intros u. destruct (Nat.eq_dec u t) as [->|Hne].
           ++ rewrite move_same. split; reflexivity.
           ++ rewrite move_other by assumption. split.
              ** intros [= ->]. congruence.
              ** intros Wu. exfalso. apply Hne.
                 eapply owner_unique; [exact I | now rewrite P | now rewrite Wu].
    + quiet_step I1 Ho Hw P;
        [reflexivity | exact Others | intros _; apply I1; now rewrite P].
    + quiet_step I1 Ho Hw P;
        [reflexivity | exact Others | intros _; apply I1; now rewrite P].
  - (* Written *)
    assert (Ho' : o = Some t) by (apply Hw; exact P). subst o.
    split; cbn [pcs owner trace].
    + intros u Hu. destruct (Nat.eq_dec u t) as [->|Hne].
      * apply I1. now rewrite P.
      * rewrite move_other in Hu by assumption. auto.
    + exists None. split.
      * rewrite open_transaction_app, Ho. cbn. now rewrite Nat.eqb_refl.
      * intros u. destruct (Nat.eq_dec u t) as [->|Hne].
        -- rewrite move_same. split; discriminate.
        -- rewrite move_other by assumption. split; [discriminate|].
           intros Wu. exfalso. apply Hne.
           eapply owner_unique; [exact I | now rewrite P | now rewrite Wu].
  - (* WriteFailed *)
    rewrite <- (app_nil_r (trace s)).
    quiet_step I1 Ho Hw P; [destruct o; reflexivity | apply Alone; reflexivity | discriminate].
  - (* ReadDone *)
    rewrite <- (app_nil_r (trace s)).
    quiet_step I1 Ho Hw P; [destruct o; reflexivity | apply Alone; reflexivity | discriminate].
  - (* BlindSent *)
    rewrite <- (app_nil_r (trace s)).
    quiet_step I1 Ho Hw P; [destruct o; reflexivity | apply Alone; reflexivity | discriminate].
Qed.

Lemma exclusive_run (sch : schedule) :
  forall s, exclusive s -> exclusive (run sch s).
Proof.
  induction sch as [|[t b] sch IH]; intros s I; cbn.
  - exact I.
  - apply IH. apply exclusive_step. exact I.
Qed.

(** On a line that was violated nothing repairs it. *)
Lemma track_violated (tr : list obs) : fold_left track tr None = None.
Proof. induction tr as [|e tr IH]; cbn; [reflexivity | exact IH]. Qed.

(** While the transaction of [a] is open, either its read comes, or it
    stays open, or the line is violated. *)
Lemma track_while_open (a : tid) (mid : list obs) :
  In (Read a) mid \/
  fold_left track mid (Some (Some a)) = Some (Some a) \/
  fold_left track mid (Some (Some a)) = None.
Proof.
  induction mid as [|e mid IH]; cbn [fold_left].
  - right. left. reflexivity.
  - destruct e as [t|t|t|t|t|t]; cbn [track].
    + destruct IH as [H|H]; [left; now right | right; exact H].
    + destruct IH as [H|H]; [left; now right | right; exact H].
    + right. right. apply track_violated.
    + right. right. apply track_violated.
    + destruct IH as [H|H]; [left; now right | right; exact H].
    + destruct (Nat.eqb t a) eqn:E.
      * apply Nat.eqb_eq in E. subst t. left. now left.
      * right. right. apply track_violated.
Qed.

Lemma serial_line_between_writes (pre mid post : list obs) (a b : tid) (w : obs) :
  write_by b w ->
  open_transaction (pre ++ Write a :: mid ++ w :: post) <> None ->
  In (Read a) mid.
Proof.
  intros Hwb H. unfold open_transaction in H.
  rewrite fold_left_app in H. cbn [fold_left] in H.
  destruct (fold_left track pre (Some None)) as [[u|]|].
  - cbn [track] in H. now rewrite track_violated in H.
  - cbn [track] in H. rewrite fold_left_app in H. cbn [fold_left] in H.
    destruct (track_while_open a mid) as [I|[E|E]]; [exact I| |];
      rewrite E in H; destruct Hwb as [-> | ->]; cbn [track] in H;
      now rewrite track_violated in H.
  - cbn [track] in H. now rewrite track_violated in H.
Qed.

End Exclusion.

(** C3.  Whatever the schedule of the callers, the shapes of their calls
    and the verdicts of the line, between the write of a receiving
    accessor by caller [a] and a later write by any caller the line has
    seen the read of [a]: the order write1, write2, read1, read2 does
    not occur. *)
Theorem transactions_never_interleave
    (sch : Interleaving.schedule) (pre mid post : list Interleaving.obs)
    (a b : Interleaving.tid) (w : Interleaving.obs) :
  Interleaving.write_by b w ->
  Interleaving.trace (Interleaving.run sch Interleaving.init)
  = pre ++ Interleaving.Write a :: mid ++ w :: post ->
  In (Interleaving.Read a) mid.
Proof.
  intros Hw E.
  destruct (exclusive_run sch exclusive_init) as [_ (o & Ho & _)].
  apply (@serial_line_between_writes pre mid post a b w Hw).
  rewrite <- E, Ho. discriminate.
Qed.

Lemma transactions_never_interleave_witness :
  Interleaving.trace (Interleaving.run two_callers Interleaving.init)
  = [Interleaving.Flush 0; Interleaving.Flush 1; Interleaving.Flush 0;
     Interleaving.Discard 0; Interleaving.Flush 1; Interleaving.Discard 1;
     Interleaving.Flush 0]
    ++ Interleaving.Write 0
    :: [Interleaving.Read 0; Interleaving.Flush 0; Interleaving.Flush 1]
    ++ Interleaving.Write 1
    :: [Interleaving.Read 1; Interleaving.Flush 1; Interleaving.Flush 1] /\
  In (Interleaving.Read 0)
     [Interleaving.Read 0; Interleaving.Flush 0; Interleaving.Flush 1].
Proof.
  split.
  - reflexivity.
  - exact (@transactions_never_interleave two_callers
             [Interleaving.Flush 0; Interleaving.Flush 1; Interleaving.Flush 0;
              Interleaving.Discard 0; Interleaving.Flush 1;
              Interleaving.Discard 1; Interleaving.Flush 0]
             [Interleaving.Read 0; Interleaving.Flush 0; Interleaving.Flush 1]
             [Interleaving.Read 1; Interleaving.Flush 1; Interleaving.Flush 1]
             0 1 (Interleaving.Write 1) (or_introl eq_refl) eq_refl).
Defined.

(* ================================================================== *)
(** * Further properties of the two drivers *)

(** ** The line after a transaction *)

Lemma events_line_written (cmd : list ascii) (p : port) :
  events (line_written cmd p)
  = events p
    ++ [EvFlush TCIOFLUSH; EvFlush TCIOFLUSH;
        EvReadSection terminator 0 1000
          (fst (section_result terminator (next_read p)))
          (snd (section_result terminator (next_read p)));
        EvFlush TCIFLUSH; EvWrite cmd (next_write p)].
Proof.
  unfold line_written, tty_write_string, tcflush, observe. cbn [snd events].
  rewrite events_flushed. rewrite <- !app_assoc. reflexivity.
Qed.

(** ** Blind sends *)

Lemma OCS_sendOCSCommandBlind_eq (s : OCS.state) (cmd : list ascii) :
  OCS.sendOCSCommandBlind cmd s
  = Done (is_ok (next_write (OCS.tty s)))
         (OCS.set_tty (line_written cmd (OCS.tty s)) s).
Proof.
  unfold OCS.sendOCSCommandBlind.
  enter_ocs. on_the_line.
  destruct (is_ok (next_write (OCS.tty s))); reflexivity.
Qed.

Lemma OnStep_sendOSCommandBlind_eq (s : OnStep_Aux.state) (cmd : list ascii) :
  OnStep_Aux.sendOSCommandBlind cmd s
  = Done (is_ok (next_write (OnStep_Aux.tty s)))
         (OnStep_Aux.set_waitingForResponse
            (OnStep_Aux.waitingForResponse s
             && is_ok (next_write (OnStep_Aux.tty s)))
            (OnStep_Aux.set_tty (line_written cmd (OnStep_Aux.tty s)) s)).
Proof.
  unfold OnStep_Aux.sendOSCommandBlind.
  unfold bind at 1. rewrite OnStep_flushIO_eq. on_the_line.
  destruct (is_ok (next_write (OnStep_Aux.tty s))); cbn [negb].
  - destruct s; cbn. rewrite andb_true_r. reflexivity.
  - on_the_line. destruct s; cbn. rewrite andb_false_r. reflexivity.
Qed.

(** X1.  [OCS::sendOCSCommandBlind] always returns, with [true] exactly
    when the write succeeded.  On the line it does the pre-flush with
    its discard read, one [tcflush(TCIFLUSH)] and the write, and no read
    of a response: of the arrivals only the one that the discard read
    takes is used up, and nothing else of the driver changes. *)
Theorem OCS_blind_send_writes_and_never_reads (s : OCS.state) (cmd : list ascii) :
  exists s',
    OCS.sendOCSCommandBlind cmd s = Done (is_ok (next_write (OCS.tty s))) s' /\
    events (OCS.tty s')
    = events (OCS.tty s)
      ++ [EvFlush TCIOFLUSH; EvFlush TCIOFLUSH;
          EvReadSection terminator 0 1000
            (fst (section_result terminator (next_read (OCS.tty s))))
            (snd (section_result terminator (next_read (OCS.tty s))));
          EvFlush TCIFLUSH; EvWrite cmd (next_write (OCS.tty s))] /\
    line_in (OCS.tty s') = tl (line_in (OCS.tty s)) /\
    s' = OCS.set_tty (OCS.tty s') s.
Proof.
  eexists. split; [apply OCS_sendOCSCommandBlind_eq|].
  cbn [OCS.tty OCS.set_tty]. split; [apply events_line_written|].
  split; reflexivity.
Qed.

(** X2.  [OnStep_Aux::sendOSCommandBlind] never waits for the busy flag:
    it returns also while a transaction is pending, with [true] exactly
    when the write succeeded.  A failed write clears the busy flag,
    whoever had set it; a write that succeeds leaves the flag as it
    was. *)
Theorem OnStep_blind_send_skips_the_guard (s : OnStep_Aux.state)
    (cmd : list ascii) :
  exists s',
    OnStep_Aux.sendOSCommandBlind cmd s
    = Done (is_ok (next_write (OnStep_Aux.tty s))) s' /\
    OnStep_Aux.waitingForResponse s'
    = (OnStep_Aux.waitingForResponse s && is_ok (next_write (OnStep_Aux.tty s))) /\
    written (OnStep_Aux.tty s') = written (OnStep_Aux.tty s) ++ [cmd] /\
    line_in (OnStep_Aux.tty s') = tl (line_in (OnStep_Aux.tty s)).
Proof.
  eexists. split; [apply OnStep_sendOSCommandBlind_eq|].
  cbn [OnStep_Aux.tty OnStep_Aux.set_tty OnStep_Aux.set_waitingForResponse
       OnStep_Aux.waitingForResponse].
  split; [reflexivity|]. split; [apply written_line_written | reflexivity].
Qed.

(** ** Reads of one byte *)

Lemma length_c_str_poke_1 (buf : buffer) : length (c_str (poke 1 NUL buf)) <= 1.
Proof.
  destruct buf as [|b [|c rest]]; simpl.
  - lia.
  - destruct (Ascii.eqb b NUL); simpl; lia.
  - destruct (Ascii.eqb b NUL); simpl; lia.
Qed.

(** After a read of one byte the framed buffer holds at most one
    character, whatever it held before. *)
Lemma length_payload_1 (buf : buffer) : length (c_str (framed buf 1)) <= 1.
Proof.
  unfold framed, frame.
  destruct (strchr buf terminator); cbn [fst]; apply length_c_str_poke_1.
Qed.


Lemma length_read_result_1 (a : arrival) :
  length (snd (read_result 1 a)) <= 1 /\
  (is_ok (fst (read_result 1 a)) = true -> length (snd (read_result 1 a)) = 1) /\
  (is_ok (fst (read_result 1 a)) = true <-> arr_bytes a <> []).
Proof.
  unfold read_result. destruct (arr_bytes a) as [|b rest]; cbn.
  - split; [lia|].
    assert (H : is_ok (fault_of a) = false)
      by (unfold fault_of; destruct (arr_fault a); reflexivity).
    rewrite H. split; [discriminate|]. split; [discriminate | congruence].
  - split; [lia|]. split; [reflexivity|]. split; [discriminate | reflexivity].
Qed.




Lemma OCS_single_char_response (s : OCS.state) (data : buffer) (cmd : list ascii) :
  exists r d s',
    OCS.getCommandSingleCharResponse data cmd s = Done (r, d) s' /\
    (r <= 1)%Z /\
    (r = 1%Z <-> is_ok (next_write (OCS.tty s)) = true /\
                 arr_bytes (answer (OCS.tty s)) <> []) /\
    (r = 1%Z -> length (c_str d) <= 1).
Proof.
  unfold OCS.getCommandSingleCharResponse.
  enter_ocs. on_the_line.
  destruct (is_ok (next_write (OCS.tty s))) eqn:He; cbn [negb].
  - on_the_line.
    destruct (length_read_result_1 (answer (OCS.tty s))) as [L1 [L2 L3]].
    destruct (is_ok (fst (read_result 1 (answer (OCS.tty s))))) eqn:Hr;
      cbn [negb].
    + specialize (L2 eq_refl). rewrite L2.
      do 3 eexists. split; [reflexivity|]. split; [simpl; lia|].
      split; [|intros _; apply length_payload_1].
      split; [intros _; split; [reflexivity | now apply L3] | reflexivity].
    + do 3 eexists. split; [reflexivity|].
      pose proof (tty_code_nonpos
                    (fst (read_result 1 (answer (OCS.tty s))))) as N.
      split; [lia|]. split; [|lia].
      split; [lia|]. intros [_ P]. apply L3 in P. discriminate.
  - do 3 eexists. split; [reflexivity|].
    pose proof (tty_code_nonpos (next_write (OCS.tty s))) as N.
    split; [lia|]. split; [|lia]. split; [lia|]. intros [P _]. discriminate.
Qed.

Lemma OnStep_single_char_response (s : OnStep_Aux.state) (data : buffer)
    (cmd : list ascii) :
  OnStep_Aux.waitingForResponse s = false ->
  exists r d s',
    OnStep_Aux.getCommandSingleCharResponse data cmd s = Done (r, d) s' /\
    (r <= 1)%Z /\
    (r = 1%Z <-> is_ok (next_write (OnStep_Aux.tty s)) = true /\
                 arr_bytes (answer (OnStep_Aux.tty s)) <> []) /\
    (r = 1%Z -> length (c_str d) <= 1) /\
    OnStep_Aux.waitingForResponse s' = negb (Z.eqb r 1).
Proof.
  intros Hw. unfold OnStep_Aux.getCommandSingleCharResponse.
  enter_guarded Hw. on_the_line.
  destruct (is_ok (next_write (OnStep_Aux.tty s))) eqn:He; cbn [negb].
  - on_the_line.
    destruct (length_read_result_1 (answer (OnStep_Aux.tty s))) as [L1 [L2 L3]].
    destruct (is_ok (fst (read_result 1 (answer (OnStep_Aux.tty s))))) eqn:Hr;
      cbn [negb].
    + specialize (L2 eq_refl). rewrite L2.
      do 3 eexists. split; [reflexivity|]. split; [simpl; lia|].
      split; [|split; [intros _; apply length_payload_1 | reflexivity]].
      split; [intros _; split; [reflexivity | now apply L3] | reflexivity].
    + do 3 eexists. split; [reflexivity|].
      pose proof (tty_code_nonpos
                    (fst (read_result 1 (answer (OnStep_Aux.tty s))))) as N.
      split; [lia|]. split; [|split; [lia|]].
      * split; [lia|]. intros [_ P]. apply L3 in P. discriminate.
      * cbn. destruct (Z.eqb_spec (tty_code (fst (read_result 1 (answer (OnStep_Aux.tty s))))) 1); [lia | reflexivity].
  - do 3 eexists. split; [reflexivity|].
    pose proof (tty_code_nonpos (next_write (OnStep_Aux.tty s))) as N.
    split; [lia|]. split; [|split; [lia|]].
    + split; [lia|]. intros [P _]. discriminate.
    + cbn. destruct (Z.eqb_spec (tty_code (next_write (OnStep_Aux.tty s))) 1); [lia | reflexivity].
Qed.

(** X4.  [getCommandSingleCharResponse] of both drivers returns 1 when
    the write succeeded and a byte arrived, and a code of the line
    otherwise: its return value is never above 1, and with the value 1
    the payload is at most the one character read.  (The callers
    [MoveAbsFocuser] and [MoveRotator] test the value for [> 1].) *)
Theorem single_char_response_at_most_one :
  (forall (s : OCS.state) (data : buffer) (cmd : list ascii),
      exists r d s',
        OCS.getCommandSingleCharResponse data cmd s = Done (r, d) s' /\
        (r <= 1)%Z /\
        (r = 1%Z <-> is_ok (next_write (OCS.tty s)) = true /\
                     arr_bytes (answer (OCS.tty s)) <> []) /\
        (r = 1%Z -> length (c_str d) <= 1)) /\
  (forall (s : OnStep_Aux.state) (data : buffer) (cmd : list ascii),
      OnStep_Aux.waitingForResponse s = false ->
      exists r d s',
        OnStep_Aux.getCommandSingleCharResponse data cmd s = Done (r, d) s' /\
        (r <= 1)%Z /\
        (r = 1%Z <-> is_ok (next_write (OnStep_Aux.tty s)) = true /\
                     arr_bytes (answer (OnStep_Aux.tty s)) <> []) /\
        (r = 1%Z -> length (c_str d) <= 1)).
Proof.
  split.
  - exact OCS_single_char_response.
  - intros s data cmd Hw.
    destruct (OnStep_single_char_response s data cmd Hw)
      as (r & d & s' & E & H1 & H2 & H3 & _).
    exists r, d, s'. auto.
Qed.

Lemma single_char_response_at_most_one_witness :
  let s := OnStep_Aux.set_PortFD 3
             (OnStep_Aux.constructed CONNECTION_SERIAL 3
                (fresh_port [TTY_OK] [silence; delivers "1"])) in
  OnStep_Aux.waitingForResponse s = false /\
  exists r d s',
    OnStep_Aux.getCommandSingleCharResponse (zeroed RB_MAX_LEN)
      (of_string ":FS001234#") s = Done (r, d) s' /\
    (r <= 1)%Z /\
    (r = 1%Z <-> is_ok (next_write (OnStep_Aux.tty s)) = true /\
                 arr_bytes (answer (OnStep_Aux.tty s)) <> []) /\
    (r = 1%Z -> length (c_str d) <= 1).
Proof.
  intros s. split; [reflexivity|].
  exact (proj2 single_char_response_at_most_one s (zeroed RB_MAX_LEN)
           (of_string ":FS001234#") eq_refl).
Defined.

(** ** The accessor with conversion *)

Lemma OnStep_int_from_char (s : OnStep_Aux.state) (data : buffer)
    (cmd : list ascii) :
  OnStep_Aux.waitingForResponse s = false ->
  exists r v d s',
    OnStep_Aux.getCommandIntFromCharResponse data cmd s = Done (r, v, d) s' /\
    OnStep_Aux.waitingForResponse s' = false /\
    v = (if (r <? 1)%Z then None else Some (OnStep_Aux.charToInt (c_str d))) /\
    written (OnStep_Aux.tty s') = written (OnStep_Aux.tty s) ++ [cmd].
Proof.
  intros Hw. unfold OnStep_Aux.getCommandIntFromCharResponse.
  unfold bind at 1. rewrite (OnStep_long_response_eq _ _ _ Hw).
  destruct (is_ok (next_write (OnStep_Aux.tty s))) eqn:He.
  - destruct (section_return (answer (OnStep_Aux.tty s)) <? 1)%Z eqn:Hr.
    + do 4 eexists. split; [reflexivity|]. cbn. rewrite Hr.
      split; [reflexivity|]. split; [reflexivity|].
      apply written_line_answered.
    + do 4 eexists. split; [reflexivity|]. cbn. rewrite Hr.
      split; [exact Hw|]. split; [reflexivity|].
      apply written_line_answered.
  - pose proof (tty_code_nonpos (next_write (OnStep_Aux.tty s))) as N.
    assert (Hr : (tty_code (next_write (OnStep_Aux.tty s)) <? 1)%Z = true)
      by (apply Z.ltb_lt; lia).
    rewrite Hr. do 4 eexists. split; [reflexivity|]. cbn. rewrite Hr.
    split; [reflexivity|]. split; [reflexivity|].
    apply written_line_written.
Qed.

(** X5.  [OnStep_Aux::getCommandIntFromCharResponse], entered with the
    busy flag clear, returns with the flag clear on every path, the
    failed write included (it resets [waitingForResponse] itself); it
    never leaves by an exception, and with a return value of at least 1
    it stores [charToInt] of the payload, which is [conversion_error]
    (-10000) for a payload that is no number. *)
Theorem int_from_char_releases_the_guard (s : OnStep_Aux.state)
    (data : buffer) (cmd : list ascii) :
  OnStep_Aux.waitingForResponse s = false ->
  exists r v d s',
    OnStep_Aux.getCommandIntFromCharResponse data cmd s = Done (r, v, d) s' /\
    OnStep_Aux.waitingForResponse s' = false /\
    v = (if (r <? 1)%Z then None
         else Some (match stoi (c_str d) with
                    | inr x => x
                    | inl _ => (-10000)%Z
                    end)).
Proof.
  intros Hw.
  destruct (OnStep_int_from_char s data cmd Hw)
    as (r & v & d & s' & E & H1 & H2 & _).
  exists r, v, d, s'. auto.
Qed.

Lemma int_from_char_releases_the_guard_witness :
  let s := OnStep_Aux.set_PortFD 3
             (OnStep_Aux.constructed CONNECTION_SERIAL 3
                (fresh_port [TTY_WRITE_ERROR] [])) in
  OnStep_Aux.waitingForResponse s = false /\
  exists r v d s',
    OnStep_Aux.getCommandIntFromCharResponse (zeroed RB_MAX_LEN)
      (of_string ":GXY0#") s = Done (r, v, d) s' /\
    OnStep_Aux.waitingForResponse s' = false /\
    v = (if (r <? 1)%Z then None
         else Some (match stoi (c_str d) with
                    | inr x => x
                    | inl _ => (-10000)%Z
                    end)).
Proof.
  intros s. split; [reflexivity|].
  exact (int_from_char_releases_the_guard s (zeroed RB_MAX_LEN)
           (of_string ":GXY0#") eq_refl).
Defined.

(** ** Responses that arrive whole *)

Lemma section_return_of_response (a : arrival) (bs rest : list ascii) :
  arr_bytes a = bs ++ terminator :: rest ->
  forallb text_char bs = true ->
  section_return a = Z.of_nat (S (length bs)).
Proof.
  intros Ha Ht. unfold section_return, section_result.
  rewrite Ha, upto_text_then_stop by assumption. cbn [fst snd is_ok].
  rewrite length_app. cbn [length]. f_equal. lia.
Qed.

(** X6.  A response that arrives whole, [text#] with a text of fewer
    than [RB_MAX_LEN] characters free of NUL and [#], comes back from
    [getCommandSingleCharErrorOrLongResponse] of either driver as the C
    string [text] in the caller's buffer, whatever the buffer held and
    whatever arrives behind the terminator, and the return value is the
    length of the text plus one (so it is above 1 exactly when the text
    is not empty).  [OnStep_Aux] returns with the busy flag clear. *)
Theorem long_response_round_trip :
  (forall (s : OCS.state) (data : buffer) (cmd text rest : list ascii),
      is_ok (next_write (OCS.tty s)) = true ->
      arr_bytes (answer (OCS.tty s)) = text ++ terminator :: rest ->
      forallb text_char text = true ->
      length text < RB_MAX_LEN ->
      exists d s',
        OCS.getCommandSingleCharErrorOrLongResponse data cmd s
        = Done (Z.of_nat (S (length text)), d) s' /\
        c_str d = text) /\
  (forall (s : OnStep_Aux.state) (data : buffer) (cmd text rest : list ascii),
      OnStep_Aux.waitingForResponse s = false ->
      is_ok (next_write (OnStep_Aux.tty s)) = true ->
      arr_bytes (answer (OnStep_Aux.tty s)) = text ++ terminator :: rest ->
      forallb text_char text = true ->
      length text < RB_MAX_LEN ->
      exists d s',
        OnStep_Aux.getCommandSingleCharErrorOrLongResponse data cmd s
        = Done (Z.of_nat (S (length text)), d) s' /\
        c_str d = text /\
        OnStep_Aux.waitingForResponse s' = false).
Proof.
  split.
  - intros s data cmd text rest He Ha Ht Hl.
    rewrite OCS_long_response_eq, He.
    rewrite (section_return_of_response _ _ _ Ha Ht).
    do 2 eexists. split; [reflexivity|].
    exact (section_payload_of_response data _ _ _ Ha Ht Hl).
  - intros s data cmd text rest Hw He Ha Ht Hl.
    rewrite (OnStep_long_response_eq _ _ _ Hw), He.
    rewrite (section_return_of_response _ _ _ Ha Ht).
    do 2 eexists. split; [reflexivity|].
    split; [exact (section_payload_of_response data _ _ _ Ha Ht Hl) | exact Hw].
Qed.

Lemma long_response_round_trip_witness :
  (exists d s',
      OCS.getCommandSingleCharErrorOrLongResponse
        (of_string "stale text in the buffer") (of_string ":RS#")
        (OCS.constructed 3 CONNECTION_SERIAL
           (fresh_port [TTY_OK] [silence; delivers "i,No Error#more"]))
      = Done (11%Z, d) s' /\
      c_str d = of_string "i,No Error") /\
  (exists d s',
      OnStep_Aux.getCommandSingleCharErrorOrLongResponse
        (zeroed RB_MAX_LEN) (of_string ":GVN#")
        (OnStep_Aux.set_PortFD 3
           (OnStep_Aux.constructed CONNECTION_SERIAL 3
              (fresh_port [TTY_OK] [silence; delivers "10.26g#"])))
      = Done (7%Z, d) s' /\
      c_str d = of_string "10.26g" /\
      OnStep_Aux.waitingForResponse s' = false).
Proof.
  split.
  - apply (proj1 long_response_round_trip _ _ _ (of_string "i,No Error")
             (of_string "more")); [reflexivity | reflexivity | reflexivity |].
    unfold RB_MAX_LEN. simpl. lia.
  - apply (proj2 long_response_round_trip _ _ _ (of_string "10.26g") []);
      [reflexivity | reflexivity | reflexivity | reflexivity |].
    unfold RB_MAX_LEN. simpl. lia.
Defined.

(** ** How calls end *)

Lemma ends_bind {S A B} (m : M S A) (k : A -> M S B) (s : S)
    (Q : B -> S -> Prop) (E : abnormal -> S -> Prop) :
  ends (m s) (fun a s1 => ends (k a s1) Q E) E -> ends (bind m k s) Q E.
Proof. unfold bind. destruct (m s); exact (fun H => H). Qed.

Lemma ends_weaken {S A} (o : outcome S A) (Q Q' : A -> S -> Prop)
    (E E' : abnormal -> S -> Prop) :
  ends o Q E ->
  (forall a s, Q a s -> Q' a s) -> (forall k s, E k s -> E' k s) ->
  ends o Q' E'.
Proof. destruct o; simpl; auto. Qed.

Lemma ends_returned {S A} (o : outcome S A) (a : A) :
  ends o (fun r _ => r = a) never -> returned o = Some a.
Proof. destruct o; simpl; [congruence | | |]; intros []. Qed.

Lemma ends_returned_or_hangs {S A} (o : outcome S A) (a : A) :
  ends o (fun r _ => r = a) only_hangs ->
  returned o = Some a \/ hangs o = true.
Proof.
  destruct o; simpl; unfold only_hangs; intros H;
    [left; congruence | discriminate | now right | discriminate].
Qed.

(** ** The focuser and the rotator of OnStep Aux *)

Section Devices.
Import OnStep_Aux OnStep_Aux_Devices.

Lemma Devices_ends_lift {A} (m : M OnStep_Aux.state A) (d : driver)
    (Q : A -> driver -> Prop) (E : abnormal -> driver -> Prop) :
  ends (m (core d)) (fun a s => Q a (set_core s d))
       (fun k s => E k (set_core s d)) ->
  ends (lift m d) Q E.
Proof. unfold lift. destruct (m (core d)); exact (fun H => H). Qed.

(** A guarded accessor returns when it is entered with the flag clear
    and hangs otherwise. *)
Lemma single_char_response_ends (s : OnStep_Aux.state) (data : buffer)
    (cmd : list ascii) :
  ends (getCommandSingleCharResponse data cmd s)
       (fun x s' => waitingForResponse s = false /\ (fst x <= 1)%Z /\
                    waitingForResponse s' = negb (Z.eqb (fst x) 1))
       (fun k s' => k = Hung /\ waitingForResponse s = true).
Proof.
  destruct (waitingForResponse s) eqn:Hw.
  - destruct (guarded_calls_spin_when_busy s cmd data Hw) as (_ & E & _).
    rewrite E. simpl. auto.
  - destruct (OnStep_single_char_response s data cmd Hw)
      as (r & d & s' & E & H1 & _ & _ & H4).
    rewrite E. simpl. auto.
Qed.

Lemma MoveAbsFocuser_ends (targetTicks : N) (d : driver) :
  ends (MoveAbsFocuser targetTicks d) (fun r _ => r = IPS_ALERT)
       (fun k _ => k = Hung /\ waitingForResponse (core d) = true).
Proof.
  unfold MoveAbsFocuser. apply ends_bind. simpl.
  destruct (_ && _); [|reflexivity].
  apply ends_bind. apply Devices_ends_lift.
  eapply ends_weaken; [apply single_char_response_ends | | auto].
  intros [r data] s (Hw & Hr & _). simpl in Hr.
  assert (L : (1 <? r)%Z = false) by (apply Z.ltb_ge; lia).
  rewrite L. reflexivity.
Qed.

Lemma MoveRotator_ends (dd mm ss : Z) (d : driver) :
  ends (MoveRotator dd mm ss d) (fun r _ => r = IPS_ALERT)
       (fun k _ => k = Hung /\ waitingForResponse (core d) = true).
Proof.
  unfold MoveRotator. apply ends_bind. apply Devices_ends_lift.
  eapply ends_weaken; [apply single_char_response_ends | | auto].
  intros [r data] s (Hw & Hr & _). simpl in Hr.
  assert (L : (1 <? r)%Z = false) by (apply Z.ltb_ge; lia).
  rewrite L. reflexivity.
Qed.

End Devices.

Lemma returned_of_ends {S A} (o : outcome S A) (a : A) (P : Prop) :
  ends o (fun r _ => r = a) (fun k _ => k = Hung /\ P) ->
  (P -> False) -> returned o = Some a.
Proof.
  destruct o; simpl; intros H N;
    [congruence | destruct H; discriminate | destruct H; tauto
     | destruct H; discriminate].
Qed.

(** X7.  [MoveAbsFocuser] and [MoveRotator] report [IPS_BUSY] only for a
    return value above 1 of [getCommandSingleCharResponse], which never
    is above 1: whenever they return they report [IPS_ALERT], also when
    the device has acknowledged the move with ['1'].  Entered with the
    busy flag clear they do return. *)
Theorem absolute_moves_always_report_alert :
  (forall (targetTicks : N) (d : OnStep_Aux_Devices.driver),
      OnStep_Aux.waitingForResponse (OnStep_Aux_Devices.core d) = false ->
      returned (OnStep_Aux_Devices.MoveAbsFocuser targetTicks d)
      = Some IPS_ALERT) /\
  (forall (dd mm ss : Z) (d : OnStep_Aux_Devices.driver),
      OnStep_Aux.waitingForResponse (OnStep_Aux_Devices.core d) = false ->
      returned (OnStep_Aux_Devices.MoveRotator dd mm ss d) = Some IPS_ALERT) /\
  (forall (targetTicks : N) (d : OnStep_Aux_Devices.driver),
      returned (OnStep_Aux_Devices.MoveAbsFocuser targetTicks d)
      <> Some IPS_BUSY) /\
  (forall (dd mm ss : Z) (d : OnStep_Aux_Devices.driver),
      returned (OnStep_Aux_Devices.MoveRotator dd mm ss d) <> Some IPS_BUSY).
Proof.
  repeat split.
  - intros t d Hw.
    eapply returned_of_ends; [apply MoveAbsFocuser_ends | cbn beta; congruence].
  - intros dd mm ss d Hw.
    eapply returned_of_ends; [apply MoveRotator_ends | cbn beta; congruence].
  - intros t d H. pose proof (MoveAbsFocuser_ends t d) as P.
    destruct (OnStep_Aux_Devices.MoveAbsFocuser t d); simpl in *; congruence.
  - intros dd mm ss d H. pose proof (MoveRotator_ends dd mm ss d) as P.
    destruct (OnStep_Aux_Devices.MoveRotator dd mm ss d); simpl in *; congruence.
Qed.

Lemma absolute_moves_always_report_alert_witness :
  let d := OnStep_Aux_Devices.started
             (fresh_port [TTY_OK] [silence; delivers "1"]) in
  OnStep_Aux.waitingForResponse (OnStep_Aux_Devices.core d) = false /\
  returned (OnStep_Aux_Devices.MoveAbsFocuser 1234 d) = Some IPS_ALERT /\
  returned (OnStep_Aux_Devices.MoveRotator 90 0 0 d) = Some IPS_ALERT.
Proof.
  intros d. split; [reflexivity|]. split.
  - exact (proj1 absolute_moves_always_report_alert 1234%N d eq_refl).
  - exact (proj1 (proj2 absolute_moves_always_report_alert) 90%Z 0%Z 0%Z d
             eq_refl).
Defined.

Section DeviceCommands.
Import OnStep_Aux OnStep_Aux_Devices.

Lemma lift_Done {A} (m : M OnStep_Aux.state A) (d : driver) (a : A)
    (s : OnStep_Aux.state) :
  m (core d) = Done a s -> lift m d = Done a (set_core s d).
Proof. intros H. unfold lift. now rewrite H. Qed.

Lemma lift_Spins {A} (m : M OnStep_Aux.state A) (d : driver)
    (s : OnStep_Aux.state) :
  m (core d) = Spins s -> lift m d = Spins (set_core s d).
Proof. intros H. unfold lift. now rewrite H. Qed.

Lemma lift_blind (cmd : list ascii) (d : driver) :
  lift (sendOSCommandBlind cmd) d
  = Done (is_ok (next_write (tty (core d))))
         (set_core
            (set_waitingForResponse
               (waitingForResponse (core d) && is_ok (next_write (tty (core d))))
               (set_tty (line_written cmd (tty (core d))) (core d))) d).
Proof. apply lift_Done. apply OnStep_sendOSCommandBlind_eq. Qed.

(** Every function that starts with a guarded accessor hangs when it is
    entered with the flag set. *)
Lemma MoveRotator_busy (dd mm ss : Z) (d : driver) :
  waitingForResponse (core d) = true -> hangs (MoveRotator dd mm ss d) = true.
Proof.
  intros Hw. unfold MoveRotator, bind.
  destruct (guarded_calls_spin_when_busy (core d)
              (Printf.snprintf CMD_MAX_LEN
                 (OS_set_rotator_angle_part ++ Printf.fmt_prec_d 3 dd
                    ++ of_string ":" ++ Printf.fmt_0d 2 mm
                    ++ of_string ":" ++ Printf.fmt_0d 2 ss
                    ++ OS_command_terminator))
              (zeroed RB_MAX_LEN) Hw) as (_ & E & _).
  rewrite (lift_Spins _ _ E). reflexivity.
Qed.

Lemma SetRotatorBacklash_busy (steps : Z) (d : driver) :
  waitingForResponse (core d) = true ->
  hangs (SetRotatorBacklash steps d) = true.
Proof.
  intros Hw. unfold SetRotatorBacklash, bind.
  destruct (guarded_calls_spin_when_busy (core d)
              (Printf.snprintf CMD_MAX_LEN
                 (of_string ":rb" ++ Printf.fmt_d steps ++ of_string "#"))
              [] Hw) as (E & _).
  rewrite (lift_Spins _ _ E). reflexivity.
Qed.

Lemma OSUpdateFocuser_busy (response : buffer) (d : driver) :
  waitingForResponse (core d) = true ->
  hangs (OSUpdateFocuser response d) = true.
Proof.
  intros Hw. unfold OSUpdateFocuser. unfold bind at 1.
  destruct (guarded_calls_spin_when_busy (core d) OS_get_focuser_position
              (zeroed RB_MAX_LEN) Hw) as (_ & _ & _ & E & _).
  rewrite (lift_Spins _ _ E). reflexivity.
Qed.

Lemma MoveAbsFocuser_unanswered (targetTicks : N) (d : driver) :
  waitingForResponse (core d) = false ->
  QArith_base.Qle_bool (QArith_base.inject_Z (to_int (Z.of_N targetTicks)))
    (FocusAbsPos_max (props d))
  && QArith_base.Qle_bool (FocusAbsPos_min (props d))
       (QArith_base.inject_Z (to_int (Z.of_N targetTicks))) = true ->
  is_ok (next_write (tty (core d))) = true ->
  arr_bytes (answer (tty (core d))) = [] ->
  exists d',
    MoveAbsFocuser targetTicks d = Done IPS_ALERT d' /\
    waitingForResponse (core d') = true /\
    props d' = props d.
Proof.
  intros Hw Hr He Ha. unfold MoveAbsFocuser.
  unfold bind at 1. cbn [get]. rewrite Hr.
  match goal with
  | |- context [getCommandSingleCharResponse ?data ?cmd] =>
      destruct (OnStep_single_char_response (core d) data cmd Hw)
        as (r & data' & s' & E & H1 & H2 & _ & H4)
  end.
  unfold bind at 1. rewrite (lift_Done _ _ E).
  assert (N1 : r <> 1%Z).
  { intros P. apply H2 in P. destruct P as [_ P]. now apply P. }
  assert (L : (1 <? r)%Z = false) by (apply Z.ltb_ge; lia).
  rewrite L. eexists. split; [reflexivity|]. cbn.
  split; [|reflexivity]. rewrite H4.
  destruct (Z.eqb_spec r 1); [contradiction | reflexivity].
Qed.

End DeviceCommands.

(** X8.  A [MoveAbsFocuser] within the range of the position property
    whose command is written and gets no byte of reply within the
    timeout returns [IPS_ALERT] and leaves the busy flag set
    ([getCommandSingleCharResponse] returns on the failed read before
    [clearBlock()]): every later function that starts with a guarded
    accessor, such as [MoveRotator], [SetRotatorBacklash] and
    [OSUpdateFocuser], never returns. *)
Theorem unanswered_focuser_move_blocks_the_driver
    (targetTicks : N) (d : OnStep_Aux_Devices.driver) :
  OnStep_Aux.waitingForResponse (OnStep_Aux_Devices.core d) = false ->
  QArith_base.Qle_bool (QArith_base.inject_Z (to_int (Z.of_N targetTicks)))
    (OnStep_Aux_Devices.FocusAbsPos_max (OnStep_Aux_Devices.props d))
  && QArith_base.Qle_bool
       (OnStep_Aux_Devices.FocusAbsPos_min (OnStep_Aux_Devices.props d))
       (QArith_base.inject_Z (to_int (Z.of_N targetTicks))) = true ->
  is_ok (next_write (OnStep_Aux.tty (OnStep_Aux_Devices.core d))) = true ->
  arr_bytes (answer (OnStep_Aux.tty (OnStep_Aux_Devices.core d))) = [] ->
  exists d',
    OnStep_Aux_Devices.MoveAbsFocuser targetTicks d = Done IPS_ALERT d' /\
    OnStep_Aux.waitingForResponse (OnStep_Aux_Devices.core d') = true /\
    (forall dd mm ss, hangs (OnStep_Aux_Devices.MoveRotator dd mm ss d') = true) /\
    (forall steps, hangs (OnStep_Aux_Devices.SetRotatorBacklash steps d') = true) /\
    (forall response,
        hangs (OnStep_Aux_Devices.OSUpdateFocuser response d') = true).
Proof.
  intros Hw Hr He Ha.
  destruct (MoveAbsFocuser_unanswered targetTicks d Hw Hr He Ha)
    as (d' & E & B & _).
  exists d'. split; [exact E|]. split; [exact B|].
  split; [|split].
  - intros. now apply MoveRotator_busy.
  - intros. now apply SetRotatorBacklash_busy.
  - intros. now apply OSUpdateFocuser_busy.
Qed.

Lemma unanswered_focuser_move_blocks_the_driver_witness :
  let d := OnStep_Aux_Devices.started (fresh_port [TTY_OK; TTY_OK] []) in
  exists d',
    OnStep_Aux_Devices.MoveAbsFocuser 1234 d = Done IPS_ALERT d' /\
    OnStep_Aux.waitingForResponse (OnStep_Aux_Devices.core d') = true /\
    (forall dd mm ss, hangs (OnStep_Aux_Devices.MoveRotator dd mm ss d') = true) /\
    (forall steps, hangs (OnStep_Aux_Devices.SetRotatorBacklash steps d') = true) /\
    (forall response,
        hangs (OnStep_Aux_Devices.OSUpdateFocuser response d') = true).
Proof.
  intros d.
  exact (unanswered_focuser_move_blocks_the_driver 1234%N d
           eq_refl eq_refl eq_refl eq_refl).
Defined.

Section BlindMoves.
Import OnStep_Aux OnStep_Aux_Devices.

Lemma blind_then (cmd : list ascii) (d : driver) {A} (a : A) :
  exists d',
    bind (lift (sendOSCommandBlind cmd)) (fun _ => ret a) d = Done a d' /\
    written (tty (core d')) = written (tty (core d)) ++ [cmd] /\
    props d' = props d.
Proof.
  unfold bind. rewrite lift_blind. eexists. split; [reflexivity|].
  cbn. split; [apply written_line_written | reflexivity].
Qed.

Lemma c_str_stop_focuser :
  c_str (Printf.strncpy (zeroed CMD_MAX_LEN) OS_stop_focuser CMD_MAX_LEN)
  = OS_stop_focuser.
Proof. reflexivity. Qed.

End BlindMoves.

(** X9.  The moves that go out through [sendOSCommandBlind] report
    success whatever the line does: [MoveFocuser], [MoveRelFocuser] and
    [HomeRotator] return [IPS_BUSY] and [AbortRotator] returns [true]
    in every state of the driver, also when the command could not be
    written, and none of them waits for the busy flag.  Each writes its
    one command ([":rC#"], [":rQ#"]).  Only [AbortFocuser] hands the
    verdict of the write on. *)
Theorem blind_moves_report_success_whatever_the_line
    (d : OnStep_Aux_Devices.driver) :
  (forall dir speed duration,
      returned (OnStep_Aux_Devices.MoveFocuser dir speed duration d)
      = Some IPS_BUSY) /\
  (forall dir ticks,
      returned (OnStep_Aux_Devices.MoveRelFocuser dir ticks d)
      = Some IPS_BUSY) /\
  (exists d',
      OnStep_Aux_Devices.HomeRotator d = Done IPS_BUSY d' /\
      written (OnStep_Aux.tty (OnStep_Aux_Devices.core d'))
      = written (OnStep_Aux.tty (OnStep_Aux_Devices.core d))
        ++ [of_string ":rC#"]) /\
  (exists d',
      OnStep_Aux_Devices.AbortRotator d = Done true d' /\
      written (OnStep_Aux.tty (OnStep_Aux_Devices.core d'))
      = written (OnStep_Aux.tty (OnStep_Aux_Devices.core d))
        ++ [of_string ":rQ#"]) /\
  (exists d',
      OnStep_Aux_Devices.AbortFocuser d
      = Done (is_ok (next_write (OnStep_Aux.tty (OnStep_Aux_Devices.core d)))) d' /\
      written (OnStep_Aux.tty (OnStep_Aux_Devices.core d'))
      = written (OnStep_Aux.tty (OnStep_Aux_Devices.core d))
        ++ [of_string ":FQ#"]).
Proof.
  split; [|split; [|split; [|split]]].
  - intros dir speed duration. unfold OnStep_Aux_Devices.MoveFocuser.
    match goal with
    | |- context [OnStep_Aux.sendOSCommandBlind ?cmd] =>
        destruct (blind_then cmd d IPS_BUSY) as (d' & E & _)
    end.
    now rewrite E.
  - intros dir ticks. unfold OnStep_Aux_Devices.MoveRelFocuser.
    match goal with
    | |- context [OnStep_Aux.sendOSCommandBlind ?cmd] =>
        destruct (blind_then cmd d IPS_BUSY) as (d' & E & _)
    end.
    now rewrite E.
  - destruct (blind_then (of_string ":rC#") d IPS_BUSY) as (d' & E & W & _).
    exists d'. split; assumption.
  - destruct (blind_then (of_string ":rQ#") d true) as (d' & E & W & _).
    exists d'. split; assumption.
  - unfold OnStep_Aux_Devices.AbortFocuser. rewrite c_str_stop_focuser.
    rewrite lift_blind. eexists. split; [reflexivity|].
    cbn. apply written_line_written.
Qed.

Section Backlash.
Import OnStep_Aux OnStep_Aux_Devices.

Lemma OnStep_sendOSCommand_returned (s : OnStep_Aux.state) (cmd : list ascii) :
  waitingForResponse s = false ->
  returned (sendOSCommand cmd s)
  = Some (if is_ok (next_write (tty s))
          then match arr_bytes (answer (tty s)) with
               | b :: _ => Ascii.eqb b "0"%char
               | [] => false
               end
          else true).
Proof.
  intros Hw. destruct (is_ok (next_write (tty s))) eqn:He.
  - destruct (arr_bytes (answer (tty s))) as [|b rest] eqn:Hb.
    + unfold sendOSCommand.
      enter_guarded Hw. on_the_line. rewrite He. cbn [negb]. on_the_line.
      unfold read_result. rewrite Hb. reflexivity.
    + apply (OnStep_sendOSCommand_digit _ _ Hw He Hb).
  - unfold sendOSCommand.
    enter_guarded Hw. on_the_line. rewrite He. cbn [negb returned].
    rewrite bool_of_int_tty_code, He. reflexivity.
Qed.

End Backlash.

(** X10.  [SetRotatorBacklash], entered with the busy flag clear,
    returns [true] when the first byte of the reply is ['0'] and
    [false] for any other reply or none, but also [true] when the
    command could not be written at all: it hands on the result of
    [sendOSCommand], which returns the error code of the write as a
    [bool]. *)
Theorem SetRotatorBacklash_result (steps : Z) (d : OnStep_Aux_Devices.driver) :
  OnStep_Aux.waitingForResponse (OnStep_Aux_Devices.core d) = false ->
  returned (OnStep_Aux_Devices.SetRotatorBacklash steps d)
  = Some (if is_ok (next_write (OnStep_Aux.tty (OnStep_Aux_Devices.core d)))
          then match arr_bytes (answer (OnStep_Aux.tty (OnStep_Aux_Devices.core d))) with
               | b :: _ => Ascii.eqb b "0"%char
               | [] => false
               end
          else true).
Proof.
  intros Hw. unfold OnStep_Aux_Devices.SetRotatorBacklash.
  match goal with
  | |- context [OnStep_Aux.sendOSCommand ?cmd] =>
      pose proof (OnStep_sendOSCommand_returned (OnStep_Aux_Devices.core d) cmd Hw) as R;
      unfold bind, OnStep_Aux_Devices.lift;
      destruct (OnStep_Aux.sendOSCommand cmd (OnStep_Aux_Devices.core d))
        as [r s'| | |]; try discriminate
  end.
  simpl in R. injection R as ->. simpl.
  destruct (if is_ok _ then _ else _); reflexivity.
Qed.

Lemma SetRotatorBacklash_result_witness :
  returned (OnStep_Aux_Devices.SetRotatorBacklash 25
              (OnStep_Aux_Devices.started (fresh_port [TTY_WRITE_ERROR] [])))
  = Some true /\
  returned (OnStep_Aux_Devices.SetRotatorBacklash 25
              (OnStep_Aux_Devices.started
                 (fresh_port [TTY_OK] [silence; delivers "1"])))
  = Some false.
Proof.
  split.
  - exact (SetRotatorBacklash_result 25
             (OnStep_Aux_Devices.started (fresh_port [TTY_WRITE_ERROR] []))
             eq_refl).
  - exact (SetRotatorBacklash_result 25
             (OnStep_Aux_Devices.started
                (fresh_port [TTY_OK] [silence; delivers "1"]))
             eq_refl).
Defined.

(** X11.  [MoveAbsFocuser] converts [targetTicks] to [int] before it
    compares it with the bounds: a target of [2^31] or more is a
    negative number there, so when the lower bound is not negative the
    move is refused as out of range.  A refused move returns
    [IPS_ALERT] at once: nothing is written and the busy flag is
    neither waited for nor changed. *)
Theorem MoveAbsFocuser_refuses_wrapped_targets
    (targetTicks : N) (d : OnStep_Aux_Devices.driver) :
  (2147483648 <= Z.of_N targetTicks < 4294967296)%Z ->
  QArith_base.Qle_bool (QArith_base.inject_Z 0)
    (OnStep_Aux_Devices.FocusAbsPos_min (OnStep_Aux_Devices.props d)) = true ->
  OnStep_Aux_Devices.MoveAbsFocuser targetTicks d = Done IPS_ALERT d.
Proof.
  intros Ht Hm. unfold OnStep_Aux_Devices.MoveAbsFocuser.
  unfold bind at 1. cbn [get].
  assert (T : to_int (Z.of_N targetTicks) = (Z.of_N targetTicks - 4294967296)%Z).
  { unfold to_int.
    replace (Z.of_N targetTicks + 2147483648)%Z
      with ((Z.of_N targetTicks - 2147483648) + 1 * 4294967296)%Z by lia.
    rewrite Z.mod_add by lia. rewrite Z.mod_small by lia. lia. }
  rewrite T.
  assert (F : QArith_base.Qle_bool
                (OnStep_Aux_Devices.FocusAbsPos_min (OnStep_Aux_Devices.props d))
                (QArith_base.inject_Z (Z.of_N targetTicks - 4294967296)) = false).
  { destruct (QArith_base.Qle_bool _ (QArith_base.inject_Z _)) eqn:Q; [|reflexivity].
    apply QArith_base.Qle_bool_iff in Q. apply QArith_base.Qle_bool_iff in Hm.
    pose proof (QArith_base.Qle_trans _ _ _ Hm Q) as C.
    unfold QArith_base.Qle, QArith_base.inject_Z in C. simpl in C. lia. }
  rewrite F, andb_false_r. reflexivity.
Qed.

Lemma MoveAbsFocuser_refuses_wrapped_targets_witness :
  OnStep_Aux_Devices.MoveAbsFocuser 4294967295
    (OnStep_Aux_Devices.started (fresh_port [TTY_OK] [silence; delivers "1"]))
  = Done IPS_ALERT
      (OnStep_Aux_Devices.started (fresh_port [TTY_OK] [silence; delivers "1"])).
Proof.
  apply MoveAbsFocuser_refuses_wrapped_targets; [|reflexivity].
  split; [discriminate | reflexivity].
Defined.

Section FocuserUpdate.
Import OnStep_Aux OnStep_Aux_Devices.











Lemma kept_value (p0 p : properties) (v : IPState) :
  position_kept p0 p -> position_kept p0 (set_Focus_state v p).
Proof. exact (fun H => H). Qed.




End FocuserUpdate.


(** The device reports the position 12345 and the upper limit 50000:
    the position stays 0 and the upper limit becomes 5. *)
Lemma OSUpdateFocuser_on_focuser_session :
  let d' := final (OnStep_Aux_Devices.OSUpdateFocuser (zeroed RB_MAX_LEN)
                     focuser_session) in
  returned (OnStep_Aux_Devices.OSUpdateFocuser (zeroed RB_MAX_LEN)
              focuser_session) = Some 0%Z /\
  OnStep_Aux_Devices.FocusAbsPos_value (OnStep_Aux_Devices.props d')
  = QArith_base.inject_Z 0 /\
  OnStep_Aux_Devices.FocusAbsPos_max (OnStep_Aux_Devices.props d')
  = QArith_base.inject_Z 5 /\
  written (OnStep_Aux.tty (OnStep_Aux_Devices.core d'))
  = map of_string [":FG#"; ":FT#"; ":FM#"; ":FI#"; ":Ft#"; ":Fe#"; ":FC#";
                   ":FD#"; ":Fc#"]%string.
Proof. vm_compute. repeat split. Qed.

Section ArbitraryCommand.
Import OnStep_Aux OnStep_Aux_Devices.













End ArbitraryCommand.



(** ** The poll of OCS *)

Section Poll.
Import OCS OCS_Dome.

Lemma Dome_ends_lift {A} (m : M OCS.state A) (d : driver)
    (Q : A -> driver -> Prop) (E : abnormal -> driver -> Prop) :
  ends (m (core d)) (fun a s => Q a (set_core s d))
       (fun k s => E k (set_core s d)) ->
  ends (lift m d) Q E.
Proof. unfold lift. destruct (m (core d)); exact (fun H => H). Qed.

Lemma advanced_line_answered (sec usec : Z) (cmd : list ascii) (p : port) :
  is_ok (next_write p) = true -> advanced p (line_answered sec usec cmd p).
Proof. intros H. unfold advanced. rewrite H. split; reflexivity. Qed.

Lemma advanced_line_written (cmd : list ascii) (p : port) :
  is_ok (next_write p) = false -> advanced p (line_written cmd p).
Proof. intros H. unfold advanced. rewrite H. split; reflexivity. Qed.

Lemma advanced_tcflush (q : queue_selector) (p p' : port) :
  advanced p p' -> advanced p (tcflush q p').
Proof. exact (fun H => H). Qed.

(** The accessor for long responses: always returns; the value and the
    buffer are those of the arrival it meets. *)
Lemma OCS_long_response_spec (s : OCS.state) (data : buffer) (cmd : list ascii) :
  exists s',
    getCommandSingleCharErrorOrLongResponse data cmd s
    = Done (if is_ok (next_write (tty s)) then section_return (answer (tty s))
            else tty_code (next_write (tty s)),
            exchanged data (tty s)) s' /\
    written (tty s') = written (tty s) ++ [cmd] /\
    advanced (tty s) (tty s') /\
    s' = set_tty (tty s') s.
Proof.
  rewrite OCS_long_response_eq. unfold exchanged.
  destruct (is_ok (next_write (tty s))) eqn:He.
  - eexists. split; [reflexivity|]. cbn [tty set_tty].
    split; [apply written_line_answered|].
    split; [now apply advanced_line_answered | reflexivity].
  - eexists. split; [reflexivity|]. cbn [tty set_tty].
    split; [apply written_line_written|].
    split; [now apply advanced_line_written | reflexivity].
Qed.

Lemma written_tcflush (q : queue_selector) (p : port) :
  written (tcflush q p) = written p.
Proof. unfold tcflush. rewrite written_observe. apply app_nil_r. Qed.

(** The accessor for integers: always returns, and stores a value
    whenever its return value is positive. *)
Lemma OCS_int_response_spec (s : OCS.state) (data : buffer) (cmd : list ascii) :
  exists r v data' s',
    getCommandIntResponse data cmd s = Done (r, v, data') s' /\
    ((0 <? r)%Z = true -> v <> None) /\
    written (tty s') = written (tty s) ++ [cmd] /\
    advanced (tty s) (tty s') /\
    s' = set_tty (tty s') s.
Proof.
  unfold getCommandIntResponse.
  enter_ocs. on_the_line.
  destruct (is_ok (next_write (tty s))) eqn:He; cbn [negb].
  - on_the_line.
    destruct (is_ok (fst (section_result terminator (answer (tty s))))) eqn:Hr;
      cbn [negb].
    + destruct (sscanf_i _) as [x|] eqn:Hx.
      * do 4 eexists. split; [reflexivity|]. split; [discriminate|].
        cbn [tty set_tty].
        split; [apply (written_line_answered _ _ cmd (tty s))|].
        split; [now apply (advanced_line_answered _ _ cmd) | reflexivity].
      * on_the_line.
        do 4 eexists. split; [reflexivity|]. split; [discriminate|].
        cbn [tty set_tty].
        split; [|split; [|reflexivity]].
        -- change (written (tcflush TCIOFLUSH
                              (line_answered (OCSTimeoutSeconds s)
                                 (OCSTimeoutMicroSeconds s) cmd (tty s)))
                   = written (tty s) ++ [cmd]).
           rewrite written_tcflush. apply written_line_answered.
        -- change (advanced (tty s)
                     (tcflush TCIOFLUSH
                        (line_answered (OCSTimeoutSeconds s)
                           (OCSTimeoutMicroSeconds s) cmd (tty s)))).
           apply advanced_tcflush. now apply advanced_line_answered.
    + on_the_line.
      do 4 eexists. split; [reflexivity|].
      pose proof (tty_code_nonpos
                    (fst (section_result terminator (answer (tty s))))) as N.
      split; [intros P; apply Z.ltb_lt in P; lia|].
      cbn [tty set_tty].
      split; [|split; [|reflexivity]].
      * change (written (tcflush TCIOFLUSH
                           (line_answered (OCSTimeoutSeconds s)
                              (OCSTimeoutMicroSeconds s) cmd (tty s)))
                = written (tty s) ++ [cmd]).
        rewrite written_tcflush. apply written_line_answered.
      * change (advanced (tty s)
                  (tcflush TCIOFLUSH
                     (line_answered (OCSTimeoutSeconds s)
                        (OCSTimeoutMicroSeconds s) cmd (tty s)))).
        apply advanced_tcflush. now apply advanced_line_answered.
  - do 4 eexists. split; [reflexivity|].
    pose proof (tty_code_nonpos (next_write (tty s))) as N.
    split; [intros P; apply Z.ltb_lt in P; lia|].
    cbn [tty set_tty].
    split; [apply (written_line_written cmd (tty s))|].
    split; [now apply advanced_line_written | reflexivity].
Qed.

End Poll.

Section PollParts.
Import OCS OCS_Dome.

Lemma polled_core (cmd : list ascii) (d : driver) (s' : OCS.state) :
  written (tty s') = written (tty (core d)) ++ [cmd] ->
  polled [cmd] d (set_core s' d).
Proof.
  intros W. split; [exact W|]. repeat split. exists []. now rewrite app_nil_r.
Qed.

Lemma polled_refl (d : driver) : polled [] d d.
Proof.
  split; [now rewrite app_nil_r|]. repeat split. exists [].
  now rewrite app_nil_r.
Qed.

Lemma polled_trans (c1 c2 : list (list ascii)) (d1 d2 d3 : driver) :
  polled c1 d1 d2 -> polled c2 d2 d3 -> polled (c1 ++ c2) d1 d3.
Proof.
  intros (W1 & T1 & C1 & P1 & l1 & L1) (W2 & T2 & C2 & P2 & l2 & L2).
  split; [rewrite W2, W1; now rewrite app_assoc|].
  split; [congruence|]. split; [congruence|]. split; [congruence|].
  exists (l1 ++ l2). rewrite L2, L1. now rewrite app_assoc.
Qed.

Lemma polled_shutter (st : ShutterState) (d : driver) :
  polled [] d (set_shutterState st d).
Proof. apply (polled_refl d). Qed.

Lemma polled_log (l : log_line) (d : driver) : polled [] d (add_log l d).
Proof.
  split; [cbn; now rewrite app_nil_r|]. repeat split. exists [l]. reflexivity.
Qed.

Ltac roof_done P A X :=
  split; [exact P | split; [exact A | split; [reflexivity | split; [reflexivity|]]]];
  now apply X.

(** The roof status part: it returns or runs into the null pointer of
    [strtok]. *)
Lemma poll_roof_status_ends (d : driver) :
  ends (poll_roof_status d)
       (fun text d' =>
          polled [OCS_get_roof_status] d d' /\
          advanced (tty (core d)) (tty (core d')) /\
          last_shutter_error d' = last_shutter_error d /\
          log d' = log d /\
          (is_ok (next_write (tty (core d))) = true ->
           (1 <? section_return (answer (tty (core d))))%Z = true ->
           text = strtok_head
                    (section_payload (zeroed RB_MAX_LEN) (answer (tty (core d))))
                    ","%char))
       only_undefined.
Proof.
  unfold poll_roof_status. apply ends_bind. apply Dome_ends_lift.
  destruct (OCS_long_response_spec (core d) (zeroed RB_MAX_LEN)
              OCS_get_roof_status) as (s' & E & W & A & _).
  rewrite E. cbn [ends].
  assert (P : polled [OCS_get_roof_status] d (set_core s' d))
    by now apply polled_core.
  destruct (1 <? _)%Z eqn:R.
  - unfold roof_status.
    destruct (strtok_all _ _) as [|split more] eqn:T; [reflexivity|].
    assert (X : forall text,
               text = strtok_head (c_str (exchanged (zeroed RB_MAX_LEN) (tty (core d)))) ","%char ->
               is_ok (next_write (tty (core d))) = true ->
               (1 <? section_return (answer (tty (core d))))%Z = true ->
               text = strtok_head
                        (section_payload (zeroed RB_MAX_LEN) (answer (tty (core d))))
                        ","%char).
    { intros text -> He _. unfold exchanged. rewrite He. reflexivity. }
    destruct (CStr.eqb split (of_string "o")).
    { roof_done P A X. }
    destruct (CStr.eqb split (of_string "c")).
    { roof_done P A X. }
    destruct (CStr.eqb split (of_string "i")).
    + destruct more as [|split' more']; [reflexivity|].
      destruct (CStr.eqb split' (of_string "OPEN")).
      { roof_done P A X. }
      destruct (CStr.eqb split' (of_string "CLOSED")).
      { roof_done P A X. }
      roof_done P A X.
    + roof_done P A X.
  - split; [exact P | split; [exact A | split; [reflexivity | split; [reflexivity|]]]].
    intros He R'. rewrite He in R. congruence.
Qed.

End PollParts.

Section PollParts2.
Import OCS OCS_Dome.

Lemma grown_refl {A} (l : list A) : exists x, l = l ++ x.
Proof. exists []. now rewrite app_nil_r. Qed.

Lemma grown_snoc {A} (l l' : list A) (a : A) :
  (exists x, l' = l ++ x) -> exists x, l' ++ [a] = l ++ x.
Proof. intros [x ->]. exists (x ++ [a]). now rewrite app_assoc. Qed.

Ltac polled_by W :=
  split; [exact W|]; split; [reflexivity|]; split; [reflexivity|];
  split; [reflexivity|];
  cbn [log add_log set_core set_shutterState set_last_shutter_error
       set_Thermostat_temperature set_Thermostat_humidity
       set_Thermostat_heat_setpoint set_Thermostat_cool_setpoint];
  repeat apply grown_snoc; apply grown_refl.

(** The roof error part always returns. *)
Lemma poll_roof_error_returns (text : list ascii) (d : driver) :
  exists d',
    poll_roof_error text d = Done tt d' /\
    polled [OCS_get_roof_last_error] d d' /\
    advanced (tty (core d)) (tty (core d')) /\
    let r := if is_ok (next_write (tty (core d)))
             then section_return (answer (tty (core d)))
             else tty_code (next_write (tty (core d))) in
    let err := c_str (exchanged (zeroed RB_MAX_LEN) (tty (core d))) in
    shutterState d' = (if (1 <? r)%Z then SHUTTER_ERROR else shutterState d) /\
    ((1 <? r)%Z = true ->
     match roof_error_chain roof_errors err (c_str (last_shutter_error d)) with
     | Some message =>
         last_shutter_error d'
         = Printf.strncpy (last_shutter_error d) text RB_MAX_LEN /\
         exists l, log d' = log d ++ l ++ [LOG_WARN message []]
     | None => last_shutter_error d' = last_shutter_error d
     end) /\
    (r = 1%Z ->
     last_shutter_error d' = last_shutter_error d /\
     log d' = log d
              ++ [LOG_WARN "Communication error on get Roof/Shutter last error %s, this update aborted, will try again..."
                    [ArgStr OCS_get_roof_last_error]]).
Proof.
  unfold poll_roof_error. unfold bind at 1. unfold lift.
  destruct (OCS_long_response_spec (core d) (zeroed RB_MAX_LEN)
              OCS_get_roof_last_error) as (s' & E & W & A & _).
  rewrite E.
  set (r := if is_ok (next_write (tty (core d)))
            then section_return (answer (tty (core d)))
            else tty_code (next_write (tty (core d)))).
  set (err := c_str (exchanged (zeroed RB_MAX_LEN) (tty (core d)))).
  cbv zeta.
  destruct (1 <? r)%Z eqn:R1.
  - assert (N1 : r <> 1%Z) by (apply Z.ltb_lt in R1; lia).
    unfold bind at 1. cbn [get].
    cbn [shutterState set_core last_shutter_error].
    destruct (is_SHUTTER_ERROR (shutterState d)) eqn:S; cbn [negb].
    + assert (S' : shutterState d = SHUTTER_ERROR)
        by (destruct (shutterState d); (reflexivity || discriminate)).
      destruct (roof_error_chain roof_errors err (c_str (last_shutter_error d)))
        as [message|] eqn:C.
      * eexists. split; [reflexivity|]. split; [polled_by W|].
        split; [exact A|]. split; [exact S'|].
        split; [|intros; contradiction].
        intros _. split; [reflexivity|]. exists []. reflexivity.
      * eexists. split; [reflexivity|]. split; [polled_by W|].
        split; [exact A|]. split; [exact S'|].
        split; [|intros; contradiction].
        intros _. reflexivity.
    + destruct (roof_error_chain roof_errors err (c_str (last_shutter_error d)))
        as [message|] eqn:C.
      * eexists. split; [reflexivity|]. split; [polled_by W|].
        split; [exact A|]. split; [reflexivity|].
        split; [|intros; contradiction].
        intros _. split; [reflexivity|].
        exists [LOG_WARN "roof_error_error_or_fail = %d" [ArgInt r];
                LOG_WARN "roof_error_response = %s" [ArgStr err]].
        cbn [log add_log set_core set_shutterState set_last_shutter_error].
        rewrite <- !app_assoc. reflexivity.
      * eexists. split; [reflexivity|]. split; [polled_by W|].
        split; [exact A|]. split; [reflexivity|].
        split; [|intros; contradiction].
        intros _. reflexivity.
  - destruct (r =? 1)%Z eqn:R2.
    + eexists. split; [reflexivity|]. split; [polled_by W|].
      split; [exact A|]. split; [reflexivity|].
      split; [discriminate|]. intros _. split; reflexivity.
    + eexists. split; [reflexivity|]. split; [polled_by W|].
      split; [exact A|]. split; [reflexivity|].
      split; [discriminate|]. intros P. apply Z.eqb_neq in R2. contradiction.
Qed.

(** The thermostat part: it returns or runs into the null pointer of
    [strtok]; it leaves the roof alone. *)
Lemma poll_thermostat_status_ends (d : driver) :
  ends (poll_thermostat_status d)
       (fun _ d' => polled [OCS_get_thermostat_status] d d' /\ roof_kept d d')
       only_undefined.
Proof.
  unfold poll_thermostat_status. apply ends_bind. apply Dome_ends_lift.
  destruct (OCS_long_response_spec (core d) (zeroed RB_MAX_LEN)
              OCS_get_thermostat_status) as (s' & E & W & A & _).
  rewrite E. cbn [ends].
  destruct (1 <? _)%Z.
  - unfold thermostat_status.
    destruct (strtok_all _ _) as [|split [|split' more]]; try reflexivity.
    split; [polled_by W | split; reflexivity].
  - split; [polled_by W | split; reflexivity].
Qed.

Lemma roof_kept_refl (d : driver) : roof_kept d d.
Proof. split; reflexivity. Qed.

Lemma roof_kept_trans (d1 d2 d3 : driver) :
  roof_kept d1 d2 -> roof_kept d2 d3 -> roof_kept d1 d3.
Proof. intros [A B] [C D]. split; congruence. Qed.

(** The warning of the accessor changes the log only. *)
Lemma invalid_response_then {A} (r : Z) (m : M driver A) (d : driver) :
  exists d1,
    (invalid_response r ;;; m)%call d = m d1 /\
    polled [] d d1 /\ roof_kept d d1 /\ core d1 = core d.
Proof.
  unfold invalid_response, bind.
  destruct (r =? RES_ERR_FORMAT)%Z.
  - exists (add_log (LOG_WARN "Invalid response, check connection" []) d).
    split; [reflexivity|]. split; [apply polled_log|].
    split; [split; reflexivity | reflexivity].
  - exists d. split; [reflexivity|]. split; [apply polled_refl|].
    split; [apply roof_kept_refl | reflexivity].
Qed.

Lemma polled_step (c1 : list (list ascii)) (d1 d2 d3 : driver) :
  polled c1 d1 d2 -> polled [] d2 d3 -> polled c1 d1 d3.
Proof.
  intros P Q. pose proof (polled_trans P Q) as H.
  now rewrite app_nil_r in H.
Qed.

(** The query for the cool setpoint always returns. *)
Lemma cool_setpoint_returns (value : buffer) (d0 d1 : driver) :
  polled [OCS_get_thermostat_heat_setpoint] d0 d1 -> roof_kept d0 d1 ->
  exists d',
    ('(cool_setpoint_error_or_fail, thermostat_vent_setpoint, _) <-
       lift (getCommandIntResponse value OCS_get_thermostat_cool_setpoint) ;;
     invalid_response cool_setpoint_error_or_fail ;;;
     if (1 <? cool_setpoint_error_or_fail)%Z
     then match thermostat_vent_setpoint with
          | Some v =>
              modify (set_Thermostat_cool_setpoint (QArith_base.inject_Z v))
          | None => undefined
          end
     else
       warn "Communication error on get Thermostat Cool Setpoint %s, this update aborted, will try again..."
            [ArgStr OCS_get_thermostat_cool_setpoint])%call d1
    = Done tt d' /\
    polled [OCS_get_thermostat_heat_setpoint; OCS_get_thermostat_cool_setpoint]
           d0 d' /\
    roof_kept d0 d'.
Proof.
  intros P1 K1. unfold bind at 1. unfold lift.
  destruct (OCS_int_response_spec (core d1) value
              OCS_get_thermostat_cool_setpoint)
    as (r2 & v2 & value2 & s2 & E2 & V2 & W2 & _).
  rewrite E2. cbv beta iota.
  destruct (invalid_response_then r2
              (if (1 <? r2)%Z
               then match v2 with
                    | Some v =>
                        modify (set_Thermostat_cool_setpoint
                                  (QArith_base.inject_Z v))
                    | None => undefined
                    end
               else
                 warn "Communication error on get Thermostat Cool Setpoint %s, this update aborted, will try again..."
                      [ArgStr OCS_get_thermostat_cool_setpoint])
              (set_core s2 d1)) as (d2 & E & P2 & K2 & _).
  rewrite E.
  assert (P : polled [OCS_get_thermostat_heat_setpoint;
                      OCS_get_thermostat_cool_setpoint] d0 d2).
  { apply (polled_trans P1 (c2 := [OCS_get_thermostat_cool_setpoint])).
    apply (polled_step (d2 := set_core s2 d1)); [|exact P2].
    now apply polled_core. }
  assert (K : roof_kept d0 d2).
  { apply (roof_kept_trans K1).
    apply (roof_kept_trans (d2 := set_core s2 d1)); [split; reflexivity | exact K2]. }
  destruct (1 <? r2)%Z eqn:R2.
  - destruct v2 as [x|].
    + eexists. split; [reflexivity|]. split.
      * apply (polled_step P). exact (polled_refl d2).
      * apply (roof_kept_trans K). split; reflexivity.
    + exfalso. apply V2; [|reflexivity]. apply Z.ltb_lt in R2.
      apply Z.ltb_lt. lia.
  - eexists. split; [reflexivity|]. split.
    + apply (polled_step P). apply polled_log.
    + apply (roof_kept_trans K). split; reflexivity.
Qed.

(** The setpoints part always returns, and leaves the roof alone. *)
Lemma poll_thermostat_setpoints_returns (d : driver) :
  exists d',
    poll_thermostat_setpoints d = Done tt d' /\
    polled [OCS_get_thermostat_heat_setpoint; OCS_get_thermostat_cool_setpoint]
           d d' /\
    roof_kept d d'.
Proof.
  unfold poll_thermostat_setpoints. unfold bind at 1. unfold lift at 1.
  destruct (OCS_int_response_spec (core d) (zeroed RB_MAX_LEN)
              OCS_get_thermostat_heat_setpoint)
    as (r & v & value & s1 & E1 & V1 & W1 & _).
  rewrite E1. cbv beta iota.
  match goal with
  | |- exists d', (invalid_response r ;;; ?m)%call _ = _ /\ _ =>
      destruct (invalid_response_then r m (set_core s1 d))
        as (d1 & E & P1 & K1 & _)
  end.
  rewrite E.
  assert (P : polled [OCS_get_thermostat_heat_setpoint] d d1).
  { apply (polled_step (d2 := set_core s1 d)); [|exact P1].
    now apply polled_core. }
  assert (K : roof_kept d d1).
  { apply (roof_kept_trans (d2 := set_core s1 d));
      [split; reflexivity | exact K1]. }
  unfold bind at 1.
  destruct (1 <? r)%Z eqn:R.
  - destruct v as [x|].
    + apply cool_setpoint_returns.
      * apply (polled_step P). exact (polled_refl d1).
      * apply (roof_kept_trans K). split; reflexivity.
    + exfalso. apply V1; [|reflexivity]. apply Z.ltb_lt in R.
      apply Z.ltb_lt. lia.
  - apply cool_setpoint_returns.
    + apply (polled_step P). apply polled_log.
    + apply (roof_kept_trans K). split; reflexivity.
Qed.

End PollParts2.

Section PollWhole.
Import OCS OCS_Dome.

(** [TimerHit] from its parts. *)
Lemma TimerHit_by_parts (d : driver) (Q : driver -> Prop) :
  (forall text d1 d2 d3 d4,
      poll_roof_status d = Done text d1 ->
      polled [OCS_get_roof_status] d d1 ->
      advanced (tty (core d)) (tty (core d1)) ->
      last_shutter_error d1 = last_shutter_error d ->
      log d1 = log d ->
      (is_ok (next_write (tty (core d))) = true ->
       (1 <? section_return (answer (tty (core d))))%Z = true ->
       text = strtok_head
                (section_payload (zeroed RB_MAX_LEN) (answer (tty (core d))))
                ","%char) ->
      poll_roof_error text d1 = Done tt d2 ->
      polled [OCS_get_thermostat_status] d2 d3 -> roof_kept d2 d3 ->
      polled [OCS_get_thermostat_heat_setpoint;
              OCS_get_thermostat_cool_setpoint] d3 d4 -> roof_kept d3 d4 ->
      Q (if negb (isConnected d4) then d4
         else add_timer (pollingPeriod d4) d4)) ->
  ends (TimerHit d) (fun _ d' => Q d') only_undefined.
Proof.
  intros H. unfold TimerHit.
  apply ends_bind.
  pose proof (poll_roof_status_ends d) as R.
  destruct (poll_roof_status d) as [text d1| | |] eqn:E1; cbn [ends] in *;
    try exact R.
  destruct R as (P1 & A1 & L1 & G1 & T1).
  apply ends_bind.
  destruct (poll_roof_error_returns text d1) as (d2 & E2 & _).
  rewrite E2. cbn [ends].
  apply ends_bind.
  eapply ends_weaken;
    [apply poll_thermostat_status_ends | | intros k s X; exact X].
  intros [] d3 (P3 & K3).
  apply ends_bind.
  destruct (poll_thermostat_setpoints_returns d3) as (d4 & E4 & P4 & K4).
  rewrite E4. cbn [ends].
  apply ends_bind. cbn [get ends].
  specialize (H text d1 d2 d3 d4 eq_refl P1 A1 L1 G1 T1 E2 P3 K3 P4 K4).
  destruct (negb (isConnected d4)); exact H.
Qed.

Lemma ends_or_undefined {S A} (o : outcome S A) (Q : S -> Prop) :
  ends o (fun _ s => Q s) only_undefined ->
  (exists a s, o = Done a s /\ Q s) \/ (exists s, o = Undefined s).
Proof.
  destruct o; simpl; unfold only_undefined; intros H.
  - left. eauto.
  - discriminate.
  - discriminate.
  - right. eauto.
Qed.

End PollWhole.

(** ** The poll of OCS, query by query *)

Section PollRun.
Import OCS OCS_Dome.

Lemma CStr_eqb_true (a b : list ascii) : CStr.eqb a b = true -> a = b.
Proof. unfold CStr.eqb. destruct (list_eq_dec ascii_dec a b); congruence. Qed.

Lemma next_write_same (p q : port) :
  line_out p = line_out q -> next_write p = next_write q.
Proof. intros H. unfold next_write. now rewrite H. Qed.

Lemma answer_same (p q : port) : line_in p = line_in q -> answer p = answer q.
Proof. intros H. unfold answer, next_read, advance. cbn. now rewrite H. Qed.

Lemma reply_same (p q : port) :
  line_out p = line_out q -> line_in p = line_in q ->
  reply_return p = reply_return q /\ reply_text p = reply_text q.
Proof.
  intros Ho Hi. unfold reply_return, reply_text, exchanged.
  now rewrite (next_write_same _ _ Ho), (answer_same _ _ Hi).
Qed.

Lemma queried_same (p q : port) :
  line_out p = line_out q -> line_in p = line_in q ->
  line_out (queried p) = line_out (queried q) /\
  line_in (queried p) = line_in (queried q).
Proof.
  intros Ho Hi. unfold queried. cbn [line_out line_in].
  now rewrite (next_write_same _ _ Ho), Ho, Hi.
Qed.

Lemma thermostat_lacks_same (p q : port) :
  line_out p = line_out q -> line_in p = line_in q ->
  thermostat_status_lacks_a_field p = thermostat_status_lacks_a_field q.
Proof.
  intros Ho Hi. unfold thermostat_status_lacks_a_field.
  now destruct (reply_same _ _ Ho Hi) as [-> ->].
Qed.

Lemma roof_lacks_same (p q : port) :
  line_out p = line_out q -> line_in p = line_in q ->
  roof_status_lacks_a_field p = roof_status_lacks_a_field q.
Proof.
  intros Ho Hi. unfold roof_status_lacks_a_field.
  now destruct (reply_same _ _ Ho Hi) as [-> ->].
Qed.

Ltac roof_run st P A :=
  exists st;
  split; [apply (polled_step P); exact (polled_refl _)|];
  split; [exact A|]; split; [reflexivity|]; split; [reflexivity|];
  eexists; split; [reflexivity|]; intros _; reflexivity.

(** The roof status part by the reply it meets. *)
Lemma poll_roof_status_run (d : driver) :
  exists d1,
    polled [OCS_get_roof_status] d d1 /\
    advanced (tty (core d)) (tty (core d1)) /\
    last_shutter_error d1 = last_shutter_error d /\
    log d1 = log d /\
    if roof_status_lacks_a_field (tty (core d))
    then poll_roof_status d = Undefined d1 /\ shutterState d1 = shutterState d
    else exists text,
           poll_roof_status d = Done text d1 /\
           ((1 <? reply_return (tty (core d)))%Z = true ->
            text = strtok_head (reply_text (tty (core d))) ","%char).
Proof.
  unfold poll_roof_status, bind, lift.
  destruct (OCS_long_response_spec (core d) (zeroed RB_MAX_LEN)
              OCS_get_roof_status) as (s' & E & W & A & _).
  rewrite E.
  assert (P : polled [OCS_get_roof_status] d (set_core s' d))
    by now apply polled_core.
  unfold roof_status_lacks_a_field.
  change (if is_ok (next_write (tty (core d)))
          then section_return (answer (tty (core d)))
          else tty_code (next_write (tty (core d))))
    with (reply_return (tty (core d))).
  destruct (1 <? reply_return (tty (core d)))%Z eqn:R; cbn [andb].
  - unfold roof_status.
    change (c_str (exchanged (zeroed RB_MAX_LEN) (tty (core d))))
      with (reply_text (tty (core d))).
    destruct (strtok_all (reply_text (tty (core d))) ","%char)
      as [|split more] eqn:T.
    + exists (set_core s' d).
      split; [exact P|]. split; [exact A|]. split; [reflexivity|].
      split; [reflexivity|]. split; reflexivity.
    + destruct (CStr.eqb split (of_string "i")) eqn:I.
      * apply CStr_eqb_true in I. subst split.
        replace (CStr.eqb (of_string "i") (of_string "o")) with false
          by reflexivity.
        replace (CStr.eqb (of_string "i") (of_string "c")) with false
          by reflexivity.
        destruct more as [|split' more'].
        -- exists (set_core s' d).
           split; [exact P|]. split; [exact A|]. split; [reflexivity|].
           split; [reflexivity|]. split; reflexivity.
        -- destruct (CStr.eqb split' (of_string "OPEN")).
           { roof_run (set_shutterState SHUTTER_OPENED (set_core s' d)) P A. }
           destruct (CStr.eqb split' (of_string "CLOSED")).
           { roof_run (set_shutterState SHUTTER_CLOSED (set_core s' d)) P A. }
           roof_run (set_core s' d) P A.
      * assert (L : match more with
                    | [] => false
                    | _ :: _ => false
                    end = false) by (destruct more; reflexivity).
        rewrite L.
        destruct (CStr.eqb split (of_string "o")).
        { roof_run (set_shutterState SHUTTER_MOVING (set_core s' d)) P A. }
        destruct (CStr.eqb split (of_string "c")).
        { roof_run (set_shutterState SHUTTER_MOVING (set_core s' d)) P A. }
        roof_run (set_core s' d) P A.
  - exists (set_core s' d).
    split; [exact P|]. split; [exact A|]. split; [reflexivity|].
    split; [reflexivity|].
    eexists. split; [reflexivity|]. discriminate.
Qed.

Ltac thermostat_run W :=
  eexists; split; [|split]; cycle 2;
  [ reflexivity
  | split; [exact W|]; split; [reflexivity|]; split; [reflexivity|];
    split; [reflexivity|];
    cbn [log add_log set_core set_Thermostat_temperature
         set_Thermostat_humidity];
    repeat apply grown_snoc; apply grown_refl
  | split; reflexivity ].

(** The thermostat status part by the reply it meets. *)
Lemma poll_thermostat_status_run (d : driver) :
  exists d',
    polled [OCS_get_thermostat_status] d d' /\ roof_kept d d' /\
    poll_thermostat_status d
    = if thermostat_status_lacks_a_field (tty (core d))
      then Undefined d' else Done tt d'.
Proof.
  unfold poll_thermostat_status, bind, lift.
  destruct (OCS_long_response_spec (core d) (zeroed RB_MAX_LEN)
              OCS_get_thermostat_status) as (s' & E & W & A & _).
  rewrite E.
  unfold thermostat_status_lacks_a_field.
  change (if is_ok (next_write (tty (core d)))
          then section_return (answer (tty (core d)))
          else tty_code (next_write (tty (core d))))
    with (reply_return (tty (core d))).
  destruct (1 <? reply_return (tty (core d)))%Z eqn:R; cbn [andb].
  - unfold thermostat_status.
    change (c_str (exchanged (zeroed RB_MAX_LEN) (tty (core d))))
      with (reply_text (tty (core d))).
    destruct (strtok_all (reply_text (tty (core d))) ","%char)
      as [|split [|split' more]].
    + thermostat_run W.
    + thermostat_run W.
    + thermostat_run W.
  - thermostat_run W.
Qed.

(** [TimerHit] by the replies it meets: it ends at the roof status or
    at the thermostat status when that reply lacks a field, and returns
    otherwise. *)
Lemma TimerHit_run (d : driver) :
  exists d1,
    polled [OCS_get_roof_status] d d1 /\
    last_shutter_error d1 = last_shutter_error d /\
    log d1 = log d /\
    if roof_status_lacks_a_field (tty (core d))
    then TimerHit d = Undefined d1 /\ shutterState d1 = shutterState d
    else
      exists text d2 d3,
        poll_roof_status d = Done text d1 /\
        ((1 <? reply_return (tty (core d)))%Z = true ->
         text = strtok_head (reply_text (tty (core d))) ","%char) /\
        next_write (tty (core d1)) = next_write (queried (tty (core d))) /\
        answer (tty (core d1)) = answer (queried (tty (core d))) /\
        poll_roof_error text d1 = Done tt d2 /\
        polled [OCS_get_roof_last_error] d1 d2 /\
        polled [OCS_get_thermostat_status] d2 d3 /\ roof_kept d2 d3 /\
        if thermostat_status_lacks_a_field (queried (queried (tty (core d))))
        then TimerHit d = Undefined d3
        else
          exists d4,
            polled [OCS_get_thermostat_heat_setpoint;
                    OCS_get_thermostat_cool_setpoint] d3 d4 /\
            roof_kept d3 d4 /\
            TimerHit d
            = Done tt (if negb (isConnected d4) then d4
                       else add_timer (pollingPeriod d4) d4).
Proof.
  destruct (poll_roof_status_run d) as (d1 & P1 & A1 & L1 & G1 & R).
  exists d1. split; [exact P1|]. split; [exact L1|]. split; [exact G1|].
  destruct (roof_status_lacks_a_field (tty (core d))).
  - destruct R as [E S]. split; [|exact S].
    unfold TimerHit, bind. now rewrite E.
  - destruct R as (text & E1 & T1).
    destruct (poll_roof_error_returns text d1) as (d2 & E2 & P2 & A2 & _).
    destruct (poll_thermostat_status_run d2) as (d3 & P3 & K3 & E3).
    exists text, d2, d3.
    split; [exact E1|]. split; [exact T1|].
    destruct A1 as [A1o A1i]. destruct A2 as [A2o A2i].
    split; [exact (next_write_same _ (queried (tty (core d))) A1o)|].
    split; [exact (answer_same _ (queried (tty (core d))) A1i)|].
    split; [exact E2|]. split; [exact P2|].
    split; [exact P3|]. split; [exact K3|].
    assert (Q : line_out (tty (core d2))
                = line_out (queried (queried (tty (core d)))) /\
                line_in (tty (core d2))
                = line_in (queried (queried (tty (core d))))).
    { destruct (queried_same (tty (core d1)) (queried (tty (core d))) A1o A1i)
        as [Qo Qi].
      split.
      - rewrite <- Qo. exact A2o.
      - rewrite <- Qi. exact A2i. }
    destruct Q as [Qo Qi].
    rewrite (thermostat_lacks_same _ _ Qo Qi) in E3.
    destruct (thermostat_status_lacks_a_field
                (queried (queried (tty (core d))))).
    + unfold TimerHit, bind. rewrite E1, E2, E3. reflexivity.
    + destruct (poll_thermostat_setpoints_returns d3) as (d4 & E4 & P4 & K4).
      exists d4. split; [exact P4|]. split; [exact K4|].
      unfold TimerHit, bind. rewrite E1, E2, E3, E4. cbn [get].
      destruct (negb (isConnected d4)); reflexivity.
Qed.

End PollRun.


Section PollRoof.
Import OCS OCS_Dome.

Lemma next_write_of_line_out (p : port) (e : TTY_ERROR) (outs : list TTY_ERROR) :
  line_out p = e :: outs -> next_write p = e.
Proof. intros H. unfold next_write. now rewrite H. Qed.

Lemma answer_of_line_in (p : port) (x a : arrival) (ins : list arrival) :
  line_in p = x :: a :: ins -> answer p = a.
Proof. intros H. unfold answer, next_read, advance. cbn. now rewrite H. Qed.

(** The line that the second query of a poll meets, when the first
    command was written. *)
Lemma second_query (p p1 : port) (outs : list TTY_ERROR)
    (x0 a0 x1 a1 : arrival) (ins : list arrival) :
  line_out p = TTY_OK :: TTY_OK :: outs ->
  line_in p = x0 :: a0 :: x1 :: a1 :: ins ->
  advanced p p1 ->
  next_write p1 = TTY_OK /\ answer p1 = a1.
Proof.
  intros Ho Hi [A1 A2].
  rewrite (next_write_of_line_out _ Ho) in A2. cbn [is_ok] in A2.
  rewrite Ho in A1. rewrite Hi in A2. cbn [tl] in *.
  split; [exact (next_write_of_line_out _ A1) | exact (answer_of_line_in _ A2)].
Qed.

End PollRoof.

(** X15.  When the roof status lacks no field and OCS reports a last
    roof error of at least one character, the poll reaches the second
    query and sets the shutter state to [SHUTTER_ERROR], whatever the
    roof status said: the error query overrides the state that the
    status query has just set.  The poll then returns with that state,
    or, when the thermostat status lacks a field, ends there in
    undefined behaviour with that state already set. *)
Theorem roof_error_overrides_the_roof_status
    (d : OCS_Dome.driver) (text rest : list ascii) :
  OCS_Dome.roof_status_lacks_a_field (OCS.tty (OCS_Dome.core d)) = false ->
  is_ok (next_write (OCS_Dome.queried (OCS.tty (OCS_Dome.core d)))) = true ->
  arr_bytes (answer (OCS_Dome.queried (OCS.tty (OCS_Dome.core d))))
  = text ++ terminator :: rest ->
  forallb text_char text = true ->
  0 < length text < RB_MAX_LEN ->
  exists d',
    OCS_Dome.TimerHit d
    = (if OCS_Dome.thermostat_status_lacks_a_field
            (OCS_Dome.queried (OCS_Dome.queried (OCS.tty (OCS_Dome.core d))))
       then Undefined d' else Done tt d') /\
    OCS_Dome.shutterState d' = OCS_Dome.SHUTTER_ERROR.
Proof.
  intros Hr He Ha Ht Hl.
  destruct (TimerHit_run d) as (d1 & _ & _ & _ & R).
  rewrite Hr in R.
  destruct R as (t & d2 & d3 & _ & _ & W1 & R1 & E2 & _ & _ & K3 & R).
  destruct (poll_roof_error_returns t d1) as (d2' & E2' & _ & _ & HS & _).
  rewrite E2 in E2'. injection E2' as <-.
  rewrite W1, R1, He in HS.
  rewrite (section_return_of_response _ _ _ Ha Ht) in HS.
  assert (L : (1 <? Z.of_nat (S (length text)))%Z = true)
    by (apply Z.ltb_lt; lia).
  rewrite L in HS.
  destruct K3 as [K3 _].
  destruct (OCS_Dome.thermostat_status_lacks_a_field
              (OCS_Dome.queried (OCS_Dome.queried (OCS.tty (OCS_Dome.core d))))).
  - exists d3. split; [exact R | congruence].
  - destruct R as (d4 & _ & [K4 _] & E).
    eexists. split; [exact E|].
    destruct (negb (OCS_Dome.isConnected d4));
      cbn [OCS_Dome.shutterState OCS_Dome.add_timer]; congruence.
Qed.

Lemma roof_error_overrides_the_roof_status_witness :
  exists d',
    OCS_Dome.TimerHit open_roof_with_old_error = Done tt d' /\
    OCS_Dome.shutterState d' = OCS_Dome.SHUTTER_ERROR.
Proof.
  exact (@roof_error_overrides_the_roof_status
           open_roof_with_old_error (of_string "RERR_OPEN_LIMIT_SW") []
           eq_refl eq_refl eq_refl eq_refl
           (conj (Nat.lt_0_succ _) (proj1 (Nat.ltb_lt 18 RB_MAX_LEN) eq_refl))).
Defined.

Section PollReplies.
Import OCS OCS_Dome.

(** The roof status part on a response that arrives whole. *)
Lemma poll_roof_status_whole (d : driver) (text rest : list ascii) :
  is_ok (next_write (tty (core d))) = true ->
  arr_bytes (answer (tty (core d))) = text ++ terminator :: rest ->
  forallb text_char text = true ->
  0 < length text < RB_MAX_LEN ->
  exists (b : buffer) (s' : OCS.state),
    poll_roof_status d = roof_status b (set_core s' d) /\ c_str b = text.
Proof.
  intros He Ha Ht Hl. unfold poll_roof_status, bind, lift.
  destruct (OCS_long_response_spec (core d) (zeroed RB_MAX_LEN)
              OCS_get_roof_status) as (s' & E & _).
  rewrite E, He. rewrite (section_return_of_response _ _ _ Ha Ht).
  assert (L : (1 <? Z.of_nat (S (length text)))%Z = true)
    by (apply Z.ltb_lt; lia).
  rewrite L. exists (exchanged (zeroed RB_MAX_LEN) (tty (core d))), s'.
  split; [reflexivity|]. unfold exchanged. rewrite He.
  apply (section_payload_of_response (zeroed RB_MAX_LEN) _ _ _ Ha Ht).
  lia.
Qed.

Lemma TimerHit_undefined_at_roof_status (d d1 : driver) :
  poll_roof_status d = Undefined d1 -> TimerHit d = Undefined d1.
Proof. intros E. unfold TimerHit, bind. now rewrite E. Qed.

Lemma roof_status_keeps_other (b : buffer) (d : driver)
    (tok : list ascii) (more : list (list ascii)) :
  strtok_all (c_str b) ","%char = tok :: more ->
  ~ In tok (map of_string ["o"; "c"; "i"]%string) ->
  roof_status b d = Done (strtok_head (c_str b) ","%char) d.
Proof.
  intros T N. unfold roof_status. rewrite T.
  assert (F : forall lit, In lit ["o"; "c"; "i"]%string ->
                          CStr.eqb tok (of_string lit) = false).
  { intros lit I. unfold CStr.eqb.
    destruct (list_eq_dec ascii_dec tok (of_string lit)) as [->|]; [|reflexivity].
    exfalso. apply N. now apply in_map. }
  rewrite (F "o"%string), (F "c"%string), (F "i"%string) by (simpl; auto).
  reflexivity.
Qed.

Lemma not_NUL_of_text (text : list ascii) :
  forallb text_char text = true -> forallb not_NUL text = true.
Proof.
  induction text as [|c text IH]; simpl; intros H; [reflexivity|].
  apply andb_prop in H as [Hc Ht]. unfold text_char in Hc.
  apply andb_prop in Hc as [Hc _]. now rewrite Hc, IH.
Qed.

Lemma strtok_token_prefix (s : list ascii) (delim : ascii) :
  exists rest, s = strtok_token s delim ++ rest.
Proof.
  induction s as [|c s [rest IH]]; simpl.
  - now exists [].
  - destruct (Ascii.eqb c delim).
    + now exists (c :: s).
    + exists rest. cbn [app]. now f_equal.
Qed.

Lemma strtok_head_prefix (s : list ascii) (delim : ascii) :
  exists rest, s = strtok_head s delim ++ rest.
Proof.
  induction s as [|c s [rest IH]].
  - now exists [].
  - cbn [strtok_head]. destruct (Ascii.eqb c delim) eqn:D.
    + exists rest. cbn [app]. now f_equal.
    + apply (strtok_token_prefix (c :: s) delim).
Qed.

Lemma c_str_strncpy (dest : buffer) (src : list ascii) (n : nat) :
  forallb not_NUL src = true -> length src < n ->
  c_str (Printf.strncpy dest src n) = src.
Proof.
  intros Hn Hl. unfold Printf.strncpy.
  rewrite firstn_app.
  rewrite (firstn_all2 (n := n) src) by lia.
  destruct (n - length src) as [|k] eqn:K; [lia|].
  destruct n as [|n]; [lia|]. cbn [repeat firstn].
  rewrite <- app_assoc. cbn [app].
  now apply c_str_text_then_NUL.
Qed.

Lemma c_str_strncpy_head (dest : buffer) (status : list ascii) :
  forallb text_char status = true -> length status < RB_MAX_LEN ->
  c_str (Printf.strncpy dest (strtok_head status ","%char) RB_MAX_LEN)
  = strtok_head status ","%char.
Proof.
  intros Ht Hl.
  destruct (strtok_head_prefix status ","%char) as [rest E].
  apply c_str_strncpy.
  - apply not_NUL_of_text in Ht. rewrite E in Ht.
    rewrite forallb_app in Ht. now apply andb_prop in Ht as [Ht _].
  - apply (f_equal (@length ascii)) in E. rewrite length_app in E. lia.
Qed.

(** Every error of the table is announced when it differs from the
    text in [last_shutter_error]. *)
Lemma roof_error_chain_announces (code message : string) (last : list ascii) :
  In (code, message) roof_errors ->
  last <> of_string code ->
  roof_error_chain roof_errors (of_string code) last = Some message.
Proof.
  intros I N.
  assert (F : CStr.eqb (of_string code) last = false).
  { unfold CStr.eqb. destruct (list_eq_dec ascii_dec (of_string code) last);
      [congruence | reflexivity]. }
  unfold roof_errors in I. cbn [In] in I.
  repeat (destruct I as [I|I];
          [injection I as <- <-; cbn [roof_error_chain roof_errors];
           rewrite F; reflexivity|]).
  contradiction.
Qed.

Lemma roof_error_is_text (code message : string) :
  In (code, message) roof_errors ->
  forallb text_char (of_string code) = true /\
  0 < length (of_string code) < RB_MAX_LEN.
Proof.
  intros I. unfold roof_errors in I. cbn [In] in I.
  repeat (destruct I as [I|I];
          [injection I as <- <-;
           split; [reflexivity | unfold RB_MAX_LEN; simpl; lia]|]).
  contradiction.
Qed.

End PollReplies.

Section PollOutcomes.
Import OCS OCS_Dome.

Lemma TimerHit_empty_roof_error (d : driver) (outs : list TTY_ERROR)
    (x0 a0 x1 a1 : arrival) (ins : list arrival) (rest : list ascii) :
  line_out (tty (core d)) = TTY_OK :: TTY_OK :: outs ->
  line_in (tty (core d)) = x0 :: a0 :: x1 :: a1 :: ins ->
  arr_bytes a1 = terminator :: rest ->
  ends (TimerHit d)
       (fun _ d' =>
          (forall text d1, poll_roof_status d = Done text d1 ->
                           shutterState d' = shutterState d1) /\
          exists l,
            log d'
            = log d
              ++ LOG_WARN "Communication error on get Roof/Shutter last error %s, this update aborted, will try again..."
                   [ArgStr OCS_get_roof_last_error] :: l)
       only_undefined.
Proof.
  intros Ho Hi Ha.
  apply TimerHit_by_parts.
  intros t d1 d2 d3 d4 E1 _ A1 _ G1 _ E2 (_ & _ & _ & _ & l3 & L3) K3
         (_ & _ & _ & _ & l4 & L4) K4.
  destruct (second_query Ho Hi A1) as [W1 R1].
  destruct (poll_roof_error_returns t d1) as (d2' & E2' & _ & _ & HS & _ & HL).
  rewrite E2 in E2'. injection E2' as <-.
  rewrite W1, R1 in HS, HL. cbn [is_ok] in HS, HL.
  rewrite (section_return_of_response a1 [] rest Ha eq_refl) in HS, HL.
  cbn [length Z.of_nat Pos.of_succ_nat Z.ltb Z.compare Pos.compare
       Pos.compare_cont] in HS.
  destruct (HL eq_refl) as [_ L2].
  destruct (roof_kept_trans K3 K4) as [K _].
  assert (X : shutterState d4 = shutterState d1 /\
              exists l,
                log d4
                = log d
                  ++ LOG_WARN "Communication error on get Roof/Shutter last error %s, this update aborted, will try again..."
                       [ArgStr OCS_get_roof_last_error] :: l).
  { split; [congruence|]. exists (l3 ++ l4).
    rewrite L4, L3, L2, G1. rewrite <- !app_assoc. reflexivity. }
  destruct X as [X1 X2].
  split.
  - intros text' d1' E1'. rewrite E1 in E1'. injection E1' as _ <-.
    destruct (negb (isConnected d4)); cbn [shutterState add_timer]; exact X1.
  - destruct (negb (isConnected d4)); cbn [log add_timer]; exact X2.
Qed.

(** A reply that arrives whole, as the poll sees it. *)
Lemma reply_of_response (p : port) (text rest : list ascii) :
  is_ok (next_write p) = true ->
  arr_bytes (answer p) = text ++ terminator :: rest ->
  forallb text_char text = true ->
  length text < RB_MAX_LEN ->
  reply_return p = Z.of_nat (S (length text)) /\ reply_text p = text.
Proof.
  intros He Ha Ht Hl. unfold reply_return, reply_text, exchanged.
  rewrite He. split.
  - exact (section_return_of_response _ _ _ Ha Ht).
  - exact (section_payload_of_response (zeroed RB_MAX_LEN) _ _ _ Ha Ht Hl).
Qed.

Lemma above_one (n : nat) : 0 < n -> (1 <? Z.of_nat (S n))%Z = true.
Proof. intros H. apply Z.ltb_lt. lia. Qed.

(** One poll that meets a roof error of the table which differs from
    the text in [last_shutter_error]. *)
Lemma TimerHit_standing_error (d : driver)
    (status rest0 rest1 : list ascii) (code message : string) :
  is_ok (next_write (tty (core d))) = true ->
  arr_bytes (answer (tty (core d))) = status ++ terminator :: rest0 ->
  forallb text_char status = true ->
  0 < length status < RB_MAX_LEN ->
  roof_status_lacks_a_field (tty (core d)) = false ->
  is_ok (next_write (queried (tty (core d)))) = true ->
  arr_bytes (answer (queried (tty (core d))))
  = of_string code ++ terminator :: rest1 ->
  In (code, message) roof_errors ->
  c_str (last_shutter_error d) <> of_string code ->
  exists d',
    TimerHit d
    = (if thermostat_status_lacks_a_field (queried (queried (tty (core d))))
       then Undefined d' else Done tt d') /\
    (exists l l', log d' = log d ++ l ++ LOG_WARN message [] :: l') /\
    c_str (last_shutter_error d') = strtok_head status ","%char.
Proof.
  intros He0 Ha0 Ht0 Hl0 Hr He1 Ha1 Hc Hn.
  destruct (@roof_error_is_text code message Hc) as [Ht1 Hl1].
  destruct (@reply_of_response _ _ _ He0 Ha0 Ht0 (proj2 Hl0)) as [RR RT].
  destruct (TimerHit_run d) as (d1 & _ & L1 & G1 & R).
  rewrite Hr in R.
  destruct R as (t & d2 & d3 & _ & T1 & W1 & R1 & E2 & _
                 & (_ & _ & _ & _ & l3 & L3) & K3 & R).
  rewrite RR, RT in T1. specialize (T1 (above_one (proj1 Hl0))). subst t.
  destruct (poll_roof_error_returns (strtok_head status ","%char) d1)
    as (d2' & E2' & _ & _ & _ & HC & _).
  rewrite E2 in E2'. injection E2' as <-.
  unfold exchanged in HC. rewrite W1, R1, He1 in HC.
  rewrite (section_return_of_response _ _ _ Ha1 Ht1) in HC.
  specialize (HC (above_one (proj1 Hl1))).
  change (c_str (section_framed (zeroed RB_MAX_LEN)
                   (answer (queried (tty (core d))))))
    with (section_payload (zeroed RB_MAX_LEN)
            (answer (queried (tty (core d))))) in HC.
  rewrite (section_payload_of_response (zeroed RB_MAX_LEN) _ _ _ Ha1 Ht1) in HC
    by lia.
  rewrite L1 in HC.
  rewrite (@roof_error_chain_announces code message _ Hc Hn) in HC.
  destruct HC as (C2 & l2 & L2).
  assert (C3 : c_str (last_shutter_error d3) = strtok_head status ","%char).
  { destruct K3 as [_ K3]. rewrite K3, C2.
    apply c_str_strncpy_head; [exact Ht0 | lia]. }
  assert (G3 : log d3 = log d ++ l2 ++ LOG_WARN message [] :: l3).
  { rewrite L3, L2, G1. rewrite <- !app_assoc. reflexivity. }
  destruct (thermostat_status_lacks_a_field (queried (queried (tty (core d))))).
  - exists d3. split; [exact R|]. split; [|exact C3].
    exists l2, l3. exact G3.
  - destruct R as (d4 & (_ & _ & _ & _ & l4 & L4) & [_ K4] & E).
    eexists. split; [exact E|].
    assert (X : (exists l l', log d4 = log d ++ l ++ LOG_WARN message [] :: l') /\
                c_str (last_shutter_error d4) = strtok_head status ","%char).
    { split.
      - exists l2, (l3 ++ l4). rewrite L4, G3. rewrite <- !app_assoc.
        reflexivity.
      - rewrite K4. exact C3. }
    destruct (negb (isConnected d4)); cbn [log last_shutter_error add_timer];
      exact X.
Qed.

Lemma ControlShutter_eq (operation : ShutterOperation) (d : driver) :
  (0 <= ROOF_TIME_PRE_MOTION (core d) <= 2147483)%Z ->
  ControlShutter operation d
  = Done IPS_BUSY
      (add_timer (ROOF_TIME_PRE_MOTION (core d) * 1000 + 500)
         (set_core
            (set_tty
               (line_written
                  (match operation with
                   | SHUTTER_OPEN => OCS_roof_open
                   | SHUTTER_CLOSE => OCS_roof_close
                   end) (tty (core d))) (core d)) d)).
Proof.
  intros H. unfold ControlShutter.
  assert (B1 : (INT_MIN <=? ROOF_TIME_PRE_MOTION (core d) * 1000)%Z = true)
    by (apply Z.leb_le; unfold INT_MIN; lia).
  assert (B2 : (ROOF_TIME_PRE_MOTION (core d) * 1000 + 500 <=? INT_MAX)%Z = true)
    by (apply Z.leb_le; unfold INT_MAX; lia).
  assert (B3 : ((ROOF_TIME_PRE_MOTION (core d) * 1000 + 500) mod 4294967296
                = ROOF_TIME_PRE_MOTION (core d) * 1000 + 500)%Z)
    by (apply Z.mod_small; lia).
  destruct operation; unfold bind, lift;
    rewrite OCS_sendOCSCommandBlind_eq; cbn [ret get core set_core];
    cbn [ROOF_TIME_PRE_MOTION set_tty];
    rewrite B1, B2, B3; reflexivity.
Qed.

End PollOutcomes.

(** X16.  OCS answers an idle roof with [i,<state>#].  When the state is
    missing (the reply is [i#], or consists of commas only) the poll
    hands the null pointer that [strtok] returns to [strcmp]: the
    behaviour of [OCS::TimerHit] is undefined there.  None of the later
    queries is reached: [:RS#] is the only command written, and the
    shutter state is still what it was. *)
Theorem roof_status_with_a_missing_field_is_undefined
    (d : OCS_Dome.driver) (text rest : list ascii) :
  is_ok (next_write (OCS.tty (OCS_Dome.core d))) = true ->
  arr_bytes (answer (OCS.tty (OCS_Dome.core d))) = text ++ terminator :: rest ->
  forallb text_char text = true ->
  0 < length text < RB_MAX_LEN ->
  strtok_all text ","%char = [] \/ strtok_all text ","%char = [of_string "i"] ->
  exists d',
    OCS_Dome.TimerHit d = Undefined d' /\
    written (OCS.tty (OCS_Dome.core d'))
    = written (OCS.tty (OCS_Dome.core d)) ++ [of_string ":RS#"] /\
    OCS_Dome.timers d' = OCS_Dome.timers d /\
    OCS_Dome.shutterState d' = OCS_Dome.shutterState d.
Proof.
  intros He Ha Ht Hl T.
  destruct (@reply_of_response _ _ _ He Ha Ht (proj2 Hl)) as [RR RT].
  assert (L : OCS_Dome.roof_status_lacks_a_field (OCS.tty (OCS_Dome.core d))
              = true).
  { unfold OCS_Dome.roof_status_lacks_a_field.
    rewrite RR, RT, (above_one (proj1 Hl)).
    destruct T as [-> | ->]; reflexivity. }
  destruct (TimerHit_run d) as (d1 & (W & T1 & _) & _ & _ & R).
  rewrite L in R. destruct R as [E S].
  exists d1. split; [exact E|]. split; [exact W|]. split; [exact T1 | exact S].
Qed.

Lemma roof_status_with_a_missing_field_is_undefined_witness :
  exists d',
    OCS_Dome.TimerHit idle_roof_without_state = Undefined d' /\
    written (OCS.tty (OCS_Dome.core d')) = [of_string ":RS#"].
Proof.
  destruct (@roof_status_with_a_missing_field_is_undefined
              idle_roof_without_state (of_string "i") []
              eq_refl eq_refl eq_refl
              (conj (Nat.lt_0_succ _) (proj1 (Nat.ltb_lt 1 RB_MAX_LEN) eq_refl))
              (or_intror eq_refl))
    as (d' & E & W & _).
  exists d'. split; [exact E | exact W].
Defined.

(** X17.  When the roof status lacks no field and OCS, having no roof
    error to report, answers [:RSL#] with the bare terminator,
    [OCS::TimerHit] takes the return value 1 for a failure: every such
    poll logs, as its first warning, "Communication error on get
    Roof/Shutter last error", and leaves the shutter state as the roof
    status part set it.  The poll then returns, or ends at a thermostat
    status that lacks a field, with that warning logged. *)
Theorem empty_roof_error_is_logged_as_communication_error
    (d : OCS_Dome.driver) (rest : list ascii) :
  OCS_Dome.roof_status_lacks_a_field (OCS.tty (OCS_Dome.core d)) = false ->
  is_ok (next_write (OCS_Dome.queried (OCS.tty (OCS_Dome.core d)))) = true ->
  arr_bytes (answer (OCS_Dome.queried (OCS.tty (OCS_Dome.core d))))
  = terminator :: rest ->
  exists d' l,
    OCS_Dome.TimerHit d
    = (if OCS_Dome.thermostat_status_lacks_a_field
            (OCS_Dome.queried (OCS_Dome.queried (OCS.tty (OCS_Dome.core d))))
       then Undefined d' else Done tt d') /\
    (forall text d1, OCS_Dome.poll_roof_status d = Done text d1 ->
                     OCS_Dome.shutterState d' = OCS_Dome.shutterState d1) /\
    OCS_Dome.log d'
    = OCS_Dome.log d
      ++ LOG_WARN "Communication error on get Roof/Shutter last error %s, this update aborted, will try again..."
           [ArgStr (of_string ":RSL#")] :: l.
Proof.
  intros Hr He Ha.
  destruct (TimerHit_run d) as (d1 & _ & _ & G1 & R).
  rewrite Hr in R.
  destruct R as (t & d2 & d3 & E1 & _ & W1 & R1 & E2 & _
                 & (_ & _ & _ & _ & l3 & L3) & [K3 _] & R).
  destruct (poll_roof_error_returns t d1) as (d2' & E2' & _ & _ & HS & _ & HL).
  rewrite E2 in E2'. injection E2' as <-.
  rewrite W1, R1, He in HS, HL.
  rewrite (section_return_of_response _ [] rest Ha eq_refl) in HS, HL.
  cbn [length Z.of_nat Pos.of_succ_nat Z.ltb Z.compare Pos.compare
       Pos.compare_cont] in HS.
  destruct (HL eq_refl) as [_ L2].
  assert (S3 : forall text d1',
             OCS_Dome.poll_roof_status d = Done text d1' ->
             OCS_Dome.shutterState d3 = OCS_Dome.shutterState d1').
  { intros text d1' E1'. rewrite E1 in E1'. injection E1' as _ <-.
    congruence. }
  assert (G3 : OCS_Dome.log d3
               = OCS_Dome.log d
                 ++ LOG_WARN "Communication error on get Roof/Shutter last error %s, this update aborted, will try again..."
                      [ArgStr (of_string ":RSL#")] :: l3).
  { rewrite L3, L2, G1. rewrite <- !app_assoc. reflexivity. }
  destruct (OCS_Dome.thermostat_status_lacks_a_field
              (OCS_Dome.queried (OCS_Dome.queried (OCS.tty (OCS_Dome.core d))))).
  - exists d3, l3. split; [exact R|]. split; [exact S3 | exact G3].
  - destruct R as (d4 & (_ & _ & _ & _ & l4 & L4) & [K4 _] & E).
    eexists. exists (l3 ++ l4). split; [exact E|].
    split.
    + intros text d1' E1'. rewrite <- (S3 _ _ E1').
      destruct (negb (OCS_Dome.isConnected d4));
        cbn [OCS_Dome.shutterState OCS_Dome.add_timer]; exact K4.
    + assert (G4 : OCS_Dome.log d4
                   = OCS_Dome.log d
                     ++ LOG_WARN "Communication error on get Roof/Shutter last error %s, this update aborted, will try again..."
                          [ArgStr (of_string ":RSL#")] :: l3 ++ l4).
      { rewrite L4, G3. rewrite <- !app_assoc. reflexivity. }
      destruct (negb (OCS_Dome.isConnected d4));
        cbn [OCS_Dome.log OCS_Dome.add_timer]; exact G4.
Qed.

Lemma empty_roof_error_is_logged_as_communication_error_witness :
  exists d' l,
    OCS_Dome.TimerHit open_roof_by_the_lexicon = Done tt d' /\
    OCS_Dome.log d'
    = LOG_WARN "Communication error on get Roof/Shutter last error %s, this update aborted, will try again..."
        [ArgStr (of_string ":RSL#")] :: l.
Proof.
  destruct (@empty_roof_error_is_logged_as_communication_error
              open_roof_by_the_lexicon [] eq_refl eq_refl eq_refl)
    as (d' & l & E & _ & L).
  exists d', l. split; [exact E | exact L].
Defined.

(** X18.  A roof error of the table is warned about when it differs
    from the text in [last_shutter_error]; but what [OCS::TimerHit]
    then copies into [last_shutter_error] is the buffer of the roof
    status, cut at its first field by [strtok], not the error.  So for
    two polls in a row that meet a roof status whose first field is not
    the error code and the same roof error: the first poll, which
    returned, has logged the warning of that error and left the first
    field of the status in [last_shutter_error]; and the second poll
    logs the same warning again, whether it returns or ends at a
    thermostat status that lacks a field. *)
Theorem standing_roof_error_is_announced_again
    (d d' : OCS_Dome.driver)
    (status rest0 rest1 status' rest0' rest1' : list ascii)
    (code message : string) :
  OCS_Dome.TimerHit d = Done tt d' ->
  In (code, message) OCS_Dome.roof_errors ->
  c_str (OCS_Dome.last_shutter_error d) <> of_string code ->
  is_ok (next_write (OCS.tty (OCS_Dome.core d))) = true ->
  arr_bytes (answer (OCS.tty (OCS_Dome.core d)))
  = status ++ terminator :: rest0 ->
  forallb text_char status = true ->
  0 < length status < RB_MAX_LEN ->
  OCS_Dome.strtok_head status ","%char <> of_string code ->
  is_ok (next_write (OCS_Dome.queried (OCS.tty (OCS_Dome.core d)))) = true ->
  arr_bytes (answer (OCS_Dome.queried (OCS.tty (OCS_Dome.core d))))
  = of_string code ++ terminator :: rest1 ->
  is_ok (next_write (OCS.tty (OCS_Dome.core d'))) = true ->
  arr_bytes (answer (OCS.tty (OCS_Dome.core d')))
  = status' ++ terminator :: rest0' ->
  forallb text_char status' = true ->
  0 < length status' < RB_MAX_LEN ->
  OCS_Dome.roof_status_lacks_a_field (OCS.tty (OCS_Dome.core d')) = false ->
  is_ok (next_write (OCS_Dome.queried (OCS.tty (OCS_Dome.core d')))) = true ->
  arr_bytes (answer (OCS_Dome.queried (OCS.tty (OCS_Dome.core d'))))
  = of_string code ++ terminator :: rest1' ->
  (exists l l',
      OCS_Dome.log d' = OCS_Dome.log d ++ l ++ LOG_WARN message [] :: l') /\
  c_str (OCS_Dome.last_shutter_error d') = OCS_Dome.strtok_head status ","%char /\
  exists d'',
    OCS_Dome.TimerHit d'
    = (if OCS_Dome.thermostat_status_lacks_a_field
            (OCS_Dome.queried (OCS_Dome.queried (OCS.tty (OCS_Dome.core d'))))
       then Undefined d'' else Done tt d'') /\
    (exists l l',
        OCS_Dome.log d'' = OCS_Dome.log d' ++ l ++ LOG_WARN message [] :: l') /\
    c_str (OCS_Dome.last_shutter_error d'')
    = OCS_Dome.strtok_head status' ","%char.
Proof.
  intros E Hc Hn He0 Ha0 Ht0 Hl0 Hh He1 Ha1 He0' Ha0' Ht0' Hl0' Hr' He1' Ha1'.
  assert (Hr : OCS_Dome.roof_status_lacks_a_field (OCS.tty (OCS_Dome.core d))
               = false).
  { destruct (TimerHit_run d) as (d1 & _ & _ & _ & R).
    destruct (OCS_Dome.roof_status_lacks_a_field (OCS.tty (OCS_Dome.core d)));
      [|reflexivity].
    destruct R as [U _]. rewrite U in E. discriminate E. }
  destruct (@TimerHit_standing_error d status rest0 rest1 code message
              He0 Ha0 Ht0 Hl0 Hr He1 Ha1 Hc Hn) as (d0 & E0 & L0 & C0).
  assert (D : d0 = d').
  { rewrite E in E0.
    destruct (OCS_Dome.thermostat_status_lacks_a_field _);
      [discriminate E0 | injection E0 as <-; reflexivity]. }
  subst d0. split; [exact L0|]. split; [exact C0|].
  assert (Hn' : c_str (OCS_Dome.last_shutter_error d') <> of_string code)
    by (rewrite C0; exact Hh).
  exact (@TimerHit_standing_error d' status' rest0' rest1' code message
           He0' Ha0' Ht0' Hl0' Hr' He1' Ha1' Hc Hn').
Qed.

Lemma standing_roof_error_is_announced_again_witness :
  let d' := final (OCS_Dome.TimerHit standing_error_session) in
  exists d'',
    OCS_Dome.TimerHit standing_error_session = Done tt d' /\
    OCS_Dome.TimerHit d' = Done tt d'' /\
    (exists l l',
        OCS_Dome.log d'
        = OCS_Dome.log standing_error_session
          ++ l ++ LOG_WARN "Roof/shutter error - Open limit switch" [] :: l') /\
    (exists l l',
        OCS_Dome.log d''
        = OCS_Dome.log d'
          ++ l ++ LOG_WARN "Roof/shutter error - Open limit switch" [] :: l').
Proof.
  intros d'.
  assert (E : OCS_Dome.TimerHit standing_error_session = Done tt d')
    by (vm_compute; reflexivity).
  assert (B : OCS_Dome.thermostat_status_lacks_a_field
                (OCS_Dome.queried (OCS_Dome.queried (OCS.tty (OCS_Dome.core d'))))
              = false)
    by (vm_compute; reflexivity).
  destruct (@standing_roof_error_is_announced_again
              standing_error_session d'
              (of_string "i,OPEN") [] [] (of_string "i,OPEN") [] []
              "RERR_OPEN_LIMIT_SW" "Roof/shutter error - Open limit switch"
              E)
    as (L & _ & d'' & E' & L' & _).
  - simpl. tauto.
  - vm_compute. discriminate.
  - vm_compute. reflexivity.
  - vm_compute. reflexivity.
  - vm_compute. reflexivity.
  - split; [apply Nat.lt_0_succ | apply Nat.ltb_lt; vm_compute; reflexivity].
  - vm_compute. discriminate.
  - vm_compute. reflexivity.
  - vm_compute. reflexivity.
  - vm_compute. reflexivity.
  - vm_compute. reflexivity.
  - vm_compute. reflexivity.
  - split; [apply Nat.lt_0_succ | apply Nat.ltb_lt; vm_compute; reflexivity].
  - vm_compute. reflexivity.
  - vm_compute. reflexivity.
  - vm_compute. reflexivity.
  - rewrite B in E'. exists d''.
    split; [exact E|]. split; [exact E'|]. split; [exact L | exact L'].
Defined.

(** X19.  [OCS::ControlShutter] sends [:RO#] or [:RC#] blind and reports
    [IPS_BUSY] whatever became of the write, also when it failed; it
    reads no reply, leaves the shutter state alone, and sets the timer
    of the next poll to the pre-motion time in milliseconds plus half a
    second. *)
Theorem ControlShutter_reports_busy_whatever_the_line
    (operation : OCS_Dome.ShutterOperation) (d : OCS_Dome.driver) :
  (0 <= OCS.ROOF_TIME_PRE_MOTION (OCS_Dome.core d) <= 2147483)%Z ->
  exists d',
    OCS_Dome.ControlShutter operation d = Done IPS_BUSY d' /\
    written (OCS.tty (OCS_Dome.core d'))
    = written (OCS.tty (OCS_Dome.core d))
      ++ [of_string match operation with
                    | OCS_Dome.SHUTTER_OPEN => ":RO#"
                    | OCS_Dome.SHUTTER_CLOSE => ":RC#"
                    end] /\
    line_in (OCS.tty (OCS_Dome.core d'))
    = tl (line_in (OCS.tty (OCS_Dome.core d))) /\
    OCS_Dome.timers d'
    = OCS_Dome.timers d
      ++ [(OCS.ROOF_TIME_PRE_MOTION (OCS_Dome.core d) * 1000 + 500)%Z] /\
    OCS_Dome.shutterState d' = OCS_Dome.shutterState d.
Proof.
  intros H. eexists. split; [apply (@ControlShutter_eq operation d H)|].
  cbn [OCS_Dome.core OCS_Dome.add_timer OCS_Dome.set_core OCS.tty OCS.set_tty
       OCS_Dome.timers OCS_Dome.shutterState].
  split; [|split; [reflexivity | split; reflexivity]].
  rewrite written_line_written. destruct operation; reflexivity.
Qed.

Lemma ControlShutter_reports_busy_whatever_the_line_witness :
  exists d',
    OCS_Dome.ControlShutter OCS_Dome.SHUTTER_OPEN
      (OCS_Dome.started (fresh_port [TTY_WRITE_ERROR] [])) = Done IPS_BUSY d' /\
    OCS_Dome.timers d' = [500%Z].
Proof.
  destruct (ControlShutter_reports_busy_whatever_the_line
              OCS_Dome.SHUTTER_OPEN
              (OCS_Dome.started (fresh_port [TTY_WRITE_ERROR] [])))
    as (d' & E & _ & _ & T & _).
  - simpl. lia.
  - exists d'. split; [exact E | exact T].
Defined.

(** X20.  [OCS::TimerHit] acts on a roof status only when its first
    field is [o], [c] or [i]: a status with another first field, such as
    the replies [OPEN#] and [CLOSED#] that the lexicon of ocs.h lists,
    is dropped without a warning, and with no roof error reported the
    shutter state after the poll is what it was before. *)
Theorem roof_status_without_prefix_is_dropped
    (d : OCS_Dome.driver) (outs : list TTY_ERROR)
    (x0 a0 x1 a1 : arrival) (ins : list arrival)
    (status rest0 rest1 tok : list ascii) (more : list (list ascii)) :
  line_out (OCS.tty (OCS_Dome.core d)) = TTY_OK :: TTY_OK :: outs ->
  line_in (OCS.tty (OCS_Dome.core d)) = x0 :: a0 :: x1 :: a1 :: ins ->
  arr_bytes a0 = status ++ terminator :: rest0 ->
  forallb text_char status = true ->
  0 < length status < RB_MAX_LEN ->
  strtok_all status ","%char = tok :: more ->
  ~ In tok (map of_string ["o"; "c"; "i"]%string) ->
  arr_bytes a1 = terminator :: rest1 ->
  (exists d',
      OCS_Dome.TimerHit d = Done tt d' /\
      OCS_Dome.shutterState d' = OCS_Dome.shutterState d)
  \/ (exists d', OCS_Dome.TimerHit d = Undefined d').
Proof.
  intros Ho Hi Ha0 Ht0 Hl0 T N Ha1.
  pose proof (@next_write_of_line_out _ _ _ Ho) as W0.
  pose proof (@answer_of_line_in _ _ _ _ Hi) as R0.
  assert (He : is_ok (next_write (OCS.tty (OCS_Dome.core d))) = true)
    by now rewrite W0.
  rewrite <- R0 in Ha0.
  destruct (@poll_roof_status_whole d status rest0 He Ha0 Ht0 Hl0)
    as (b & s' & E & C).
  rewrite <- C in T.
  rewrite (@roof_status_keeps_other b _ tok more T N) in E.
  destruct (ends_or_undefined _ _
              (@TimerHit_empty_roof_error d outs x0 a0 x1 a1 ins rest1
                 Ho Hi Ha1))
    as [([] & d' & E' & S & _) | U].
  - left. exists d'. split; [exact E'|]. now rewrite (S _ _ E).
  - right. exact U.
Qed.

Lemma roof_status_without_prefix_is_dropped_witness :
  exists d',
    OCS_Dome.TimerHit open_roof_by_the_lexicon = Done tt d' /\
    OCS_Dome.shutterState d' = OCS_Dome.SHUTTER_UNKNOWN.
Proof.
  destruct (@roof_status_without_prefix_is_dropped
              open_roof_by_the_lexicon
              [TTY_OK; TTY_OK; TTY_OK]
              silence (delivers "OPEN#") silence (delivers "#")
              [silence; delivers "21.5,40.0#"; silence;
               delivers "18#"; silence; delivers "30#"]
              (of_string "OPEN") [] [] (of_string "OPEN") []
              eq_refl eq_refl eq_refl eq_refl)
    as [H | [d' U]].
  - unfold RB_MAX_LEN. simpl. lia.
  - reflexivity.
  - simpl. intros [H | [H | [H | []]]]; discriminate H.
  - reflexivity.
  - exact H.
  - vm_compute in U. discriminate U.
Defined.
